(** * Workspace folder tracking of the extension host, and the localization
      update script: a shallow embedding and the properties proved about it.

    The first part follows [src/vs/workbench/api/node/extHostWorkspace.ts],
    the second the script [update-localization-extension.js].  Folder objects
    are mutable and shared between snapshots in the source
    ([existingFolder.name = ...], [f.index = index]); they therefore live in
    an explicit store, and snapshots hold references into it.  Line numbers
    in the comments are those of the source files. *)

From Stdlib Require Import ZArith Ascii Lia.
From Stdlib Require String.
From stdpp Require Import base tactics option list sorting strings.

(** ** Strings ([vs/base/common/strings]) *)

(** Modelled from the spec: [compare] of [vs/base/common/strings] is not part
    of the sources at hand; locations are "comparable", and the comparison is
    the usual three-way one on code units ([a < b ? -1 : a > b ? 1 : 0]). *)
Definition compare (a b : string) : Z :=
  match String.compare a b with
  | Lt => (-1)%Z
  | Eq => 0%Z
  | Gt => 1%Z
  end.

Definition lowerAscii (c : ascii) : ascii :=
  let n := N_of_ascii c in
  if ((65 <=? n) && (n <=? 90))%N then ascii_of_N (n + 32) else c.

Fixpoint toLowerCase (s : string) : string :=
  match s with
  | EmptyString => EmptyString
  | String c s' => String (lowerAscii c) (toLowerCase s')
  end.

(** Modelled from the spec: "case-insensitive comparison on case-insensitive
    filesystems"; [equalsIgnoreCase] itself is not in the sources at hand. *)
Definition equalsIgnoreCase (a b : string) : bool :=
  String.eqb (toLowerCase a) (toLowerCase b).

(** ** Resource identifiers ([vs/base/common/uri], [vs/base/common/resources]) *)

(** Modelled from the spec: a location is "URI-like: scheme + authority +
    path"; the class [URI] is not in the sources at hand. *)
Record URI : Type := mkURI {
  scheme : string;
  authority : string;
  path : string
}.

Definition toString (u : URI) : string :=
  scheme u +:+ "://" +:+ authority u +:+ path u.

Definition fsPath (u : URI) : string := path u.

Definition withPath (u : URI) (p : string) : URI :=
  mkURI (scheme u) (authority u) p.

(** [URI.file]: a file location; the path is made absolute. *)
Definition URI_file (p : string) : URI :=
  match p with
  | String "/"%char _ => mkURI "file" "" p
  | _ => mkURI "file" "" ("/" +:+ p)
  end.

(** Modelled from the spec: [isEqual] of [vs/base/common/resources] compares
    two locations, ignoring letter case when asked to. *)
Definition isEqual (a b : URI) (ignoreCase : bool) : bool :=
  if ignoreCase then equalsIgnoreCase (toString a) (toString b)
  else String.eqb (toString a) (toString b).

(** ** Arrays: [Array.prototype.sort] and [delta] of [vs/base/common/arrays] *)

Section Arrays.
Context {A : Type}.
Variable cmp : A -> A -> Z.

(** One step of insertion: [racc] is the part already in order, last element
    first; [x] travels left past every element [t] with [cmp t x > 0]. *)
Fixpoint insertSorted (x : A) (racc : list A) : list A :=
  match racc with
  | [] => [x]
  | t :: r => if (0 <? cmp t x)%Z then t :: insertSorted x r else x :: racc
  end.

(** [Array.prototype.sort(cmp)], a language primitive, as insertion sort: the
    order it yields is the order every conforming, stable sort yields when
    [cmp] is a consistent comparator. *)
Definition sort (l : list A) : list A :=
  rev (fold_left (fun racc x => insertSorted x racc) l []).

(** Modelled from the spec: [delta] of [vs/base/common/arrays] is not in the
    sources at hand.  It takes two lists sorted by [cmp] and walks them in
    step: elements equal under [cmp] are dropped from both sides, a smaller
    element of [before] is reported removed, a smaller element of [after] is
    reported added.  The result is [(removed, added)]. *)
Fixpoint arrayDelta (before after : list A) {struct before} : list A * list A :=
  match before with
  | [] => ([], after)
  | b :: before' =>
      (fix walk (after : list A) : list A * list A :=
         match after with
         | [] => (before, [])
         | a :: after' =>
             let n := cmp b a in
             if (n =? 0)%Z then arrayDelta before' after'
             else if (n <? 0)%Z then
               let '(removed, added) := arrayDelta before' after in
               (b :: removed, added)
             else
               let '(removed, added) := walk after' in
               (removed, a :: added)
         end) after
  end.

(** [delta] (lines 37-42): sort copies of both lists, then diff them. *)
Definition delta (oldFolders newFolders : list A) : list A * list A :=
  arrayDelta (sort oldFolders) (sort newFolders).

End Arrays.

(** ** Folder objects and the store they live in *)

Record WorkspaceFolder : Type := mkFolder {
  uri : URI;
  name : string;
  index : Z
}.

#[global] Instance WorkspaceFolder_inhabited : Inhabited WorkspaceFolder :=
  populate (mkFolder (mkURI "" "" "") "" 0%Z).

(** A reference to a folder object: its position in the store. *)
Abbreviation ref := nat (only parsing).
Abbreviation heap := (list WorkspaceFolder) (only parsing).

Definition alloc (h : heap) (f : WorkspaceFolder) : heap * ref :=
  (h ++ [f], length h).

Definition setName (r : ref) (n : string) (h : heap) : heap :=
  alter (fun f => mkFolder (uri f) n (index f)) r h.

Definition setIndex (r : ref) (i : Z) (h : heap) : heap :=
  alter (fun f => mkFolder (uri f) (name f) i) r h.

Definition uriOf (h : heap) (r : ref) : URI := uri (h !!! r).
Definition nameOf (h : heap) (r : ref) : string := name (h !!! r).
Definition indexOf (h : heap) (r : ref) : Z := index (h !!! r).

(** ** The search tree over folder locations ([TernarySearchTree.forPaths]) *)

(** Path keys are compared segment by segment; separators are [/] and [\],
    and empty segments do not count. *)
Definition isSeparator (c : ascii) : bool :=
  (Ascii.eqb c "/" || Ascii.eqb c "\")%char.

Definition isSlash (c : ascii) : bool := Ascii.eqb c "/"%char.

(** [splitOn sep cur s]: the non-empty pieces of [s] between separators;
    [cur] holds the piece being read, last character first. *)
Fixpoint splitOn (sep : ascii -> bool) (cur : string) (s : string) : list string :=
  match s with
  | EmptyString => if String.eqb cur "" then [] else [String.rev cur]
  | String c s' =>
      if sep c
      then (if String.eqb cur "" then splitOn sep "" s'
            else String.rev cur :: splitOn sep "" s')
      else splitOn sep (String c cur) s'
  end.

Definition segments (s : string) : list string := splitOn isSeparator "" s.

Fixpoint isPrefixOf (k q : list string) : bool :=
  match k, q with
  | [], _ => true
  | _ :: _, [] => false
  | a :: k', b :: q' => String.eqb a b && isPrefixOf k' q'
  end.

Definition segmentsEqb (k q : list string) : bool :=
  bool_decide (k = q).

(** Modelled from the spec: the prefix tree ("longest-matching-prefix lookup
    over all known folder locations", "keyed by normalized path segments") is
    not in the sources at hand.  It is kept as the list of its entries, each
    key split into segments, in insertion order. *)
Definition TernarySearchTree (E : Type) := list (list string * E).

Section Tree.
Context {E : Type}.

Fixpoint tstSetKey (k : list string) (e : E) (t : TernarySearchTree E)
  : TernarySearchTree E :=
  match t with
  | [] => [(k, e)]
  | (k', e') :: t' =>
      if segmentsEqb k' k then (k', e) :: t' else (k', e') :: tstSetKey k e t'
  end.

Definition tstSet (key : string) (e : E) (t : TernarySearchTree E) :=
  tstSetKey (segments key) e t.

Fixpoint tstGetKey (k : list string) (t : TernarySearchTree E) : option E :=
  match t with
  | [] => None
  | (k', e') :: t' => if segmentsEqb k' k then Some e' else tstGetKey k t'
  end.

Definition tstGet (key : string) (t : TernarySearchTree E) : option E :=
  tstGetKey (segments key) t.

(** The entry with the longest key that is a prefix of [q], if any. *)
Fixpoint findLongest (q : list string) (t : TernarySearchTree E)
  (best : option (list string * E)) : option (list string * E) :=
  match t with
  | [] => best
  | (k, e) :: t' =>
      if isPrefixOf k q then
        match best with
        | Some (kb, _) =>
            if (length kb <? length k)%nat then findLongest q t' (Some (k, e))
            else findLongest q t' best
        | None => findLongest q t' (Some (k, e))
        end
      else findLongest q t' best
  end.

Definition tstFindSubstr (key : string) (t : TernarySearchTree E) : option E :=
  snd <$> findLongest (segments key) t None.

End Tree.

(** ** Paths (Node's [path], [vs/base/common/paths]) *)

Fixpoint dropWhile {A} (p : A -> bool) (l : list A) : list A :=
  match l with
  | [] => []
  | x :: l' => if p x then dropWhile p l' else l
  end.

(** [dirname] of Node's [path] module, POSIX flavour: the path up to, and
    without, the last separator that follows a non-separator. *)
Definition dirname (p : string) : string :=
  match String.list_ascii_of_string p with
  | [] => "."
  | c0 :: tl =>
      let hasRoot := isSlash c0 in
      let r1 := dropWhile isSlash (rev tl) in
      let r2 := dropWhile (fun c => negb (isSlash c)) r1 in
      match r2 with
      | [] => if hasRoot then "/" else "."
      | _ :: r3 =>
          if hasRoot && bool_decide (r3 = []) then "//"
          else String.string_of_list_ascii (c0 :: rev r3)
      end
  end.

Fixpoint joinWith (sep : string) (l : list string) : string :=
  match l with
  | [] => ""
  | [x] => x
  | x :: l' => x +:+ sep +:+ joinWith sep l'
  end.

Fixpoint stripCommon (a b : list string) : list string * list string :=
  match a, b with
  | x :: a', y :: b' => if String.eqb x y then stripCommon a' b' else (a, b)
  | _, _ => (a, b)
  end.

(** Modelled from the spec: "the path of the input relative to the containing
    folder's location"; Node's [path.relative] on absolute paths: one [..] for
    every segment of [from] outside the common part, then the rest of [to]. *)
Definition relative (from to : string) : string :=
  let '(f, t) := stripCommon (splitOn isSlash "" from) (splitOn isSlash "" to) in
  joinWith "/" (replicate (length f) ".." ++ t).

Fixpoint mapString (f : ascii -> ascii) (s : string) : string :=
  match s with
  | EmptyString => EmptyString
  | String c s' => String (f c) (mapString f s')
  end.

(** Modelled from the spec: "normalizes directory separators to the
    platform-neutral form"; [normalize] of [vs/base/common/paths] is not in
    the sources at hand. *)
Definition normalize (p : string) : string :=
  mapString (fun c => if Ascii.eqb c "\"%char then "/"%char else c) p.

(** Modelled from the spec: the display name defaults "to the last path
    segment or host name of [location]". *)
Definition basenameOrAuthority (u : URI) : string :=
  match last (segments (path u)) with
  | Some b => b
  | None => authority u
  end.

(** ** Workspace snapshots ([ExtHostWorkspaceImpl]) *)

Record ExtHostWorkspaceImpl : Type := mkImpl {
  ws_id : string;
  ws_name : string;
  workspaceFolders : list ref;
  structure : TernarySearchTree ref
}.

(** A folder descriptor as it crosses the process boundary. *)
Record IFolderData : Type := mkFolderData {
  fd_uri : URI;
  fd_name : string;
  fd_index : Z
}.

(** What the merge is given for one folder: a descriptor received from the
    main side, or (lines 198-203) a live folder object handed over as data,
    whose fields are read when the merge gets to it. *)
Inductive FolderArg : Type :=
  | Received (d : IFolderData)
  | Live (r : ref).

Definition argUri (h : heap) (a : FolderArg) : URI :=
  match a with Received d => fd_uri d | Live r => uriOf h r end.
Definition argName (h : heap) (a : FolderArg) : string :=
  match a with Received d => fd_name d | Live r => nameOf h r end.
Definition argIndex (h : heap) (a : FolderArg) : Z :=
  match a with Received d => fd_index d | Live r => indexOf h r end.

(** [IWorkspaceData] as it crosses the process boundary. *)
Record IWorkspaceData : Type := mkData {
  d_id : string;
  d_name : string;
  d_configuration : option URI;
  d_folders : list IFolderData
}.

(** The same, as [toExtHostWorkspace] sees it. *)
Record WorkspaceDataArg : Type := mkDataArg {
  a_id : string;
  a_name : string;
  a_folders : list FolderArg
}.

Definition received (d : IWorkspaceData) : WorkspaceDataArg :=
  mkDataArg (d_id d) (d_name d) (Received <$> d_folders d).

Record MergeResult : Type := mkMerge {
  workspace : option ExtHostWorkspaceImpl;
  added : list ref;
  removed : list ref
}.

Section Workspace.
Variable isLinux : bool.

(** Lines 21-23. *)
Definition isFolderEqual (folderA folderB : URI) : bool :=
  isEqual folderA folderB (negb isLinux).

(** Lines 25-27. *)
Definition compareWorkspaceFolderByUri (h : heap) (a b : ref) : Z :=
  if isFolderEqual (uriOf h a) (uriOf h b) then 0%Z
  else compare (toString (uriOf h a)) (toString (uriOf h b)).

(** Lines 29-35. *)
Definition compareWorkspaceFolderByUriAndNameAndIndex (h : heap) (a b : ref) : Z :=
  if negb (indexOf h a =? indexOf h b)%Z then
    (if (indexOf h a <? indexOf h b)%Z then (-1)%Z else 1%Z)
  else if isFolderEqual (uriOf h a) (uriOf h b)
       then compare (nameOf h a) (nameOf h b)
       else compare (toString (uriOf h a)) (toString (uriOf h b)).

(** Lines 90-99: the first folder of the snapshot at the given location. *)
Definition _findFolder (h : heap) (w : ExtHostWorkspaceImpl) (folderUriToFind : URI)
  : option ref :=
  List.find (fun r => isFolderEqual (uriOf h r) folderUriToFind)
            (workspaceFolders w).

(** Line 110: [this._structure.set(folder.uri.toString(), folder)]. *)
Definition addFolder (h : heap) (t : TernarySearchTree ref) (folder : ref)
  : TernarySearchTree ref :=
  tstSet (toString (uriOf h folder)) folder t.

(** Lines 104-112: the constructor. *)
Definition newExtHostWorkspaceImpl (h : heap) (id nm : string) (folders : list ref)
  : ExtHostWorkspaceImpl :=
  mkImpl id nm folders (fold_left (addFolder h) folders []).

(** Lines 64-76: the body of [folders.forEach], for the descriptor at
    position [i]. *)
Definition mergeFolder (src : ExtHostWorkspaceImpl) (i : nat) (folderData : FolderArg)
  (h : heap) (newWorkspaceFolders : list ref) : heap * list ref :=
  let folderUri := argUri h folderData in
  match _findFolder h src folderUri with
  | Some existingFolder =>
      let h1 := setName existingFolder (argName h folderData) h in
      let h2 := setIndex existingFolder (argIndex h1 folderData) h1 in
      (h2, newWorkspaceFolders ++ [existingFolder])
  | None =>
      let '(h1, r) := alloc h (mkFolder folderUri (argName h folderData) (Z.of_nat i)) in
      (h1, newWorkspaceFolders ++ [r])
  end.

Fixpoint mergeFolders (src : ExtHostWorkspaceImpl) (i : nat) (folders : list FolderArg)
  (h : heap) (newWorkspaceFolders : list ref) : heap * list ref :=
  match folders with
  | [] => (h, newWorkspaceFolders)
  | folderData :: rest =>
      let '(h1, acc) := mergeFolder src i folderData h newWorkspaceFolders in
      mergeFolders src (S i) rest h1 acc
  end.

(** Line 78: without a previous snapshot every folder is built afresh. *)
Fixpoint freshFolders (folders : list FolderArg) (h : heap) (acc : list ref)
  : heap * list ref :=
  match folders with
  | [] => (h, acc)
  | folderData :: rest =>
      let '(h1, r) :=
        alloc h (mkFolder (argUri h folderData) (argName h folderData)
                          (argIndex h folderData)) in
      freshFolders rest h1 (acc ++ [r])
  end.

(** Line 82: the comparator that restores the order by index. *)
Definition compareByIndex (h : heap) (f1 f2 : ref) : Z :=
  if (indexOf h f1 <? indexOf h f2)%Z then (-1)%Z else 1%Z.

(** Lines 51-88. *)
Definition toExtHostWorkspace (h : heap) (data : option WorkspaceDataArg)
  (previousConfirmedWorkspace previousUnconfirmedWorkspace : option ExtHostWorkspaceImpl)
  : heap * MergeResult :=
  match data with
  | None => (h, mkMerge None [] [])
  | Some d =>
      let oldWorkspace := previousConfirmedWorkspace in
      let '(h1, newWorkspaceFolders) :=
        match oldWorkspace with
        | Some confirmed =>
            let src := default confirmed previousUnconfirmedWorkspace in
            mergeFolders src 0 (a_folders d) h []
        | None => freshFolders (a_folders d) h []
        end in
      let sorted := sort (compareByIndex h1) newWorkspaceFolders in
      let ws := newExtHostWorkspaceImpl h1 (a_id d) (a_name d) sorted in
      let '(rem, add) :=
        delta (compareWorkspaceFolderByUri h1)
              (from_option workspaceFolders [] oldWorkspace)
              (workspaceFolders ws) in
      (h1, mkMerge (Some ws) add rem)
  end.

(** Lines 118-124. *)
Definition getWorkspaceFolder (w : ExtHostWorkspaceImpl) (u : URI) (resolveParent : bool)
  : option ref :=
  let u' :=
    if resolveParent && bool_decide (is_Some (tstGet (toString u) (structure w)))
    then withPath u (dirname (path u))
    else u in
  tstFindSubstr (toString u') (structure w).

End Workspace.

(** ** The extension-host side of the workspace ([ExtHostWorkspace]) *)

Record ExtHostWorkspace : Type := mkHost {
  store : heap;
  hasProxy : bool;
  confirmedWorkspace : option ExtHostWorkspaceImpl;
  unconfirmedWorkspace : option ExtHostWorkspaceImpl
}.

(** The payload of [onDidChangeWorkspace]: the folder objects themselves. *)
Record WorkspaceFoldersChangeEvent : Type := mkEvent {
  ev_added : list ref;
  ev_removed : list ref
}.

(** An argument of type [number] as JavaScript hands it over: an integer, or
    something [typeof] does not call a number. *)
Inductive JsValue : Type :=
  | JsNumber (z : Z)
  | JsNotNumber.

(** An element of the rest parameter [workspaceFoldersToAdd]; [add_uri] is
    [None] when the [uri] property is not a [URI]. *)
Record FolderToAdd : Type := mkToAdd {
  add_uri : option URI;
  add_name : option string
}.

Record ValidatedFolder : Type := mkValidated {
  v_uri : URI;
  v_name : string
}.

(** A call of [$updateWorkspaceFolders] on the main-side proxy. *)
Record ProxyCall : Type := mkCall {
  c_extensionName : string;
  c_index : Z;
  c_deleteCount : Z;
  c_folders : list ValidatedFolder
}.

Inductive Outcome : Type :=
  | Returns (b : bool)
  | ThrowsTypeError.

Inductive PathOrUri : Type :=
  | PathString (s : string)
  | PathUri (u : URI)
  | PathUndefined.

(** [a || b] on a string that may be missing: the empty string is falsy. *)
Definition orElse (a : option string) (b : string) : string :=
  match a with
  | Some s => if String.eqb s "" then b else s
  | None => b
  end.

Section Host.
Variable isLinux : bool.

(** Lines 139-142. *)
Definition newExtHostWorkspace (proxy : bool) (data : option IWorkspaceData)
  : ExtHostWorkspace :=
  let '(h, m) := toExtHostWorkspace isLinux [] (received <$> data) None None in
  mkHost h proxy (workspace m) None.

(** Lines 150-152. *)
Definition _actualWorkspace (st : ExtHostWorkspace) : option ExtHostWorkspaceImpl :=
  match unconfirmedWorkspace st with
  | Some u => Some u
  | None => confirmedWorkspace st
  end.

(** Lines 154-159. *)
Definition getWorkspaceFolders (st : ExtHostWorkspace) : option (list ref) :=
  workspaceFolders <$> _actualWorkspace st.

(** Lines 162-169: keep the entries with a [URI], the first of each location. *)
Definition validateFolder (acc : list ValidatedFolder) (folderToAdd : FolderToAdd)
  : list ValidatedFolder :=
  match add_uri folderToAdd with
  | Some u =>
      if existsb (fun f => isFolderEqual isLinux (v_uri f) u) acc then acc
      else acc ++ [mkValidated u (orElse (add_name folderToAdd) (basenameOrAuthority u))]
  | None => acc
  end.

Definition validatedDistinct (workspaceFoldersToAdd : list FolderToAdd)
  : list ValidatedFolder :=
  fold_left validateFolder workspaceFoldersToAdd [].

(** Line 171. *)
Definition invalidNumber (i : JsValue) : bool :=
  match i with
  | JsNumber z => (z <? 0)%Z
  | JsNotNumber => true
  end.

Definition numberOf (i : JsValue) : Z :=
  match i with
  | JsNumber z => z
  | JsNotNumber => 0%Z
  end.

(** Line 185: the objects built for the folders to insert. *)
Fixpoint allocFolders (fs : list ValidatedFolder) (h : heap) : heap * list ref :=
  match fs with
  | [] => (h, [])
  | f :: rest =>
      let '(h1, r) :=
        alloc h (mkFolder (v_uri f)
                          (orElse (Some (v_name f)) (basenameOrAuthority (v_uri f)))
                          0%Z) in
      let '(h2, rs) := allocFolders rest h1 in
      (h2, r :: rs)
  end.

(** Line 186: [newWorkspaceFolders.forEach((f, index) => f.index = index)]. *)
Fixpoint fixIndex (i : nat) (folders : list ref) (h : heap) : heap :=
  match folders with
  | [] => h
  | f :: rest => fixIndex (S i) rest (setIndex f (Z.of_nat i) h)
  end.

(** Lines 184-186: the edited list, and the store once its indices are fixed. *)
Definition editedFolders (h : heap) (currentWorkspaceFolders : list ref)
  (idx deleteCount : Z) (toAdd : list ValidatedFolder) : heap * list ref :=
  let '(h1, inserted) := allocFolders toAdd h in
  let newWorkspaceFolders :=
    take (Z.to_nat idx) currentWorkspaceFolders ++ inserted
    ++ drop (Z.to_nat idx + Z.to_nat deleteCount) currentWorkspaceFolders in
  (fixIndex 0 newWorkspaceFolders h1, newWorkspaceFolders).

(** Lines 264-275. *)
Definition trySetWorkspaceData (st : ExtHostWorkspace) (data : WorkspaceDataArg)
  : ExtHostWorkspace * bool :=
  match _actualWorkspace st with
  | Some actual =>
      let '(h, m) := toExtHostWorkspace isLinux (store st) (Some data) (Some actual) None in
      (mkHost h (hasProxy st) (confirmedWorkspace st) (workspace m), true)
  | None => (st, false)
  end.

(** Lines 161-206.  The result is the new state, the calls made on the proxy
    and how the call ends. *)
Definition updateWorkspaceFolders (st : ExtHostWorkspace) (extensionName : string)
  (idx deleteCount : JsValue) (workspaceFoldersToAdd : list FolderToAdd)
  : ExtHostWorkspace * list ProxyCall * Outcome :=
  let validated := validatedDistinct workspaceFoldersToAdd in
  if invalidNumber idx || invalidNumber deleteCount then (st, [], Returns false)
  else
    let i := numberOf idx in
    let n := numberOf deleteCount in
    if (n =? 0)%Z && bool_decide (length validated = 0%nat) then (st, [], Returns false)
    else
      let currentWorkspaceFolders := from_option workspaceFolders [] (_actualWorkspace st) in
      if (Z.of_nat (length currentWorkspaceFolders) <? i + n)%Z then (st, [], Returns false)
      else
        let '(h, newWorkspaceFolders) :=
          editedFolders (store st) currentWorkspaceFolders i n validated in
        let st1 := mkHost h (hasProxy st) (confirmedWorkspace st) (unconfirmedWorkspace st) in
        let '(rem, add) :=
          delta (compareWorkspaceFolderByUriAndNameAndIndex isLinux h)
                currentWorkspaceFolders newWorkspaceFolders in
        if bool_decide (length add = 0%nat) && bool_decide (length rem = 0%nat)
        then (st1, [], Returns false)
        else
          let calls :=
            if hasProxy st then [mkCall extensionName i n validated] else [] in
          match _actualWorkspace st1 with
          | None => (st1, calls, ThrowsTypeError)
          | Some actual =>
              let '(st2, accepted) :=
                trySetWorkspaceData st1
                  (mkDataArg (ws_id actual) (ws_name actual) (Live <$> newWorkspaceFolders)) in
              (st2, calls, Returns accepted)
          end.

(** Lines 208-213. *)
Definition hostGetWorkspaceFolder (st : ExtHostWorkspace) (u : URI) (resolveParent : bool)
  : option ref :=
  _actualWorkspace st ≫= (fun w => getWorkspaceFolder w u resolveParent).

(** Lines 231-262; [None] stands for [undefined]. *)
Definition getRelativePath (st : ExtHostWorkspace) (pathOrUri : PathOrUri)
  (includeWorkspace : option bool) : option string :=
  let p :=
    match pathOrUri with
    | PathString s => Some s
    | PathUri u => Some (fsPath u)
    | PathUndefined => None
    end in
  match p with
  | None => None
  | Some s =>
      if String.eqb s "" then Some s
      else
        let u :=
          match pathOrUri with
          | PathString s' => URI_file s'
          | PathUri u => u
          | PathUndefined => URI_file s
          end in
        match hostGetWorkspaceFolder st u true with
        | None => Some s
        | Some folder =>
            let include :=
              match includeWorkspace with
              | Some b => b
              | None =>
                  (1 <? length (from_option workspaceFolders [] (_actualWorkspace st)))%nat
              end in
            let result := relative (fsPath (uriOf (store st) folder)) s in
            let result := if include then nameOf (store st) folder +:+ "/" +:+ result
                          else result in
            Some (normalize result)
        end
  end.

(** Lines 277-291: the new state and the events fired. *)
Definition acceptWorkspaceData (st : ExtHostWorkspace) (data : option IWorkspaceData)
  : ExtHostWorkspace * list WorkspaceFoldersChangeEvent :=
  let '(h, m) :=
    toExtHostWorkspace isLinux (store st) (received <$> data)
      (confirmedWorkspace st) (unconfirmedWorkspace st) in
  (mkHost h (hasProxy st) (workspace m) None, [mkEvent (added m) (removed m)]).

End Host.

(** ** The localization update script ([update-localization-extension.js]) *)

Module Script.

#[local] Unset Elimination Schemes.

Inductive Json : Type :=
  | JNull
  | JBool (b : bool)
  | JNumber (z : Z)
  | JString (s : string)
  | JArray (items : list Json)
  | JObject (fields : list (string * Json)).

Inductive FileContent : Type :=
  | JsonText (j : Json)
  | OtherText.

(** The file system is a tree; a location is the list of names leading to it
    from the root. *)
Inductive Node : Type :=
  | File (content : FileContent)
  | Dir (entries : list (string * Node)).

#[local] Set Elimination Schemes.

(** The five [throw new Error(...)] of the script, in source order. *)
Inductive Thrown : Type :=
  | MissingArgument
  | NoDirectory
  | NoContributes
  | NoLocalizations
  | BadLocalization.

Inductive ScriptError : Type :=
  | Error (which : Thrown)
  | TypeError
  | SyntaxError
  | SystemError.

(** What a run does to the outside, in the order it does it: [Cleared] is
    the [rimraf.sync] of line 50, and [Download] the pull of lines 54-55,
    with its arguments and the folder its files are piped into. *)
Inductive Effect : Type :=
  | Cleared (folder : list string)
  | Download (server userName : Json) (apiToken : option string)
             (languageId : Json) (dest : list string).

(** How a run ends: the file system as the script's own file operations
    (the clearing of line 50) leave it, what the run did, and the error
    that aborted it, if any.  The files of a download are not part of
    [fs_cleared]: they come from the translation service and are streamed
    into the destination of their [Download] when [update] has returned, so
    that no check of line 48 sees them. *)
Record Run : Type := mkRun {
  fs_cleared : Node;
  effects : list Effect;
  error : option ScriptError
}.

(** JavaScript truthiness of a value that may be [undefined]. *)
Definition truthy (v : option Json) : bool :=
  match v with
  | None | Some JNull => false
  | Some (JBool b) => b
  | Some (JNumber z) => negb (z =? 0)%Z
  | Some (JString s) => negb (String.eqb s "")
  | Some (JArray _) | Some (JObject _) => true
  end.

Fixpoint assoc {V : Type} (key : string) (l : list (string * V)) : option V :=
  match l with
  | [] => None
  | (k, v) :: l' =>
      match assoc key l' with
      | Some v' => Some v'
      | None => if String.eqb k key then Some v else None
      end
  end.

(** The member [key] of a JSON object; anything else has no such member. *)
Definition member (j : Json) (key : string) : option Json :=
  match j with
  | JObject fields => assoc key fields
  | _ => None
  end.

(** [v[key]]: reading a property of [null] throws, and a value that is not an
    object yields [undefined]. *)
Definition getProp (j : Json) (key : string) : ScriptError + option Json :=
  match j with
  | JNull => inl TypeError
  | _ => inr (member j key)
  end.

Definition isWordChar (c : ascii) : bool :=
  let n := N_of_ascii c in
  ((48 <=? n) && (n <=? 57) || (65 <=? n) && (n <=? 90)
   || (97 <=? n) && (n <=? 122) || (n =? 95))%N.

Fixpoint allWordChars (s : string) : bool :=
  match s with
  | EmptyString => true
  | String c s' => isWordChar c && allWordChars s'
  end.

(** [/^\w{2}(-\w+)?$/]. *)
Definition isLanguageId (s : string) : bool :=
  match s with
  | String a (String b rest) =>
      isWordChar a && isWordChar b &&
      match rest with
      | EmptyString => true
      | String "-"%char (String c tl) => isWordChar c && allWordChars tl
      | _ => false
      end
  | _ => false
  end.

(** Following path segments from a location: [.] stays, [..] goes up. *)
Definition walkSegment (base : list string) (seg : string) : list string :=
  if String.eqb seg "." then base
  else if String.eqb seg ".." then removelast base
  else base ++ [seg].

Definition walk (base : list string) (segs : list string) : list string :=
  fold_left walkSegment segs base.

Definition isAbsolute (p : string) : bool :=
  match p with
  | String "/"%char _ => true
  | _ => false
  end.

(** The location a path denotes when the working directory is [cwd]. *)
Definition resolve (cwd : list string) (p : string) : list string :=
  walk (if isAbsolute p then [] else cwd) (splitOn isSlash "" p).

(** The location of [path.join(base, p)]. *)
Definition joinPath (base : list string) (p : string) : list string :=
  walk base (splitOn isSlash "" p).

Fixpoint lookupEntry (name : string) (entries : list (string * Node)) : option Node :=
  match entries with
  | [] => None
  | (k, n) :: rest => if String.eqb k name then Some n else lookupEntry name rest
  end.

Fixpoint lookupNode (root : Node) (loc : list string) : option Node :=
  match loc with
  | [] => Some root
  | seg :: rest =>
      match root with
      | Dir entries =>
          match lookupEntry seg entries with
          | Some n => lookupNode n rest
          | None => None
          end
      | File _ => None
      end
  end.

Fixpoint removeEntry (name : string) (entries : list (string * Node))
  : list (string * Node) :=
  match entries with
  | [] => []
  | (k, n) :: rest =>
      if String.eqb k name then removeEntry name rest else (k, n) :: removeEntry name rest
  end.

Fixpoint replaceEntry (name : string) (n' : Node) (entries : list (string * Node))
  : list (string * Node) :=
  match entries with
  | [] => []
  | (k, n) :: rest =>
      if String.eqb k name then (k, n') :: rest else (k, n) :: replaceEntry name n' rest
  end.

(** [rimraf.sync]: the node at [loc] goes, with all below it. *)
Fixpoint rimraf (root : Node) (loc : list string) : Node :=
  match loc, root with
  | [seg], Dir entries => Dir (removeEntry seg entries)
  | seg :: rest, Dir entries =>
      match lookupEntry seg entries with
      | Some n => Dir (replaceEntry seg (rimraf n rest) entries)
      | None => root
      end
  | _, _ => root
  end.

Definition existsSync (fs : Node) (loc : list string) : bool :=
  bool_decide (is_Some (lookupNode fs loc)).

(** What [fs.statSync] returns.  The script tests the property
    [isDirectory], not the result of calling it (line 25). *)
Record Stats : Type := mkStats { isDirectoryResult : bool }.

Definition statSync (fs : Node) (loc : list string) : ScriptError + Stats :=
  match lookupNode fs loc with
  | Some (Dir _) => inr (mkStats true)
  | Some (File _) => inr (mkStats false)
  | None => inl SystemError
  end.

(** [locExtStat.isDirectory] is a method, hence a truthy value. *)
Definition isDirectoryProperty (s : Stats) : bool := true.

Definition readFileSync (fs : Node) (loc : list string) : ScriptError + FileContent :=
  match lookupNode fs loc with
  | Some (File c) => inr c
  | _ => inl SystemError
  end.

Definition JSON_parse (c : FileContent) : ScriptError + Json :=
  match c with
  | JsonText j => inr j
  | OtherText => inl SyntaxError
  end.

(** [a || b] on values. *)
Definition orDefault (a : option Json) (b : Json) : Json :=
  match a with
  | Some v => if truthy a then v else b
  | None => b
  end.

(** The string an expression used as a path must be; [path.join] throws on
    anything else. *)
Definition asPath (v : option Json) : ScriptError + string :=
  match v with
  | Some (JString s) => inr s
  | _ => inl TypeError
  end.

(** Lines 38-56: the body of [localizations.forEach], for one entry.  The
    file system returned is the one the next entry finds: the folder is
    gone when line 50 cleared it, and the download of lines 54-55, whose
    files are written later, is recorded as an effect. *)
Definition updateEntry (apiToken : option string) (locExtFolder : list string)
  (fs : Node) (localization : Json) : Node * list Effect * option ScriptError :=
  match getProp localization "languageId" with
  | inl e => (fs, [], Some e)
  | inr languageId0 =>
      let languageName := member localization "languageName" in
      let translations := member localization "translations" in
      if negb (truthy languageId0) || negb (truthy languageName)
         || negb (truthy translations)
      then (fs, [], Some (Error BadLocalization))
      else
        let server := orDefault (member localization "server") (JString "www.transifex.com") in
        let userName := orDefault (member localization "userName") (JString "api") in
        let languageId :=
          orDefault (member localization "transifexId")
                    (default JNull languageId0) in
        match asPath translations with
        | inl e => (fs, [], Some e)
        | inr t =>
            let translationDataFolder := joinPath locExtFolder t in
            let clear :=
              existsSync fs translationDataFolder
              && existsSync fs (joinPath translationDataFolder "main.i18n.json") in
            let fs1 := if clear then rimraf fs translationDataFolder else fs in
            (fs1,
             (if clear then [Cleared translationDataFolder] else [])
             ++ [Download server userName apiToken languageId translationDataFolder],
             None)
        end
  end.

Fixpoint updateEntries (apiToken : option string) (locExtFolder : list string)
  (fs : Node) (localizations : list Json) : Node * list Effect * option ScriptError :=
  match localizations with
  | [] => (fs, [], None)
  | localization :: rest =>
      match updateEntry apiToken locExtFolder fs localization with
      | (fs1, eff, Some e) => (fs1, eff, Some e)
      | (fs1, eff, None) =>
          let '(fs2, eff2, r) := updateEntries apiToken locExtFolder fs1 rest in
          (fs2, eff ++ eff2, r)
      end
  end.

(** Lines 20-23: the folder the argument stands for. *)
Definition locExtFolderOf (idOrPath : string) : string :=
  if isLanguageId idOrPath then "../vscode-localization-" +:+ idOrPath else idOrPath.

Definition aborted (fs : Node) (e : ScriptError) : Run := mkRun fs [] (Some e).

(** Lines 15-59.  [apiToken] is [process.env.TRANSIFEX_API_TOKEN], [cwd] the
    working directory, [None] a missing argument. *)
Definition update (apiToken : option string) (cwd : list string) (fs : Node)
  (idOrPath : option string) : Run :=
  match idOrPath with
  | None => aborted fs (Error MissingArgument)
  | Some arg =>
      if String.eqb arg "" then aborted fs (Error MissingArgument)
      else
        let locExtFolder := resolve cwd (locExtFolderOf arg) in
        match statSync fs locExtFolder with
        | inl e => aborted fs e
        | inr locExtStat =>
            if negb (isDirectoryProperty locExtStat) then aborted fs (Error NoDirectory)
            else
              match readFileSync fs (joinPath locExtFolder "package.json") with
              | inl e => aborted fs e
              | inr text =>
                  match JSON_parse text with
                  | inl e => aborted fs e
                  | inr packageJSON =>
                      match getProp packageJSON "contributes" with
                      | inl e => aborted fs e
                      | inr contributes =>
                          if negb (truthy contributes)
                          then aborted fs (Error NoContributes)
                          else
                            let localizations :=
                              member (default JNull contributes) "localizations" in
                            if negb (truthy localizations)
                            then aborted fs (Error NoLocalizations)
                            else
                              match localizations with
                              | Some (JArray items) =>
                                  let '(fs1, eff, r) :=
                                    updateEntries apiToken locExtFolder fs items in
                                  mkRun fs1 eff r
                              | _ => aborted fs TypeError
                              end
                      end
                  end
              end
        end
  end.

(** *** Vocabulary of the statements about the script *)

Definition isDirectoryAt (fs : Node) (loc : list string) : Prop :=
  exists entries, lookupNode fs loc = Some (Dir entries).

(** The parsed [package.json] of the folder at [loc], when there is one. *)
Definition manifestAt (fs : Node) (loc : list string) : option Json :=
  match lookupNode fs (joinPath loc "package.json") with
  | Some (File (JsonText j)) => Some j
  | _ => None
  end.

Definition lacksContributions (j : Json) : Prop :=
  member j "contributes" = None
  \/ exists c, member j "contributes" = Some c
       /\ forall items, member c "localizations" <> Some (JArray items).

Definition lacksProperty (e : Json) : Prop :=
  member e "languageId" = None
  \/ member e "languageName" = None
  \/ member e "translations" = None.

Definition hasBadLocalization (j : Json) : Prop :=
  exists c items e,
    member j "contributes" = Some c
    /\ member c "localizations" = Some (JArray items)
    /\ e ∈ items /\ lacksProperty e.

(** A sample extension folder [/ext] whose manifest is [manifest]. *)
Definition extensionAt (manifest : Json) : Node :=
  Dir [("ext", Dir [("package.json", File (JsonText manifest))])].

Definition sampleManifest : Json :=
  JObject [("contributes",
            JObject [("localizations",
                      JArray [JObject [("languageId", JString "de");
                                       ("languageName", JString "German")]])])].

End Script.

(** ** Vocabulary of the statements *)

(** The location of a folder object, as the comparators see it. *)
Definition keyOf (h : heap) (r : ref) : string := toString (uriOf h r).

(** Every folder of the snapshot is an object of the store. *)
Definition validRefs (h : heap) (w : option ExtHostWorkspaceImpl) : Prop :=
  Forall (fun r => r < length h) (from_option workspaceFolders [] w).

(** Sample data for the examples. *)
Definition fileUri (p : string) : URI := mkURI "file" "" p.

Definition folderData (p n : string) (i : Z) : IFolderData :=
  mkFolderData (fileUri p) n i.

Definition workspaceData (folders : list IFolderData) : option IWorkspaceData :=
  Some (mkData "id" "ws" None folders).

(** A host without any workspace, wired to the main side. *)
Definition noWorkspace : ExtHostWorkspace := newExtHostWorkspace true true None.

(** A host whose single folder [/ws/a] has been confirmed. *)
Definition oneFolder (isLinux : bool) : ExtHostWorkspace :=
  newExtHostWorkspace isLinux true (workspaceData [folderData "/ws/a" "a" 0]).

(** The segments of a folder's location. *)
Definition segmentsOf (h : heap) (r : ref) : list string := segments (keyOf h r).

(** [u] is the location of one of [folders]. *)
Definition isKnownLocation (h : heap) (folders : list ref) (u : URI) : bool :=
  existsb (fun r => segmentsEqb (segmentsOf h r) (segments (toString u))) folders.

(** The location [getWorkspaceFolder] looks up: the parent of [u] when that
    is asked for and [u] is itself a folder, else [u]. *)
Definition lookedUp (h : heap) (folders : list ref) (u : URI) (resolveParent : bool) : URI :=
  if resolveParent && isKnownLocation h folders u
  then withPath u (dirname (path u)) else u.

(** A host with the folders [/ws/a] and [/ws/b]. *)
Definition twoFolders : ExtHostWorkspace :=
  newExtHostWorkspace true true
    (workspaceData [folderData "/ws/a" "a" 0; folderData "/ws/b" "b" 1]).

(** A host with the folder [/ws] and, inside it, the folder [/ws/a]. *)
Definition nestedFolders : ExtHostWorkspace :=
  newExtHostWorkspace true true
    (workspaceData [folderData "/ws" "ws" 0; folderData "/ws/a" "a" 1]).

(** The path and the location an argument of [getRelativePath] stands for. *)
Definition inputPath (pathOrUri : PathOrUri) : option string :=
  match pathOrUri with
  | PathString s => Some s
  | PathUri u => Some (fsPath u)
  | PathUndefined => None
  end.

Definition inputUri (pathOrUri : PathOrUri) : URI :=
  match pathOrUri with
  | PathString s => URI_file s
  | PathUri u => u
  | PathUndefined => URI_file ""
  end.

Definition folderCount (st : ExtHostWorkspace) : nat :=
  length (from_option workspaceFolders [] (_actualWorkspace st)).

(** Whether the folder name is put in front: as asked, and by default
    exactly when there is more than one folder. *)
Definition includesName (st : ExtHostWorkspace) (includeWorkspace : option bool) : bool :=
  match includeWorkspace with
  | Some b => b
  | None => bool_decide (1 < folderCount st)
  end.

(** Location equality and the location comparator, on the string form. *)
Definition equivKey (isLinux : bool) (k1 k2 : string) : bool :=
  if negb isLinux then equalsIgnoreCase k1 k2 else String.eqb k1 k2.

Definition compareKey (isLinux : bool) (k1 k2 : string) : Z :=
  if equivKey isLinux k1 k2 then 0%Z else compare k1 k2.

(** No two of the locations are equal as folders and yet spelled differently
    (which can only happen where letter case is ignored). *)
Definition spellingConsistent (isLinux : bool) (ks : list string) : Prop :=
  forall k1 k2, k1 ∈ ks -> k2 ∈ ks -> equivKey isLinux k1 k2 = true -> k1 = k2.

Definition dataKeys (folders : list IFolderData) : list string :=
  (fun fd => toString (fd_uri fd)) <$> folders.

Definition folderKeys (h : heap) (w : option ExtHostWorkspaceImpl) : list string :=
  keyOf h <$> from_option workspaceFolders [] w.

(** [h'] has every object of [h], at the same location. *)
Definition extends (h h' : heap) : Prop :=
  length h <= length h' /\ forall r, r < length h -> uriOf h' r = uriOf h r.

(** The location of the folder a descriptor at location [k] is merged into:
    that of the first folder of [src] equal to it, or [k] itself. *)
Definition resolveKey (isLinux : bool) (h : heap) (src : ExtHostWorkspaceImpl)
  (k : string) : string :=
  match List.find (fun r => equivKey isLinux (keyOf h r) k) (workspaceFolders src) with
  | Some r0 => keyOf h r0
  | None => k
  end.

(** The same folder [/ws/a] under another name and index. *)
Definition renamedData : IWorkspaceData :=
  mkData "id" "ws" None [folderData "/ws/a" "renamed" 7].

(** Three locations, two of which differ in letter case only. *)
Definition caseVariantData : IWorkspaceData :=
  mkData "id" "ws" None
    [folderData "/B" "B" 0; folderData "/a" "a" 1; folderData "/b" "b" 2].

(** A store with the folder [/ws/a], and a snapshot holding it. *)
Definition storeA : heap := [mkFolder (fileUri "/ws/a") "a" 0%Z].

Definition snapshotA : ExtHostWorkspaceImpl :=
  newExtHostWorkspaceImpl storeA "id" "ws" [0].

(** The location [/ws/a] twice, under two names and indices. *)
Definition twiceData : IWorkspaceData :=
  mkData "id" "ws" None [folderData "/ws/a" "x" 3; folderData "/ws/a" "y" 4].

(** The folders of the snapshot that reads are served from. *)
Definition currentFolders (st : ExtHostWorkspace) : list ref :=
  from_option workspaceFolders [] (_actualWorkspace st).

(** Every current folder is an object of the store and carries its position
    as index. *)
Definition positionsMatch (st : ExtHostWorkspace) : Prop :=
  forall i r, currentFolders st !! i = Some r ->
    exists f, store st !! r = Some f /\ index f = Z.of_nat i.

(** Both snapshots are the same, and so is every object that was in the
    store. *)
Definition unchanged (st st' : ExtHostWorkspace) : Prop :=
  confirmedWorkspace st' = confirmedWorkspace st
  /\ unconfirmedWorkspace st' = unconfirmedWorkspace st
  /\ forall r, r < length (store st) -> store st' !! r = store st !! r.

(** The delta line 187 computes for an edit. *)
Definition editDelta (isLinux : bool) (st : ExtHostWorkspace) (idx deleteCount : JsValue)
  (workspaceFoldersToAdd : list FolderToAdd) : list ref * list ref :=
  let '(h, newWorkspaceFolders) :=
    editedFolders (store st) (currentFolders st) (numberOf idx) (numberOf deleteCount)
      (validatedDistinct isLinux workspaceFoldersToAdd) in
  delta (compareWorkspaceFolderByUriAndNameAndIndex isLinux h)
        (currentFolders st) newWorkspaceFolders.

(** The four reasons for which an edit is turned down. *)
Definition nothingToDo (isLinux : bool) (deleteCount : JsValue)
  (workspaceFoldersToAdd : list FolderToAdd) : Prop :=
  deleteCount = JsNumber 0 /\ validatedDistinct isLinux workspaceFoldersToAdd = [].

Definition badNumbers (idx deleteCount : JsValue) : Prop :=
  invalidNumber idx = true \/ invalidNumber deleteCount = true.

Definition outOfRange (st : ExtHostWorkspace) (idx deleteCount : JsValue) : Prop :=
  (Z.of_nat (length (currentFolders st)) < numberOf idx + numberOf deleteCount)%Z.

Definition noChange (isLinux : bool) (st : ExtHostWorkspace) (idx deleteCount : JsValue)
  (workspaceFoldersToAdd : list FolderToAdd) : Prop :=
  editDelta isLinux st idx deleteCount workspaceFoldersToAdd = ([], []).

(** A host whose confirmed folders [/ws/d] and [/ws/k] carry the indices 0
    and 5. *)
Definition gappedIndices : ExtHostWorkspace :=
  newExtHostWorkspace true true
    (workspaceData [folderData "/ws/d" "d" 0; folderData "/ws/k" "k" 5]).

(** Both snapshots of a host hold objects of its store. *)
Definition wellFormed (st : ExtHostWorkspace) : Prop :=
  validRefs (store st) (confirmedWorkspace st)
  /\ validRefs (store st) (unconfirmedWorkspace st).

(** ** Further operations of [ExtHostWorkspace] *)

(** Lines 215-229.  [folders] are the copies the base class keeps of the
    folders the snapshot was built from; locations never change, so the
    first of them is at the location of the first folder object. *)
Definition getPath (st : ExtHostWorkspace) : option string :=
  match _actualWorkspace st with
  | None => None
  | Some w =>
      match workspaceFolders w with
      | [] => None
      | folder :: _ => Some (fsPath (uriOf (store st) folder))
      end
  end.

(** A [vscode.GlobPattern]: a string, or a pattern relative to a base. *)
Inductive GlobPattern : Type :=
  | GlobString (s : string)
  | RelativePattern (base pattern : string).

(** A call of [$startSearch] on the proxy. *)
Record StartSearch : Type := mkSearch {
  s_includePattern : option string;
  s_includeFolder : option string;
  s_excludePattern : option string;
  s_maxResults : option Z;
  s_requestId : nat
}.

(** What a call of [findFiles] sets up: the search it starts, and the
    request [$cancelSearch] is called with once the token, if one was given,
    is cancelled. *)
Record SearchHandle : Type := mkHandle {
  started : StartSearch;
  cancels : option nat
}.

(** [if (include)]: a missing pattern and the empty string are falsy. *)
Definition isGiven (p : option GlobPattern) : bool :=
  match p with
  | None => false
  | Some (GlobString s) => negb (String.eqb s "")
  | Some (RelativePattern _ _) => true
  end.

(** Lines 298-307. *)
Definition includeOf (include : option GlobPattern) : option string * option string :=
  if isGiven include then
    match include with
    | Some (GlobString s) => (Some s, None)
    | Some (RelativePattern base pattern) => (Some pattern, Some base)
    | None => (None, None)
    end
  else (None, None).

(** Lines 309-316. *)
Definition excludeOf (exclude : option GlobPattern) : option string :=
  if isGiven exclude then
    match exclude with
    | Some (GlobString s) => Some s
    | Some (RelativePattern _ pattern) => Some pattern
    | None => None
    end
  else None.

(** Lines 295-323.  [requestIdPool] is the static counter
    [_requestIdPool]; the result is its new value and, unless the missing
    proxy makes line 318 throw, what the call set up. *)
Definition findFiles (st : ExtHostWorkspace) (requestIdPool : nat)
  (include exclude : option GlobPattern) (maxResults : option Z) (token : bool)
  : nat * option SearchHandle :=
  let requestId := requestIdPool in
  let pool := S requestIdPool in
  let '(includePattern, includeFolder) := includeOf include in
  let excludePattern := excludeOf exclude in
  if hasProxy st then
    (pool,
     Some (mkHandle
             (mkSearch includePattern includeFolder excludePattern maxResults requestId)
             (if token then Some requestId else None)))
  else (pool, None).

(** One request to [findFiles]. *)
Record FindRequest : Type := mkFind {
  f_include : option GlobPattern;
  f_exclude : option GlobPattern;
  f_maxResults : option Z;
  f_token : bool
}.

(** A series of calls of [findFiles], each taking the counter the previous
    one left. *)
Fixpoint findFilesAll (st : ExtHostWorkspace) (requestIdPool : nat)
  (requests : list FindRequest) : nat * list (option SearchHandle) :=
  match requests with
  | [] => (requestIdPool, [])
  | q :: rest =>
      let '(pool, handle) :=
        findFiles st requestIdPool (f_include q) (f_exclude q) (f_maxResults q)
                  (f_token q) in
      let '(pool', handles) := findFilesAll st pool rest in
      (pool', handle :: handles)
  end.

(** ** Vocabulary of the further statements *)

(** The folder object built for a descriptor. *)
Definition folderOf (fd : IFolderData) : WorkspaceFolder :=
  mkFolder (fd_uri fd) (fd_name fd) (fd_index fd).

(** Whether an edit is turned down. *)
Definition turnedDown (isLinux : bool) (st : ExtHostWorkspace) (idx deleteCount : JsValue)
  (workspaceFoldersToAdd : list FolderToAdd) : Prop :=
  nothingToDo isLinux deleteCount workspaceFoldersToAdd
  \/ badNumbers idx deleteCount
  \/ outOfRange st idx deleteCount
  \/ noChange isLinux st idx deleteCount workspaceFoldersToAdd.

(** What the events of a call report, taken together. *)
Definition allAdded (events : list WorkspaceFoldersChangeEvent) : list ref :=
  events ≫= ev_added.

Definition allRemoved (events : list WorkspaceFoldersChangeEvent) : list ref :=
  events ≫= ev_removed.

(** The indices of the descriptors go strictly up. *)
Fixpoint ascending (folders : list IFolderData) : Prop :=
  match folders with
  | [] => True
  | fd :: rest =>
      match rest with
      | [] => True
      | fd' :: _ => (fd_index fd < fd_index fd')%Z /\ ascending rest
      end
  end.

(** The folder [/ws/b] kept and a folder [/ws/c] beside it. *)
Definition replacedData : IWorkspaceData :=
  mkData "id" "ws" None [folderData "/ws/b" "b" 0; folderData "/ws/c" "c" 1].

Module ScriptVocabulary.
Import Script.

Definition isDownload (e : Effect) : bool :=
  match e with
  | Download _ _ _ _ _ => true
  | Cleared _ => false
  end.

(** The localization entries of a manifest, when it has the list. *)
Definition localizationsOf (j : Json) : option (list Json) :=
  match member j "contributes" with
  | Some c =>
      match member c "localizations" with
      | Some (JArray items) => Some items
      | _ => None
      end
  | None => None
  end.

(** The download an entry asks for. *)
Definition downloadOf (apiToken : option string) (locExtFolder : list string)
  (localization : Json) : option Effect :=
  match member localization "translations" with
  | Some (JString t) =>
      Some (Download
              (orDefault (member localization "server") (JString "www.transifex.com"))
              (orDefault (member localization "userName") (JString "api"))
              apiToken
              (orDefault (member localization "transifexId")
                         (default JNull (member localization "languageId")))
              (joinPath locExtFolder t))
  | _ => None
  end.

Fixpoint hasSlash (s : string) : bool :=
  match s with
  | EmptyString => false
  | String c s' => isSlash c || hasSlash s'
  end.

(** A manifest with one complete localization. *)
Definition germanEntry : Json :=
  JObject [("languageId", JString "de"); ("languageName", JString "German");
           ("translations", JString "./translations")].

Definition germanManifest : Json :=
  JObject [("contributes", JObject [("localizations", JArray [germanEntry])])].

(** The folder [/ext] with that manifest and translations pulled earlier. *)
Definition staleExtension : Node :=
  Dir [("ext",
        Dir [("package.json", File (JsonText germanManifest));
             ("translations", Dir [("main.i18n.json", File OtherText)])])].

End ScriptVocabulary.

(** * Properties *)

(** ** [$acceptWorkspaceData] *)

(** C4: every call of [$acceptWorkspaceData] stores the merge of the previous
    confirmed and unconfirmed snapshots with the incoming data as the
    confirmed snapshot, drops the unconfirmed snapshot whatever it was, and
    fires the change event exactly once, with the delta of that merge. *)
Theorem acceptWorkspaceData_overwrites (isLinux : bool) (st : ExtHostWorkspace)
  (data : option IWorkspaceData) :
  let merged :=
    toExtHostWorkspace isLinux (store st) (received <$> data)
      (confirmedWorkspace st) (unconfirmedWorkspace st) in
  let result := acceptWorkspaceData isLinux st data in
  confirmedWorkspace (fst result) = workspace (snd merged)
  ∧ unconfirmedWorkspace (fst result) = None
  ∧ store (fst result) = fst merged
  ∧ snd result = [mkEvent (added (snd merged)) (removed (snd merged))]
  ∧ length (snd result) = 1.
Proof.
  unfold acceptWorkspaceData. cbv zeta.
  destruct (toExtHostWorkspace _ _ _ _ _) as [h m]. simpl. auto.
Qed.

(** ** Sorting *)

Section SortFacts.
Context {A : Type}.
Implicit Types (cmp : A -> A -> Z) (l : list A).

Lemma insertSorted_Permutation cmp x l : insertSorted cmp x l ≡ₚ x :: l.
Proof.
  induction l as [|t r IH]; simpl; [done|].
  destruct (0 <? cmp t x)%Z; [|done].
  rewrite IH. apply Permutation_swap.
Qed.

Lemma sort_fold_Permutation cmp l acc :
  fold_left (fun racc x => insertSorted cmp x racc) l acc ≡ₚ l ++ acc.
Proof.
  revert acc. induction l as [|x l IH]; intros acc; simpl; [done|].
  rewrite IH, insertSorted_Permutation. by rewrite Permutation_middle.
Qed.

Lemma sort_Permutation cmp l : sort cmp l ≡ₚ l.
Proof.
  unfold sort. rewrite <- Permutation_rev, sort_fold_Permutation.
  by rewrite app_nil_r.
Qed.

Lemma length_sort cmp l : length (sort cmp l) = length l.
Proof. apply Permutation_length, sort_Permutation. Qed.

Lemma elem_of_sort cmp l x : x ∈ sort cmp l ↔ x ∈ l.
Proof. by rewrite sort_Permutation. Qed.

(** A comparator that decides a transitive relation sorts by it. *)
Lemma sort_sorted cmp (R : relation A) `{!Transitive R} l :
  (forall t x, (0 <? cmp t x)%Z = true -> R x t) ->
  (forall t x, (0 <? cmp t x)%Z = false -> R t x) ->
  StronglySorted R (sort cmp l).
Proof.
  intros Hgt Hle.
  assert (forall x acc, StronglySorted (flip R) acc ->
            StronglySorted (flip R) (insertSorted cmp x acc)) as Hins.
  { intros x acc. induction 1 as [|t r Hr IH Ht]; simpl; [repeat constructor|].
    destruct (0 <? cmp t x)%Z eqn:Hc.
    - constructor; [done|].
      rewrite Forall_forall. intros y Hy.
      rewrite insertSorted_Permutation in Hy.
      apply elem_of_cons in Hy as [->|Hy]; [by apply Hgt|].
      rewrite Forall_forall in Ht. by apply Ht.
    - apply Hle in Hc.
      constructor; [by constructor|].
      constructor; [done|].
      rewrite Forall_forall in Ht |- *. intros y Hy. unfold flip in *.
      etrans; [by apply Ht|done]. }
  unfold sort.
  assert (StronglySorted (flip R)
            (fold_left (fun racc x => insertSorted cmp x racc) l [])) as Hfold.
  { assert (StronglySorted (flip R) (@nil A)) as Hnil by constructor.
    revert Hnil. generalize (@nil A).
    induction l as [|x l IH]; intros acc Hacc; simpl; [done|]. by apply IH, Hins. }
  revert Hfold. generalize (fold_left (fun racc x => insertSorted cmp x racc) l []).
  clear. intros acc. induction 1 as [|x acc Hl IH Hx]; simpl; [constructor|].
  apply StronglySorted_app. split; [|split; [done|repeat constructor]].
  intros x1 x2 Hx1 ->%list_elem_of_singleton.
  rewrite Forall_forall in Hx. apply Hx.
  apply list_elem_of_In. apply list_elem_of_In in Hx1. by apply in_rev.
Qed.

Lemma sort_nil cmp : sort cmp [] = [].
Proof. done. Qed.

Lemma arrayDelta_nil_l cmp l : arrayDelta cmp [] l = ([], l).
Proof. done. Qed.

End SortFacts.

(** ** [updateWorkspaceFolders] *)

Lemma length_allocFolders fs h :
  length (snd (allocFolders fs h)) = length fs.
Proof.
  revert h. induction fs as [|f fs IH]; intros h; simpl; [done|].
  specialize (IH (h ++ [mkFolder (v_uri f)
    (orElse (Some (v_name f)) (basenameOrAuthority (v_uri f))) 0%Z])).
  destruct (allocFolders fs _) as [h2 rs]. simpl in *. by rewrite IH.
Qed.

(** Without any workspace, inserting folders at position 0 reaches the proxy
    and then fails on [this._actualWorkspace.id]. *)
Lemma updateWorkspaceFolders_no_workspace isLinux st ext toAdd :
  confirmedWorkspace st = None ->
  unconfirmedWorkspace st = None ->
  validatedDistinct isLinux toAdd <> [] ->
  exists st',
    updateWorkspaceFolders isLinux st ext (JsNumber 0) (JsNumber 0) toAdd
    = (st',
       if hasProxy st
       then [mkCall ext 0 0 (validatedDistinct isLinux toAdd)] else [],
       ThrowsTypeError).
Proof.
  intros Hc Hu Hne. unfold updateWorkspaceFolders, _actualWorkspace.
  rewrite Hu, Hc. simpl.
  rewrite (bool_decide_eq_false_2 (length _ = 0%nat))
    by (by destruct (validatedDistinct isLinux toAdd)).
  simpl. unfold editedFolders. simpl.
  pose proof (length_allocFolders (validatedDistinct isLinux toAdd) (store st)) as Hlen.
  destruct (allocFolders _ _) as [h1 inserted]. simpl in *.
  rewrite app_nil_r, length_sort, Hlen.
  rewrite (bool_decide_eq_false_2 (length _ = 0%nat))
    by (by destruct (validatedDistinct isLinux toAdd)).
  simpl. eauto.
Qed.

(** C10: with no workspace at all, [updateWorkspaceFolders(ext, 0, 0, {uri:
    /ws/a})] forwards [$updateWorkspaceFolders] to the proxy; the call then
    ends in a [TypeError] (line 199 reads [this._actualWorkspace.id] before
    [trySetWorkspaceData] is entered), so it does not return [false]. *)
Theorem updateWorkspaceFolders_no_workspace_throws :
  let result :=
    updateWorkspaceFolders true noWorkspace "ext" (JsNumber 0) (JsNumber 0)
      [mkToAdd (Some (fileUri "/ws/a")) None] in
  snd (fst result) = [mkCall "ext" 0 0 [mkValidated (fileUri "/ws/a") "a"]]
  ∧ snd result = ThrowsTypeError
  ∧ snd result <> Returns false
  ∧ confirmedWorkspace (fst (fst result)) = None
  ∧ unconfirmedWorkspace (fst (fst result)) = None.
Proof. vm_compute. repeat split; congruence. Qed.

(** ** [toExtHostWorkspace]: the order of the merged list *)

(** C2: with the folder [/ws/a] confirmed, the incoming list [/ws/a] (index
    0), [/ws/b] (index 5) gives the new folder [/ws/b] the index 1, its
    position in the incoming list (line 74), not the index 5 it came with.
    The sibling paths take the incoming index: [/ws/a], reused and sent
    with the index 7, gets 7 (line 70), and without a previous snapshot
    [/ws/b] gets its 5 (line 78). *)
Theorem toExtHostWorkspace_new_folder_index :
  let st := oneFolder true in
  let merged :=
    toExtHostWorkspace true (store st)
      (received <$> workspaceData [folderData "/ws/a" "a" 0; folderData "/ws/b" "b" 5])
      (confirmedWorkspace st) (unconfirmedWorkspace st) in
  let reused :=
    toExtHostWorkspace true (store st) (Some (received renamedData))
      (confirmedWorkspace st) (unconfirmedWorkspace st) in
  let fresh :=
    toExtHostWorkspace true [] (received <$> workspaceData [folderData "/ws/b" "b" 5])
      None None in
  ((workspaceFolders <$> workspace (snd merged)) = Some [0; 1]
   /\ keyOf (fst merged) 1 = "file:///ws/b"
   /\ indexOf (fst merged) 1 = 1%Z
   /\ indexOf (fst merged) 1 <> 5%Z
   /\ indexOf (fst merged) 0 = 0%Z)
  /\ ((workspaceFolders <$> workspace (snd reused)) = Some [0]
      /\ indexOf (fst reused) 0 = 7%Z)
  /\ ((workspaceFolders <$> workspace (snd fresh)) = Some [0]
      /\ indexOf (fst fresh) 0 = 5%Z).
Proof. vm_compute. repeat split; congruence. Qed.

(** The merged list is in ascending order of the indices the folders end up
    with. *)
Lemma toExtHostWorkspace_sorted isLinux h data C U ws :
  workspace (toExtHostWorkspace isLinux h data C U).2 = Some ws ->
  StronglySorted
    (fun r1 r2 =>
       (indexOf (toExtHostWorkspace isLinux h data C U).1 r1
        <= indexOf (toExtHostWorkspace isLinux h data C U).1 r2)%Z)
    (workspaceFolders ws).
Proof.
  unfold toExtHostWorkspace. destruct data as [d|]; [|done].
  match goal with
  | |- context [let '(_, _) := ?m in _] => destruct m as [h1 folders]
  end.
  destruct (delta _ _ _) as [rem add]. cbn [fst snd workspace].
  intros [= <-]. cbn [workspaceFolders newExtHostWorkspaceImpl].
  apply sort_sorted.
  - intros r1 r2 r3 ? ?. lia.
  - intros t x. unfold compareByIndex.
    destruct (indexOf h1 t <? indexOf h1 x)%Z eqn:Hlt; [done|].
    apply Z.ltb_ge in Hlt. intros _. lia.
  - intros t x. unfold compareByIndex.
    destruct (indexOf h1 t <? indexOf h1 x)%Z eqn:Hlt; [|done].
    apply Z.ltb_lt in Hlt. intros _. lia.
Qed.

(** ** The localization update script *)

Module ScriptFacts.
Import Script.

Lemma lookupNode_app fs l1 l2 :
  lookupNode fs (l1 ++ l2) = lookupNode fs l1 ≫= (fun n => lookupNode n l2).
Proof.
  revert fs. induction l1 as [|seg l1 IH]; intros fs; simpl; [done|].
  destruct fs as [c|entries]; [done|].
  destruct (lookupEntry seg entries); [apply IH|done].
Qed.

Lemma joinPath_manifest loc : joinPath loc "package.json" = loc ++ ["package.json"].
Proof. reflexivity. Qed.

(** Nothing can be read below a path that is not a directory. *)
Lemma readFileSync_below_non_directory fs loc :
  ~ isDirectoryAt fs loc ->
  readFileSync fs (joinPath loc "package.json") = inl SystemError.
Proof.
  intros Hdir. unfold readFileSync. rewrite joinPath_manifest, lookupNode_app.
  destruct (lookupNode fs loc) as [[c|entries]|] eqn:Hloc; simpl; try done.
  destruct Hdir. by exists entries.
Qed.

Lemma updateEntry_lacking token loc fs e :
  lacksProperty e -> exists err, (updateEntry token loc fs e).2 = Some err.
Proof.
  intros Hlack. unfold updateEntry, getProp.
  destruct e; try (simpl; eauto; fail).
  all: unfold lacksProperty in Hlack; simpl in Hlack |- *.
  all: try (simpl; eauto; fail).
  destruct Hlack as [-> | [-> | ->]]; simpl;
    rewrite ?orb_true_r; simpl; eauto.
Qed.

Lemma updateEntries_lacking token loc fs items e :
  e ∈ items -> lacksProperty e ->
  exists err, (updateEntries token loc fs items).2 = Some err.
Proof.
  intros Hin Hlack. revert fs.
  induction items as [|x items IH]; intros fs; [by apply elem_of_nil in Hin|].
  simpl.
  destruct (updateEntry token loc fs x) as [[fs1 eff] [e1|]] eqn:Hx; [simpl; eauto|].
  apply elem_of_cons in Hin as [->|Hin].
  - destruct (updateEntry_lacking token loc fs x Hlack) as [err Herr].
    rewrite Hx in Herr. simpl in Herr. done.
  - destruct (IH Hin fs1) as [err Herr].
    destruct (updateEntries token loc fs1 items) as [[fs2 eff2] r]. simpl in *. eauto.
Qed.

(** C9: the script ends in an error when the argument is missing, when the
    folder it resolves to is not an existing directory, when the manifest
    has no [contributes] member or no [localizations] list in it, and when
    some entry of that list has no [languageId], [languageName] or
    [translations]. *)
Theorem update_raises (token : option string) (cwd : list string) (fs : Node)
  (idOrPath : option string) :
  idOrPath = None
  \/ (exists arg, idOrPath = Some arg
        /\ ~ isDirectoryAt fs (resolve cwd (locExtFolderOf arg)))
  \/ (exists arg j, idOrPath = Some arg
        /\ manifestAt fs (resolve cwd (locExtFolderOf arg)) = Some j
        /\ (lacksContributions j \/ hasBadLocalization j)) ->
  exists e, error (update token cwd fs idOrPath) = Some e.
Proof.
  intros Hcase. unfold update.
  destruct idOrPath as [arg|]; [|simpl; eauto].
  destruct (String.eqb arg ""); [simpl; eauto|].
  set (loc := resolve cwd (locExtFolderOf arg)) in *.
  destruct (statSync fs loc) as [e|stat]; [simpl; eauto|].
  unfold isDirectoryProperty. simpl negb. cbv iota.
  destruct Hcase as [?|[(arg' & [= <-] & Hdir)|(arg' & j & [= <-] & Hman & Hbad)]];
    [done| |].
  { fold loc in Hdir. rewrite (readFileSync_below_non_directory _ _ Hdir).
    simpl. eauto. }
  fold loc in Hman. unfold manifestAt in Hman. unfold readFileSync.
  destruct (lookupNode fs (joinPath loc "package.json")) as [[[j'|]|]|];
    try done.
  injection Hman as ->. simpl JSON_parse. cbv iota.
  unfold getProp.
  destruct Hbad as [[Hnone|(c & Hc & Hlist)]|(c & items & e & Hc & Hitems & Hin & Hlack)].
  - destruct j; simpl; eauto. simpl in Hnone. rewrite Hnone. simpl. eauto.
  - destruct j; simpl; eauto; simpl in Hc; try done. rewrite Hc.
    destruct (truthy (Some c)) eqn:Htc; simpl; [|eauto].
    destruct (member c "localizations") as [[]|] eqn:Hloc; simpl; eauto.
    + destruct b; simpl; eauto.
    + destruct (z =? 0)%Z; simpl; eauto.
    + destruct (String.eqb s ""); simpl; eauto.
    + by destruct (Hlist items).
  - destruct j; simpl in Hc; try done. simpl. rewrite Hc.
    destruct (truthy (Some c)) eqn:Htc; simpl; [|eauto].
    rewrite Hitems. simpl.
    destruct (updateEntries_lacking token loc fs items e Hin Hlack) as [err Herr].
    destruct (updateEntries token loc fs items) as [[fs1 eff] r]. simpl in *. eauto.
Qed.

(** The theorem at work: [/ext/package.json] lists a localization without
    [translations]. *)
Lemma update_raises_witness :
  exists e,
    error (update None [] (extensionAt sampleManifest) (Some "/ext")) = Some e.
Proof.
  apply (update_raises None [] (extensionAt sampleManifest) (Some "/ext")).
  right. right. exists "/ext", sampleManifest.
  split; [reflexivity|]. split; [reflexivity|].
  right. unfold hasBadLocalization.
  eexists _, _, _. split; [reflexivity|]. split; [reflexivity|].
  split; [constructor|].
  right. right. reflexivity.
Defined.

End ScriptFacts.

(** ** The search tree and [getWorkspaceFolder] *)

Section TreeFacts.
Context {E : Type}.
Implicit Types (t : TernarySearchTree E) (k q : list string) (e : E).

Lemma elem_of_tstSetKey k e t k' e' :
  (k', e') ∈ tstSetKey k e t -> (k', e') ∈ t \/ (k' = k /\ e' = e).
Proof.
  induction t as [|[k0 e0] t IH]; simpl.
  - intros [= -> ->]%list_elem_of_singleton. by right.
  - unfold segmentsEqb. case_bool_decide as Heq.
    + intros [[= -> ->]|Hin]%elem_of_cons; [by right|].
      left. by apply elem_of_cons; right.
    + intros [[= -> ->]|Hin]%elem_of_cons; [left; constructor|].
      destruct (IH Hin) as [?|?]; [left; by apply elem_of_cons; right|by right].
Qed.

Lemma tstSetKey_new k e t : (k, e) ∈ tstSetKey k e t.
Proof.
  induction t as [|[k0 e0] t IH]; simpl; [constructor|].
  unfold segmentsEqb. case_bool_decide as Heq; [subst; constructor|].
  by apply elem_of_cons; right.
Qed.

Lemma tstSetKey_keeps_keys k e t k' e' :
  (k', e') ∈ t -> exists e'', (k', e'') ∈ tstSetKey k e t.
Proof.
  induction t as [|[k0 e0] t IH]; simpl; [by intros ?%elem_of_nil|].
  unfold segmentsEqb.
  intros [[= -> ->]|Hin]%elem_of_cons; case_bool_decide as Heq.
  - subst. eexists. constructor.
  - eexists. constructor.
  - eexists. apply elem_of_cons; right. done.
  - destruct (IH Hin) as [e'' ?]. exists e''. by apply elem_of_cons; right.
Qed.

Lemma tstGetKey_is_Some k t :
  is_Some (tstGetKey k t) <-> exists e, (k, e) ∈ t.
Proof.
  induction t as [|[k0 e0] t IH]; simpl.
  - split; [by intros [? ?]|]. by intros [? ?%elem_of_nil].
  - unfold segmentsEqb. case_bool_decide as Heq.
    + split; [|eauto]. intros _. subst. eexists. constructor.
    + rewrite IH. split.
      * intros [e ?]. exists e. by apply elem_of_cons; right.
      * intros [e [[= ? ?]|?]%elem_of_cons]; [done|eauto].
Qed.

(** What [findLongest] returns is the running best or an entry of the tree
    whose key is a prefix of the query, and no such entry has a longer key. *)
Lemma findLongest_Some q t best k e :
  findLongest q t best = Some (k, e) ->
  (best = Some (k, e) \/ ((k, e) ∈ t /\ isPrefixOf k q = true))
  /\ (forall k' e', (k', e') ∈ t -> isPrefixOf k' q = true -> length k' <= length k)
  /\ (forall kb eb, best = Some (kb, eb) -> length kb <= length k).
Proof.
  revert best. induction t as [|[k0 e0] t IH]; intros best; simpl.
  - intros ->. split; [by left|]. split; [by intros ? ? ?%elem_of_nil|].
    by intros ? ? [= -> ->].
  - intros Hfind.
    assert (forall best',
      findLongest q t best' = Some (k, e) ->
      (best' = best \/ (best' = Some (k0, e0) /\ isPrefixOf k0 q = true
         /\ forall kb eb, best = Some (kb, eb) -> length kb < length k0)) ->
      (isPrefixOf k0 q = true -> best' = best ->
         exists kb eb, best = Some (kb, eb) /\ length k0 <= length kb) ->
      (best = Some (k, e) \/ (k, e) ∈ (k0, e0) :: t /\ isPrefixOf k q = true)
      /\ (forall k' e', (k', e') ∈ (k0, e0) :: t -> isPrefixOf k' q = true ->
            length k' <= length k)
      /\ (forall kb eb, best = Some (kb, eb) -> length kb <= length k)) as Hstep.
    { intros best' Hf Hbest' Hkeep.
      destruct (IH _ Hf) as (Hwhere & Hmax & Hge).
      assert (forall kb eb, best = Some (kb, eb) -> length kb <= length k) as Hge'.
      { intros kb eb Hb. destruct Hbest' as [->|(-> & _ & Hlt)]; [eauto|].
        specialize (Hge _ _ eq_refl). specialize (Hlt _ _ Hb). lia. }
      split; [|split; [|done]].
      - destruct Hwhere as [->|[Hin Hpre]].
        + destruct Hbest' as [->|([= -> ->] & Hpre & _)]; [by left|].
          right. split; [constructor|done].
        + right. split; [by apply elem_of_cons; right|done].
      - intros k' e' [[= -> ->]|Hin]%elem_of_cons Hpre; [|eauto].
        destruct Hbest' as [->|(-> & _ & _)]; [|by eapply Hge].
        destruct (Hkeep Hpre eq_refl) as (kb & eb & Hb & Hle).
        specialize (Hge _ _ Hb). lia. }
    destruct (isPrefixOf k0 q) eqn:Hpre0.
    + destruct best as [[kb eb]|].
      * destruct (length kb <? length k0) eqn:Hlt.
        -- apply Nat.ltb_lt in Hlt. apply (Hstep _ Hfind).
           ++ right. split; [done|]. split; [done|]. by intros ? ? [= -> ->].
           ++ intros _ [= -> ->]. eauto.
        -- apply Nat.ltb_ge in Hlt. apply (Hstep _ Hfind); [by left|]. eauto.
      * apply (Hstep _ Hfind).
        -- right. split; [done|]. split; [done|]. done.
        -- intros _ ?. done.
    + apply (Hstep _ Hfind); [by left|]. done.
Qed.

Lemma findLongest_None q t :
  findLongest q t None = None <->
  forall k e, (k, e) ∈ t -> isPrefixOf k q = false.
Proof.
  assert (forall t best, is_Some best -> is_Some (findLongest q t best)) as Hsome.
  { clear. induction t as [|[k0 e0] t IH]; intros best Hb; simpl; [done|].
    destruct (isPrefixOf k0 q); [|eauto].
    destruct best as [[kb eb]|]; [|by destruct Hb].
    destruct (length kb <? length k0); eauto. }
  induction t as [|[k0 e0] t IH]; simpl.
  - split; [by intros _ ? ? ?%elem_of_nil|done].
  - destruct (isPrefixOf k0 q) eqn:Hpre.
    + split.
      * intros Hnone. destruct (Hsome t (Some (k0, e0))) as [x Hx]; [eauto|].
        congruence.
      * intros Hall. specialize (Hall k0 e0). rewrite Hpre in Hall.
        discriminate Hall. constructor.
    + rewrite IH. split.
      * intros Hall k e [[= -> ->]|?]%elem_of_cons; eauto.
      * intros Hall k e Hin. apply (Hall k e). by apply elem_of_cons; right.
Qed.

End TreeFacts.

Section FolderTree.
Variable h : heap.

Lemma folder_tree_entries folders t0 k e :
  (k, e) ∈ fold_left (addFolder h) folders t0 ->
  (k, e) ∈ t0 \/ (e ∈ folders /\ k = segmentsOf h e).
Proof.
  revert t0. induction folders as [|r folders IH]; intros t0; simpl; [by left|].
  intros [Hin|[Hin ->]]%IH.
  - apply elem_of_tstSetKey in Hin as [?|[-> ->]]; [by left|].
    right. split; [constructor|done].
  - right. split; [by apply elem_of_cons; right|done].
Qed.

Lemma folder_tree_keeps_keys folders t0 k :
  (exists e, (k, e) ∈ t0) -> exists e, (k, e) ∈ fold_left (addFolder h) folders t0.
Proof.
  revert t0. induction folders as [|r folders IH]; intros t0; simpl; [done|].
  intros [e Hin]. apply IH. by eapply tstSetKey_keeps_keys.
Qed.

Lemma folder_tree_has_key folders t0 r :
  r ∈ folders -> exists e, (segmentsOf h r, e) ∈ fold_left (addFolder h) folders t0.
Proof.
  revert t0. induction folders as [|r0 folders IH]; intros t0; simpl;
    [by intros ?%elem_of_nil|].
  intros [->|Hin]%elem_of_cons; [|by apply IH].
  apply folder_tree_keeps_keys. eexists. apply tstSetKey_new.
Qed.

Lemma folder_tree_known folders u :
  bool_decide (is_Some (tstGet (toString u) (fold_left (addFolder h) folders [])))
  = isKnownLocation h folders u.
Proof.
  apply eq_true_iff_eq. rewrite bool_decide_eq_true. unfold tstGet.
  rewrite tstGetKey_is_Some. unfold isKnownLocation. rewrite existsb_exists.
  split.
  - intros [e [?%elem_of_nil|[Hin Hk]]%folder_tree_entries]; [done|].
    exists e. split; [by apply list_elem_of_In|].
    unfold segmentsEqb. by apply bool_decide_eq_true.
  - intros (r & Hin%list_elem_of_In & Heq%bool_decide_eq_true).
    rewrite <- Heq. by apply folder_tree_has_key.
Qed.

(** The folder found by [getWorkspaceFolder] in a snapshot built from
    [folders], and what it means that none is found. *)
Lemma getWorkspaceFolder_spec id nm folders u resolveParent :
  let q := segments (toString (lookedUp h folders u resolveParent)) in
  match getWorkspaceFolder (newExtHostWorkspaceImpl h id nm folders) u resolveParent with
  | Some r =>
      r ∈ folders /\ isPrefixOf (segmentsOf h r) q = true
      /\ forall r', r' ∈ folders -> isPrefixOf (segmentsOf h r') q = true ->
           length (segmentsOf h r') <= length (segmentsOf h r)
  | None => forall r, r ∈ folders -> isPrefixOf (segmentsOf h r) q = false
  end.
Proof.
  intros q. unfold getWorkspaceFolder, newExtHostWorkspaceImpl. simpl structure.
  rewrite folder_tree_known. fold (lookedUp h folders u resolveParent).
  unfold tstFindSubstr. fold q.
  destruct (findLongest q (fold_left (addFolder h) folders []) None) as [[k e]|] eqn:Hfind;
    simpl.
  - apply findLongest_Some in Hfind as ([?|[Hin Hpre]] & Hmax & _); [done|].
    apply folder_tree_entries in Hin as [?%elem_of_nil|[Hin ->]]; [done|].
    split; [done|]. split; [done|].
    intros r' Hr' Hpre'. destruct (folder_tree_has_key folders [] r' Hr') as [e' He'].
    by eapply Hmax.
  - intros r Hr. destruct (folder_tree_has_key folders [] r Hr) as [e' He'].
    by eapply findLongest_None.
Qed.

End FolderTree.

(** C6: [getWorkspaceFolder] looks up the parent path of the queried location
    when [resolveParent] is set and the location is that of a known folder,
    and the location itself otherwise; the result is a known folder whose
    location is a prefix (segment by segment) of what is looked up, with no
    known folder having a longer such prefix, and none exactly when no known
    folder's location is such a prefix.  Over the folders [/ws/a] and
    [/ws/b], [/ws/a/src/file.ts] yields the folder [/ws/a] and
    [/ws/c/file.ts] yields none. *)
Theorem getWorkspaceFolder_longest_prefix :
  (forall (h : heap) (id nm : string) (folders : list ref) (u : URI)
          (resolveParent : bool),
     let w := newExtHostWorkspaceImpl h id nm folders in
     let q := lookedUp h folders u resolveParent in
     lookedUp h folders u false = u
     /\ (isKnownLocation h folders u = true ->
         lookedUp h folders u true = withPath u (dirname (path u)))
     /\ (isKnownLocation h folders u = false -> lookedUp h folders u true = u)
     /\ getWorkspaceFolder w u resolveParent
        = tstFindSubstr (toString q) (structure w)
     /\ match getWorkspaceFolder w u resolveParent with
        | Some r =>
            r ∈ folders
            /\ isPrefixOf (segmentsOf h r) (segments (toString q)) = true
            /\ forall r', r' ∈ folders ->
                 isPrefixOf (segmentsOf h r') (segments (toString q)) = true ->
                 length (segmentsOf h r') <= length (segmentsOf h r)
        | None =>
            forall r, r ∈ folders ->
              isPrefixOf (segmentsOf h r) (segments (toString q)) = false
        end)
  /\ (getWorkspaceFolders twoFolders = Some [0; 1]
      /\ keyOf (store twoFolders) 0 = "file:///ws/a"
      /\ keyOf (store twoFolders) 1 = "file:///ws/b"
      /\ hostGetWorkspaceFolder twoFolders (fileUri "/ws/a/src/file.ts") false = Some 0
      /\ hostGetWorkspaceFolder twoFolders (fileUri "/ws/c/file.ts") false = None
      /\ hostGetWorkspaceFolder twoFolders (fileUri "/ws/a") false = Some 0
      /\ hostGetWorkspaceFolder twoFolders (fileUri "/ws/a") true = None)
  /\ (keyOf (store nestedFolders) 0 = "file:///ws"
      /\ hostGetWorkspaceFolder nestedFolders (fileUri "/ws/a") false = Some 1
      /\ hostGetWorkspaceFolder nestedFolders (fileUri "/ws/a") true = Some 0).
Proof.
  split; [|by vm_compute].
  intros h id nm folders u resolveParent w q.
  split; [done|]. split; [by unfold lookedUp; intros ->|].
  split; [by unfold lookedUp; intros ->|]. split.
  - unfold getWorkspaceFolder, w, newExtHostWorkspaceImpl. simpl structure.
    by rewrite folder_tree_known.
  - apply getWorkspaceFolder_spec.
Qed.

(** The theorem at work on the folders [/ws/a] and [/ws/b]. *)
Lemma getWorkspaceFolder_longest_prefix_witness :
  0 ∈ [0; 1]
  /\ isPrefixOf (segmentsOf (store twoFolders) 0)
                (segments (toString (fileUri "/ws/a/src/file.ts"))) = true.
Proof.
  pose proof (proj1 getWorkspaceFolder_longest_prefix (store twoFolders) "id" "ws"
                [0; 1] (fileUri "/ws/a/src/file.ts") false) as Hspec.
  cbv zeta in Hspec. destruct Hspec as (_ & _ & _ & _ & Hspec).
  change (getWorkspaceFolder
            (newExtHostWorkspaceImpl (store twoFolders) "id" "ws" [0; 1])
            (fileUri "/ws/a/src/file.ts") false) with (Some 0) in Hspec.
  exact (conj (proj1 Hspec) (proj1 (proj2 Hspec))).
Defined.

(** ** [getRelativePath] *)

Lemma string_append_assoc (a b c : string) : (a +:+ b) +:+ c = a +:+ b +:+ c.
Proof.
  induction a as [|x a IH]; [done|].
  change (String x ((a +:+ b) +:+ c) = String x (a +:+ b +:+ c)).
  by f_equal.
Qed.

Lemma getRelativePath_unfold st pathOrUri includeWorkspace s :
  inputPath pathOrUri = Some s -> s <> "" ->
  getRelativePath st pathOrUri includeWorkspace =
  match hostGetWorkspaceFolder st (inputUri pathOrUri) true with
  | None => Some s
  | Some folder =>
      Some (normalize
              ((if includesName st includeWorkspace
                then nameOf (store st) folder +:+ "/" else "")
               +:+ relative (fsPath (uriOf (store st) folder)) s))
  end.
Proof.
  intros Hpath Hne. unfold getRelativePath.
  assert (String.eqb s "" = false) as Hnes by by apply String.eqb_neq.
  assert ((1 <? folderCount st) = bool_decide (1 < folderCount st)) as Hcount.
  { apply eq_true_iff_eq. by rewrite Nat.ltb_lt, bool_decide_eq_true. }
  destruct pathOrUri as [s'|u|]; simpl in Hpath; [| |done];
    injection Hpath as ->; rewrite Hnes; simpl inputUri.
  all: destruct (hostGetWorkspaceFolder st _ true) as [folder|]; [|done].
  all: unfold includesName; rewrite <- Hcount; unfold folderCount.
  all: by destruct includeWorkspace as [[|]|], (_ <? _);
    rewrite ?string_append_assoc.
Qed.

(** C7: [getRelativePath] returns the input path as it is when no containing
    folder is found; otherwise it returns the path relative to the folder's
    location, with the folder's name and a separator in front exactly when
    [includeWorkspace] is true, which is the default exactly when there is
    more than one folder.  [/ws/a/src/file.ts] gives [src/file.ts] with the
    single folder [/ws/a] and [a/src/file.ts] with the folders [/ws/a] and
    [/ws/b]. *)
Theorem getRelativePath_relativizes :
  (forall st pathOrUri includeWorkspace s,
     inputPath pathOrUri = Some s -> s <> "" ->
     hostGetWorkspaceFolder st (inputUri pathOrUri) true = None ->
     getRelativePath st pathOrUri includeWorkspace = Some s)
  /\ (forall st pathOrUri includeWorkspace s folder,
        inputPath pathOrUri = Some s -> s <> "" ->
        hostGetWorkspaceFolder st (inputUri pathOrUri) true = Some folder ->
        let rel := relative (fsPath (uriOf (store st) folder)) s in
        (includesName st includeWorkspace = true ->
         getRelativePath st pathOrUri includeWorkspace
         = Some (normalize (nameOf (store st) folder +:+ "/" +:+ rel)))
        /\ (includesName st includeWorkspace = false ->
            getRelativePath st pathOrUri includeWorkspace = Some (normalize rel)))
  /\ (forall st b, includesName st (Some b) = b)
  /\ (forall st, includesName st None = true <-> 1 < folderCount st)
  /\ (getRelativePath (oneFolder true) (PathString "/ws/a/src/file.ts") None
      = Some "src/file.ts"
      /\ getRelativePath twoFolders (PathString "/ws/a/src/file.ts") None
         = Some "a/src/file.ts"
      /\ getRelativePath (oneFolder true) (PathString "/ws/a/src/file.ts") (Some true)
         = Some "a/src/file.ts"
      /\ getRelativePath twoFolders (PathString "/ws/a/src/file.ts") (Some false)
         = Some "src/file.ts"
      /\ getRelativePath twoFolders (PathUri (fileUri "/ws/b/x.ts")) None
         = Some "b/x.ts"
      /\ getRelativePath twoFolders (PathString "/ws/c/file.ts") None
         = Some "/ws/c/file.ts").
Proof.
  split; [|split; [|split; [|split]]].
  - intros st pathOrUri includeWorkspace s Hpath Hne Hnone.
    by rewrite (getRelativePath_unfold _ _ _ s), Hnone.
  - intros st pathOrUri includeWorkspace s folder Hpath Hne Hsome rel.
    rewrite (getRelativePath_unfold _ _ _ s), Hsome by done.
    split; intros ->; [|done]. unfold rel.
    by rewrite string_append_assoc.
  - done.
  - intros st. simpl. apply bool_decide_eq_true.
  - by vm_compute.
Qed.

(** The theorem at work: a file of the second folder. *)
Lemma getRelativePath_relativizes_witness :
  getRelativePath twoFolders (PathString "/ws/b/x.ts") None = Some "b/x.ts".
Proof.
  destruct (proj1 (proj2 getRelativePath_relativizes) twoFolders
              (PathString "/ws/b/x.ts") None "/ws/b/x.ts" 1)
    as [Hnamed _].
  - reflexivity.
  - discriminate.
  - reflexivity.
  - rewrite Hnamed; reflexivity.
Defined.

(** ** Sorting by a key *)

Section SortByKey.
Context {A K : Type}.
Implicit Types (f : A -> K) (c : K -> K -> Z) (l : list A).

Lemma insertSorted_fmap f c x l :
  f <$> insertSorted (fun a b => c (f a) (f b)) x l = insertSorted c (f x) (f <$> l).
Proof.
  induction l as [|t r IH]; [done|].
  rewrite fmap_cons. cbn [insertSorted].
  destruct (0 <? c (f t) (f x))%Z; rewrite !fmap_cons; [by rewrite IH|done].
Qed.

Lemma sort_fmap f c l :
  f <$> sort (fun a b => c (f a) (f b)) l = sort c (f <$> l).
Proof.
  unfold sort.
  change (@fmap list _ A K f) with (@List.map A K f). rewrite map_rev. f_equal.
  change (@List.map A K f) with (@fmap list _ A K f).
  change (@nil K) with (f <$> @nil A). generalize (@nil A).
  induction l as [|x l IH]; intros acc; simpl; [done|].
  by rewrite <- insertSorted_fmap, IH.
Qed.

End SortByKey.

Section SortExt.
Context {A : Type}.
Implicit Types (c : A -> A -> Z) (l : list A).

Lemma insertSorted_ext c1 c2 x l :
  (forall t, t ∈ l -> c1 t x = c2 t x) ->
  insertSorted c1 x l = insertSorted c2 x l.
Proof.
  induction l as [|t r IH]; intros Hext; simpl; [done|].
  rewrite (Hext t) by constructor.
  rewrite IH; [done|]. intros t' Ht'. apply Hext. by apply elem_of_cons; right.
Qed.

Lemma sort_ext c1 c2 l :
  (forall x y, x ∈ l -> y ∈ l -> c1 x y = c2 x y) -> sort c1 l = sort c2 l.
Proof.
  intros Hext. unfold sort. f_equal.
  assert (forall acc,
    (forall x y, x ∈ l ++ acc -> y ∈ l ++ acc -> c1 x y = c2 x y) ->
    fold_left (fun racc x => insertSorted c1 x racc) l acc
    = fold_left (fun racc x => insertSorted c2 x racc) l acc) as Hfold.
  { clear Hext. induction l as [|x l IH]; intros acc Hext; simpl; [done|].
    rewrite (insertSorted_ext c1 c2 x acc).
    - apply IH. intros a b Ha Hb.
      rewrite elem_of_app, insertSorted_Permutation, elem_of_cons in Ha, Hb.
      apply Hext; rewrite elem_of_app, elem_of_cons; tauto.
    - intros t Ht. apply Hext; rewrite elem_of_app, elem_of_cons; tauto. }
  apply Hfold. rewrite app_nil_r. done.
Qed.

Lemma arrayDelta_same_keys {K} (f : A -> K) (c : K -> K -> Z) l1 l2 :
  (forall k, c k k = 0%Z) ->
  f <$> l1 = f <$> l2 ->
  arrayDelta (fun a b => c (f a) (f b)) l1 l2 = ([], []).
Proof.
  intros Hrefl. revert l2.
  induction l1 as [|a l1 IH]; intros [|b l2] Heq; try done.
  injection Heq as Hab Heq. simpl. rewrite Hab, Hrefl. simpl. by apply IH.
Qed.

Lemma arrayDelta_empty_length c l1 l2 :
  arrayDelta c l1 l2 = ([], []) -> length l1 = length l2.
Proof.
  revert l2. induction l1 as [|a l1 IH]; intros [|b l2]; simpl; try done.
  destruct (c a b =? 0)%Z; [by intros ->%IH|].
  destruct (c a b <? 0)%Z.
  - destruct (arrayDelta c l1 (b :: l2)) as [rem add]. done.
  - match goal with |- context [let '(_, _) := ?w in _] => destruct w as [rem add] end.
    done.
Qed.

End SortExt.

(** ** Sorting strings *)

Lemma compare_refl k : compare k k = 0%Z.
Proof.
  unfold compare.
  assert (String.compare k k = Eq) as ->; [|done].
  pose proof (String.compare_antisym k k) as Hanti.
  destruct (String.compare k k); simpl in Hanti; done.
Qed.

Lemma compare_gt_le a b : (0 <? compare a b)%Z = true -> String.le b a.
Proof.
  unfold compare, String.le, String.leb. rewrite (String.compare_antisym b a).
  destruct (String.compare a b); simpl; done.
Qed.

Lemma compare_not_gt_le a b : (0 <? compare a b)%Z = false -> String.le a b.
Proof.
  unfold compare, String.le, String.leb.
  destruct (String.compare a b); simpl; done.
Qed.

Lemma sort_compare_sorted (ks : list string) :
  StronglySorted String.le (sort compare ks).
Proof. apply sort_sorted; [apply _|apply compare_gt_le|apply compare_not_gt_le]. Qed.

Lemma sort_compare_Permutation (ks1 ks2 : list string) :
  ks1 ≡ₚ ks2 -> sort compare ks1 = sort compare ks2.
Proof.
  intros Hperm. apply (StronglySorted_unique String.le).
  - apply sort_compare_sorted.
  - apply sort_compare_sorted.
  - by rewrite !sort_Permutation.
Qed.

(** ** Locations as keys *)

Section Keys.
Variable isLinux : bool.

Lemma equivKey_refl k : equivKey isLinux k k = true.
Proof.
  unfold equivKey, equalsIgnoreCase. destruct (negb isLinux); apply String.eqb_refl.
Qed.

Lemma equivKey_sym k1 k2 : equivKey isLinux k1 k2 = equivKey isLinux k2 k1.
Proof.
  unfold equivKey, equalsIgnoreCase. destruct (negb isLinux); apply String.eqb_sym.
Qed.

Lemma equivKey_trans k1 k2 k3 :
  equivKey isLinux k1 k2 = true -> equivKey isLinux k2 k3 = true ->
  equivKey isLinux k1 k3 = true.
Proof.
  unfold equivKey, equalsIgnoreCase. destruct (negb isLinux);
    rewrite !String.eqb_eq; congruence.
Qed.

Lemma isFolderEqual_equivKey a b :
  isFolderEqual isLinux a b = equivKey isLinux (toString a) (toString b).
Proof. done. Qed.

Lemma compareKey_refl k : compareKey isLinux k k = 0%Z.
Proof. unfold compareKey. by rewrite equivKey_refl. Qed.

Lemma compareKey_consistent ks k1 k2 :
  spellingConsistent isLinux ks -> k1 ∈ ks -> k2 ∈ ks ->
  compareKey isLinux k1 k2 = compare k1 k2.
Proof.
  intros Hcons H1 H2. unfold compareKey.
  destruct (equivKey isLinux k1 k2) eqn:Heq; [|done].
  rewrite (Hcons k1 k2 H1 H2 Heq). by rewrite compare_refl.
Qed.

Lemma spellingConsistent_Permutation ks1 ks2 :
  ks1 ≡ₚ ks2 -> spellingConsistent isLinux ks1 -> spellingConsistent isLinux ks2.
Proof.
  intros Hperm Hcons k1 k2 H1 H2. apply Hcons; by rewrite Hperm.
Qed.

Lemma spellingConsistent_subseteq ks1 ks2 :
  ks2 ⊆ ks1 -> spellingConsistent isLinux ks1 -> spellingConsistent isLinux ks2.
Proof. intros Hsub Hcons k1 k2 H1 H2. apply Hcons; by apply Hsub. Qed.

Lemma sort_compareKey ks :
  spellingConsistent isLinux ks -> sort (compareKey isLinux) ks = sort compare ks.
Proof.
  intros Hcons. apply sort_ext. intros k1 k2. by apply compareKey_consistent.
Qed.

(** Two lists of folders with the same locations have an empty delta under
    the comparator by location. *)
Lemma delta_same_locations (h : heap) (l1 l2 : list ref) :
  keyOf h <$> l1 ≡ₚ keyOf h <$> l2 ->
  spellingConsistent isLinux (keyOf h <$> l1) ->
  delta (compareWorkspaceFolderByUri isLinux h) l1 l2 = ([], []).
Proof.
  intros Hperm Hcons. unfold delta.
  change (compareWorkspaceFolderByUri isLinux h)
    with (fun a b => compareKey isLinux (keyOf h a) (keyOf h b)).
  apply (arrayDelta_same_keys (keyOf h) (compareKey isLinux)); [apply compareKey_refl|].
  rewrite !sort_fmap.
  rewrite !sort_compareKey by eauto using spellingConsistent_Permutation.
  by apply sort_compare_Permutation.
Qed.

End Keys.

(** ** The store *)

Lemma extends_refl h : extends h h.
Proof. by split. Qed.

Lemma extends_trans h1 h2 h3 : extends h1 h2 -> extends h2 h3 -> extends h1 h3.
Proof.
  intros [Hl1 Hu1] [Hl2 Hu2]. split; [lia|].
  intros r Hr. rewrite Hu2 by lia. by apply Hu1.
Qed.

Lemma uriOf_alter (f : WorkspaceFolder -> WorkspaceFolder) r h r' :
  (forall x, uri (f x) = uri x) -> uriOf (alter f r h) r' = uriOf h r'.
Proof.
  intros Hf. unfold uriOf. rewrite list_lookup_total_alter.
  case_decide as Hd; [|done]. destruct Hd as [-> _]. apply Hf.
Qed.

Lemma extends_setName r n h : extends h (setName r n h).
Proof.
  unfold setName. split; [by rewrite length_alter|].
  intros r' _. by apply uriOf_alter.
Qed.

Lemma extends_setIndex r i h : extends h (setIndex r i h).
Proof.
  unfold setIndex. split; [by rewrite length_alter|].
  intros r' _. by apply uriOf_alter.
Qed.

Lemma extends_app h fs : extends h (h ++ fs).
Proof.
  split; [rewrite length_app; lia|].
  intros r Hr. unfold uriOf. by rewrite lookup_total_app_l.
Qed.

Lemma extends_keyOf h h' r : extends h h' -> r < length h -> keyOf h' r = keyOf h r.
Proof. intros [_ Hu] Hr. unfold keyOf. by rewrite Hu. Qed.

Lemma extends_keys h h' (l : list ref) :
  extends h h' -> Forall (fun r => r < length h) l -> keyOf h' <$> l = keyOf h <$> l.
Proof.
  intros Hext Hl. apply list_fmap_ext. intros i r Hi.
  apply extends_keyOf; [done|]. rewrite Forall_forall in Hl.
  apply Hl. by eapply list_elem_of_lookup_2.
Qed.

Lemma extends_valid h h' (l : list ref) :
  extends h h' -> Forall (fun r => r < length h) l -> Forall (fun r => r < length h') l.
Proof.
  intros [Hlen _] Hl. eapply Forall_impl; [done|]. intros r Hr. simpl in *. lia.
Qed.

Lemma find_ext_elem {A} (f g : A -> bool) (l : list A) :
  (forall x, x ∈ l -> f x = g x) -> List.find f l = List.find g l.
Proof.
  induction l as [|x l IH]; intros Hext; simpl; [done|].
  rewrite (Hext x) by constructor. destruct (g x); [done|].
  apply IH. intros y Hy. apply Hext. by apply elem_of_cons; right.
Qed.

Section Merge.
Variable isLinux : bool.
Variable src : ExtHostWorkspaceImpl.

Lemma _findFolder_extends h h' u :
  Forall (fun r => r < length h) (workspaceFolders src) -> extends h h' ->
  _findFolder isLinux h' src u = _findFolder isLinux h src u.
Proof.
  intros Hvalid [_ Hu]. unfold _findFolder. apply find_ext_elem.
  intros r Hr. rewrite Forall_forall in Hvalid. by rewrite Hu by by apply Hvalid.
Qed.

Lemma _findFolder_Some h u r :
  _findFolder isLinux h src u = Some r ->
  r ∈ workspaceFolders src /\ equivKey isLinux (keyOf h r) (toString u) = true.
Proof.
  unfold _findFolder. intros [Hin Heq]%find_some. by apply list_elem_of_In in Hin.
Qed.

Lemma _findFolder_None h u r :
  _findFolder isLinux h src u = None -> r ∈ workspaceFolders src ->
  equivKey isLinux (keyOf h r) (toString u) = false.
Proof.
  unfold _findFolder. intros Hnone Hin%list_elem_of_In.
  by apply (find_none _ _ Hnone) in Hin.
Qed.

Lemma resolveKey_findFolder h u :
  resolveKey isLinux h src (toString u)
  = match _findFolder isLinux h src u with
    | Some r0 => keyOf h r0
    | None => toString u
    end.
Proof. done. Qed.

Lemma resolveKey_equiv h k : equivKey isLinux (resolveKey isLinux h src k) k = true.
Proof.
  unfold resolveKey.
  destruct (List.find _ _) as [r0|] eqn:Hfind; [|apply equivKey_refl].
  by apply find_some in Hfind as [_ ?].
Qed.

Lemma resolveKey_extends h h' k :
  Forall (fun r => r < length h) (workspaceFolders src) -> extends h h' ->
  resolveKey isLinux h' src k = resolveKey isLinux h src k.
Proof.
  intros Hvalid Hext. unfold resolveKey.
  rewrite (find_ext_elem _ (fun r => equivKey isLinux (keyOf h r) k)).
  - destruct (List.find _ _) as [r0|] eqn:Hfind; [|done].
    apply find_some in Hfind as [Hin%list_elem_of_In _].
    rewrite Forall_forall in Hvalid. by apply extends_keyOf, Hvalid.
  - intros r Hr. rewrite Forall_forall in Hvalid.
    by rewrite (extends_keyOf h h' r Hext (Hvalid r Hr)).
Qed.

(** One step of the merge, for a descriptor received from the main side. *)
Lemma mergeFolder_received i fd h acc :
  Forall (fun r => r < length h) (workspaceFolders src) ->
  exists h1 r,
    mergeFolder isLinux src i (Received fd) h acc = (h1, acc ++ [r])
    /\ extends h h1 /\ r < length h1
    /\ keyOf h1 r = resolveKey isLinux h src (toString (fd_uri fd)).
Proof.
  intros Hvalid. unfold mergeFolder. simpl argUri. rewrite resolveKey_findFolder.
  destruct (_findFolder isLinux h src (fd_uri fd)) as [r0|] eqn:Hfind.
  - eexists _, r0. split; [done|].
    assert (r0 < length h) as Hr0.
    { apply _findFolder_Some in Hfind as [Hin _].
      rewrite Forall_forall in Hvalid. by apply Hvalid. }
    assert (extends h (setIndex r0 (argIndex (setName r0 (argName h (Received fd)) h)
                                     (Received fd))
                        (setName r0 (argName h (Received fd)) h))) as Hext.
    { eapply extends_trans; [apply extends_setName|apply extends_setIndex]. }
    split; [done|]. split; [destruct Hext; lia|]. by apply extends_keyOf.
  - simpl. eexists _, (length h). split; [done|].
    split; [apply extends_app|]. rewrite length_app. simpl. split; [lia|].
    unfold keyOf, uriOf. by rewrite list_lookup_total_middle.
Qed.

Lemma mergeFolders_received fds : forall i h acc,
  Forall (fun r => r < length h) (workspaceFolders src) ->
  exists h' rs,
    mergeFolders isLinux src i (Received <$> fds) h acc = (h', acc ++ rs)
    /\ extends h h' /\ Forall (fun r => r < length h') rs
    /\ keyOf h' <$> rs = resolveKey isLinux h src <$> dataKeys fds.
Proof.
  induction fds as [|fd fds IH]; intros i h acc Hvalid.
  - exists h, []. rewrite app_nil_r. simpl. eauto using extends_refl.
  - rewrite fmap_cons. cbn [mergeFolders].
    destruct (mergeFolder_received i fd h acc Hvalid) as (h1 & r & -> & Hext & Hr & Hkey).
    destruct (IH (S i) h1 (acc ++ [r]) (extends_valid _ _ _ Hext Hvalid))
      as (h' & rs & -> & Hext' & Hrs & Hkeys).
    exists h', (r :: rs). split; [by rewrite <- app_assoc|].
    split; [by eapply extends_trans|]. split.
    + constructor; [destruct Hext'; lia|done].
    + unfold dataKeys in *. rewrite !fmap_cons. f_equal.
      * by rewrite (extends_keyOf h1 h').
      * rewrite Hkeys. apply list_fmap_ext. intros j k _.
        by apply resolveKey_extends.
Qed.

End Merge.

Lemma freshFolders_received fds : forall h acc,
  exists h' rs,
    freshFolders (Received <$> fds) h acc = (h', acc ++ rs)
    /\ extends h h' /\ Forall (fun r => r < length h') rs
    /\ keyOf h' <$> rs = dataKeys fds.
Proof.
  induction fds as [|fd fds IH]; intros h acc.
  - exists h, []. rewrite app_nil_r. simpl. eauto using extends_refl.
  - rewrite fmap_cons. cbn [freshFolders alloc]. simpl argUri. simpl argName.
    simpl argIndex.
    set (f := mkFolder (fd_uri fd) (fd_name fd) (fd_index fd)).
    destruct (IH (h ++ [f]) (acc ++ [length h])) as (h' & rs & -> & Hext & Hrs & Hkeys).
    exists h', (length h :: rs). split; [by rewrite <- app_assoc|].
    assert (length h < length (h ++ [f])) as Hlt by (rewrite length_app; simpl; lia).
    split; [eapply extends_trans; [apply extends_app|done]|]. split.
    + constructor; [destruct Hext; lia|done].
    + unfold dataKeys in *. rewrite !fmap_cons. f_equal; [|done].
      rewrite (extends_keyOf (h ++ [f]) h') by done.
      unfold keyOf, uriOf. by rewrite list_lookup_total_middle.
Qed.

(** ** The shape of a merge *)

Section MergeShape.
Variable isLinux : bool.

Lemma validRefs_default h C U :
  validRefs h (Some C) -> validRefs h U ->
  Forall (fun r => r < length h) (workspaceFolders (default C U)).
Proof. intros HC HU. by destruct U. Qed.

(** Merging received data into an existing snapshot. *)
Lemma toExtHostWorkspace_merged h d C U :
  validRefs h (Some C) -> validRefs h U ->
  exists h1 rs ws add rem,
    toExtHostWorkspace isLinux h (Some (received d)) (Some C) U
    = (h1, mkMerge (Some ws) add rem)
    /\ delta (compareWorkspaceFolderByUri isLinux h1)
             (workspaceFolders C) (workspaceFolders ws) = (rem, add)
    /\ workspaceFolders ws = sort (compareByIndex h1) rs
    /\ mergeFolders isLinux (default C U) 0 (Received <$> d_folders d) h [] = (h1, rs)
    /\ extends h h1
    /\ Forall (fun r => r < length h1) rs
    /\ keyOf h1 <$> rs = resolveKey isLinux h (default C U) <$> dataKeys (d_folders d).
Proof.
  intros HC HU.
  destruct (mergeFolders_received isLinux (default C U) (d_folders d) 0 h []
              (validRefs_default h C U HC HU))
    as (h1 & rs & Hmerge & Hext & Hrs & Hkeys).
  rewrite app_nil_l in Hmerge.
  unfold toExtHostWorkspace, received. simpl a_folders.
  rewrite Hmerge. cbn [from_option workspaceFolders newExtHostWorkspaceImpl a_id a_name].
  destruct (delta _ _ _) as [rem add] eqn:Hdelta.
  eexists h1, rs, _, add, rem. cbn [workspaceFolders]. auto 10.
Qed.

(** Building a snapshot from received data when there was none. *)
Lemma toExtHostWorkspace_fresh h d U :
  exists h1 rs ws,
    toExtHostWorkspace isLinux h (Some (received d)) None U
    = (h1, mkMerge (Some ws)
             (sort (compareWorkspaceFolderByUri isLinux h1) (workspaceFolders ws)) [])
    /\ workspaceFolders ws = sort (compareByIndex h1) rs
    /\ extends h h1
    /\ Forall (fun r => r < length h1) rs
    /\ keyOf h1 <$> rs = dataKeys (d_folders d).
Proof.
  destruct (freshFolders_received (d_folders d) h [])
    as (h1 & rs & Hfresh & Hext & Hrs & Hkeys).
  rewrite app_nil_l in Hfresh.
  unfold toExtHostWorkspace, received. simpl a_folders.
  rewrite Hfresh. cbn [from_option workspaceFolders newExtHostWorkspaceImpl a_id a_name].
  unfold delta. rewrite sort_nil, arrayDelta_nil_l.
  exists h1, rs,
    (newExtHostWorkspaceImpl h1 (d_id d) (d_name d) (sort (compareByIndex h1) rs)).
  cbn [workspaceFolders newExtHostWorkspaceImpl]. auto 10.
Qed.

End MergeShape.

(** ** The delta of [$acceptWorkspaceData] *)

Lemma spellingConsistent_linux ks : spellingConsistent true ks.
Proof. intros k1 k2 _ _. unfold equivKey. simpl. by intros ?%String.eqb_eq. Qed.

Lemma resolveKey_consistent isLinux h src k ks :
  spellingConsistent isLinux ks ->
  keyOf h <$> workspaceFolders src ⊆ ks -> k ∈ ks ->
  resolveKey isLinux h src k = k.
Proof.
  intros Hcons Hsub Hk. unfold resolveKey.
  destruct (List.find _ _) as [r0|] eqn:Hfind; [|done].
  apply find_some in Hfind as [Hin%list_elem_of_In Heq].
  apply Hcons; [|done..]. apply Hsub. by apply list_elem_of_fmap_2.
Qed.

(** C1 (amended): the delta carried by the event of [$acceptWorkspaceData] is
    computed with the comparator by location alone
    ([compareWorkspaceFolderByUri]), between the folders of the previous
    confirmed snapshot and those of the new one.  Hence, on Linux, and
    elsewhere when no two locations of the confirmed and the pending
    snapshot are equal as folders yet spelled differently, incoming data
    that names exactly the locations of the confirmed snapshot leaves both
    lists empty whatever names and indices it carries: a folder whose name
    or index changed at an unchanged location is in neither list. *)
Theorem acceptWorkspaceData_delta_by_location (isLinux : bool)
  (st : ExtHostWorkspace) (C : ExtHostWorkspaceImpl) (d : IWorkspaceData) :
  confirmedWorkspace st = Some C ->
  validRefs (store st) (confirmedWorkspace st) ->
  validRefs (store st) (unconfirmedWorkspace st) ->
  let result := acceptWorkspaceData isLinux st (Some d) in
  (exists ws add rem,
     confirmedWorkspace (fst result) = Some ws
     /\ snd result = [mkEvent add rem]
     /\ delta (compareWorkspaceFolderByUri isLinux (store (fst result)))
              (workspaceFolders C) (workspaceFolders ws) = (rem, add))
  /\ (isLinux = true
      \/ spellingConsistent isLinux
           (folderKeys (store st) (confirmedWorkspace st)
            ++ folderKeys (store st) (unconfirmedWorkspace st)) ->
      dataKeys (d_folders d) ≡ₚ folderKeys (store st) (confirmedWorkspace st) ->
      snd result = [mkEvent [] []]).
Proof.
  intros HC Hvc Hvu result. unfold result, acceptWorkspaceData.
  rewrite HC in Hvc |- *. simpl fmap.
  destruct (toExtHostWorkspace_merged isLinux (store st) d C (unconfirmedWorkspace st)
              Hvc Hvu)
    as (h1 & rs & ws & add & rem & -> & Hdelta & Hws & _ & Hext & Hrs & Hkeys).
  cbn [fst snd store confirmedWorkspace workspace added removed].
  split; [by exists ws, add, rem|].
  intros Hspelling Hperm.
  assert (spellingConsistent isLinux
            (folderKeys (store st) (Some C)
             ++ folderKeys (store st) (unconfirmedWorkspace st))) as Hcons
    by (destruct Hspelling as [->|?]; [apply spellingConsistent_linux|done]).
  clear Hspelling. unfold folderKeys in *.
  cbn [from_option] in *.
  assert (keyOf h1 <$> rs = dataKeys (d_folders d)) as Hkeys'.
  { rewrite Hkeys. rewrite <- (list_fmap_id (dataKeys (d_folders d))) at 2.
    apply list_fmap_ext. intros i k Hk. simpl.
    apply (resolveKey_consistent _ _ _ _ _ Hcons).
    - intros k' Hk'. apply elem_of_app. destruct (unconfirmedWorkspace st); [by right|by left].
    - apply elem_of_app. left. rewrite <- Hperm. by eapply list_elem_of_lookup_2. }
  assert (keyOf h1 <$> workspaceFolders C = keyOf (store st) <$> workspaceFolders C)
    as HkeysC by by apply extends_keys.
  rewrite (delta_same_locations isLinux h1 (workspaceFolders C) (workspaceFolders ws))
    in Hdelta.
  - by injection Hdelta as <- <-.
  - rewrite HkeysC, Hws, sort_Permutation, Hkeys'. done.
  - rewrite HkeysC. eapply spellingConsistent_subseteq; [|done].
    intros k Hk. apply elem_of_app. by left.
Qed.

(** The theorem at work where letter case is ignored: the folder [/ws/a]
    comes back renamed and re-indexed. *)
Lemma acceptWorkspaceData_delta_by_location_witness :
  snd (acceptWorkspaceData false (oneFolder false) (Some renamedData))
  = [mkEvent [] []].
Proof.
  refine (proj2 (acceptWorkspaceData_delta_by_location false (oneFolder false)
            (mkImpl "id" "ws" [0] [(["file:"; "ws"; "a"], 0)]) renamedData
            _ _ _) _ _).
  - reflexivity.
  - vm_compute. repeat constructor.
  - vm_compute. constructor.
  - right. vm_compute.
    intros k1 k2 ->%list_elem_of_singleton ->%list_elem_of_singleton _.
    reflexivity.
  - vm_compute. reflexivity.
Defined.

(** C1, as stated, fails: the folder [/ws/a] is renamed and re-indexed by
    the incoming data, and the event reports it neither removed nor added. *)
Lemma acceptWorkspaceData_rename_not_reported :
  let st := oneFolder true in
  let result := acceptWorkspaceData true st (Some renamedData) in
  getWorkspaceFolders st = Some [0]
  /\ getWorkspaceFolders (fst result) = Some [0]
  /\ keyOf (store st) 0 = keyOf (store (fst result)) 0
  /\ (nameOf (store st) 0, indexOf (store st) 0) = ("a", 0%Z)
  /\ (nameOf (store (fst result)) 0, indexOf (store (fst result)) 0) = ("renamed", 7%Z)
  /\ snd result = [mkEvent [] []]
  /\ ~ (exists ev, ev ∈ snd result /\ 0 ∈ ev_removed ev /\ 0 ∈ ev_added ev).
Proof.
  vm_compute. repeat split.
  intros (ev & ->%list_elem_of_singleton & Hrem & _).
  by apply elem_of_nil in Hrem.
Qed.

Section Idempotence.
Variable isLinux : bool.

(** What the first of two identical updates leaves behind: every folder of
    the new snapshot sits at a location equal to the one it was named by. *)
Lemma first_accept_keys h d C U :
  validRefs h C -> validRefs h U ->
  exists h1 rs ws add rem (g : string -> string),
    toExtHostWorkspace isLinux h (Some (received d)) C U
    = (h1, mkMerge (Some ws) add rem)
    /\ workspaceFolders ws ≡ₚ rs
    /\ Forall (fun r => r < length h1) rs
    /\ keyOf h1 <$> rs = g <$> dataKeys (d_folders d)
    /\ forall k, equivKey isLinux (g k) k = true.
Proof.
  intros HC HU. destruct C as [C|].
  - destruct (toExtHostWorkspace_merged isLinux h d C U HC HU)
      as (h1 & rs & ws & add & rem & -> & _ & Hws & _ & _ & Hrs & Hkeys).
    exists h1, rs, ws, add, rem, (resolveKey isLinux h (default C U)).
    split; [done|]. split; [by rewrite Hws, sort_Permutation|].
    split; [done|]. split; [done|]. intros k. apply resolveKey_equiv.
  - destruct (toExtHostWorkspace_fresh isLinux h d U)
      as (h1 & rs & ws & -> & Hws & _ & Hrs & Hkeys).
    eexists h1, rs, ws, _, _, id.
    split; [done|]. split; [by rewrite Hws, sort_Permutation|].
    split; [done|]. split; [by rewrite list_fmap_id|]. intros k. apply equivKey_refl.
Qed.

Lemma resolveKey_again h1 (ws : ExtHostWorkspaceImpl) rs (g : string -> string) ks k :
  workspaceFolders ws ≡ₚ rs ->
  keyOf h1 <$> rs = g <$> ks ->
  (forall k, equivKey isLinux (g k) k = true) ->
  spellingConsistent isLinux ks ->
  k ∈ ks ->
  resolveKey isLinux h1 ws k = g k.
Proof.
  intros Hperm Hkeys Hg Hcons Hk. unfold resolveKey.
  destruct (List.find _ _) as [r0|] eqn:Hfind.
  - apply find_some in Hfind as [Hin%list_elem_of_In Heq].
    rewrite Hperm in Hin.
    assert (keyOf h1 r0 ∈ g <$> ks) as Hgk by (rewrite <- Hkeys; by apply list_elem_of_fmap_2).
    apply list_elem_of_fmap in Hgk as (k' & Hr0 & Hk').
    rewrite Hr0 in Heq |- *. f_equal. apply Hcons; [done..|].
    apply (equivKey_trans _ _ (g k')); [|done].
    rewrite equivKey_sym. apply Hg.
  - assert (g k ∈ keyOf h1 <$> rs) as Hgk by (rewrite Hkeys; by apply list_elem_of_fmap_2).
    apply list_elem_of_fmap in Hgk as (r & Hr & Hin).
    rewrite <- Hperm in Hin. apply list_elem_of_In in Hin.
    apply (find_none _ _ Hfind) in Hin. simpl in Hin.
    rewrite <- Hr, Hg in Hin. done.
Qed.

Lemma spellingConsistent_resolved (g : string -> string) ks :
  (forall k, equivKey isLinux (g k) k = true) ->
  spellingConsistent isLinux ks -> spellingConsistent isLinux (g <$> ks).
Proof.
  intros Hg Hcons k1 k2 (a & -> & Ha)%list_elem_of_fmap (b & -> & Hb)%list_elem_of_fmap Heq.
  f_equal. apply Hcons; [done..|].
  apply (equivKey_trans _ _ (g a)); [rewrite equivKey_sym; apply Hg|].
  apply (equivKey_trans _ _ (g b)); [done|apply Hg].
Qed.

(** C8 (amended): two calls of [$acceptWorkspaceData] in a row with the same
    data leave the second with an empty delta, provided no two locations in
    the data are equal as folders and yet spelled differently (as can
    happen where letter case is ignored). *)
Theorem acceptWorkspaceData_twice (st : ExtHostWorkspace) (data : option IWorkspaceData) :
  validRefs (store st) (confirmedWorkspace st) ->
  validRefs (store st) (unconfirmedWorkspace st) ->
  spellingConsistent isLinux (dataKeys (from_option d_folders [] data)) ->
  snd (acceptWorkspaceData isLinux (fst (acceptWorkspaceData isLinux st data)) data)
  = [mkEvent [] []].
Proof.
  intros HC HU Hcons. destruct data as [d|]; [|done].
  cbn [from_option] in Hcons. unfold acceptWorkspaceData at 2. simpl fmap.
  destruct (first_accept_keys (store st) d _ _ HC HU)
    as (h1 & rs1 & ws1 & add1 & rem1 & g & -> & Hperm1 & Hrs1 & Hkeys1 & Hg).
  cbn [fst workspace]. unfold acceptWorkspaceData.
  cbn [store confirmedWorkspace unconfirmedWorkspace]. simpl fmap.
  assert (validRefs h1 (Some ws1)) as Hv1.
  { unfold validRefs. cbn [from_option]. by rewrite Hperm1. }
  destruct (toExtHostWorkspace_merged isLinux h1 d ws1 None Hv1)
    as (h2 & rs2 & ws2 & add & rem & -> & Hdelta & Hws2 & _ & Hext & Hrs2 & Hkeys2);
    [constructor|].
  cbn [snd added removed default] in *.
  assert (keyOf h2 <$> rs2 = g <$> dataKeys (d_folders d)) as Hkeys2'.
  { rewrite Hkeys2. apply list_fmap_ext. intros i k Hk.
    eapply resolveKey_again; eauto. by eapply list_elem_of_lookup_2. }
  assert (keyOf h2 <$> workspaceFolders ws1 ≡ₚ g <$> dataKeys (d_folders d)) as Hold.
  { rewrite (extends_keys h1 h2) by done. by rewrite Hperm1, Hkeys1. }
  rewrite (delta_same_locations isLinux h2 (workspaceFolders ws1) (workspaceFolders ws2))
    in Hdelta.
  - by injection Hdelta as <- <-.
  - by rewrite Hold, Hws2, sort_Permutation, Hkeys2'.
  - eapply spellingConsistent_Permutation; [symmetry; apply Hold|].
    by apply spellingConsistent_resolved.
Qed.

End Idempotence.

(** The theorem at work: the folders [/ws/a] and [/ws/b] are confirmed, and
    the folder [/ws/a] alone is sent twice, where letter case is ignored. *)
Lemma acceptWorkspaceData_twice_witness :
  snd (acceptWorkspaceData false
         (fst (acceptWorkspaceData false twoFolders (Some renamedData)))
         (Some renamedData))
  = [mkEvent [] []].
Proof.
  apply (acceptWorkspaceData_twice false twoFolders (Some renamedData)).
  - vm_compute. repeat constructor.
  - vm_compute. constructor.
  - vm_compute. intros k1 k2 ->%list_elem_of_singleton ->%list_elem_of_singleton _.
    reflexivity.
Defined.

(** C8, as stated, fails where letter case is ignored: the data lists [/B],
    [/a] and [/b]; the second of two identical updates reports the folder
    [/B] added and the folder [/b] removed. *)
Lemma acceptWorkspaceData_twice_case_variants :
  let st1 := fst (acceptWorkspaceData false noWorkspace (Some caseVariantData)) in
  let result := acceptWorkspaceData false st1 (Some caseVariantData) in
  getWorkspaceFolders st1 = Some [0; 1; 2]
  /\ (keyOf (store st1) 0, keyOf (store st1) 1, keyOf (store st1) 2)
     = ("file:///B", "file:///a", "file:///b")
  /\ getWorkspaceFolders (fst result) = Some [1; 0; 0]
  /\ snd result = [mkEvent [0] [2]]
  /\ snd result <> [mkEvent [] []].
Proof. vm_compute. repeat split. congruence. Qed.

(** ** Identity of merged folders *)

Section Identity.
Variable isLinux : bool.
Variable src : ExtHostWorkspaceImpl.

Lemma mergeFolder_found i fd h acc r0 :
  _findFolder isLinux h src (fd_uri fd) = Some r0 ->
  mergeFolder isLinux src i (Received fd) h acc
  = (setIndex r0 (fd_index fd) (setName r0 (fd_name fd) h), acc ++ [r0]).
Proof. intros Hfind. unfold mergeFolder. simpl argUri. by rewrite Hfind. Qed.

Lemma mergeFolder_new i fd h acc :
  _findFolder isLinux h src (fd_uri fd) = None ->
  mergeFolder isLinux src i (Received fd) h acc
  = (h ++ [mkFolder (fd_uri fd) (fd_name fd) (Z.of_nat i)], acc ++ [length h]).
Proof. intros Hfind. unfold mergeFolder. simpl argUri. by rewrite Hfind. Qed.

Lemma lookup_set_other r0 n i (h : heap) r :
  r <> r0 -> setIndex r0 i (setName r0 n h) !! r = h !! r.
Proof.
  intros Hne. unfold setIndex, setName. by rewrite !list_lookup_alter_ne.
Qed.

Lemma lookup_set_same r0 n i (h : heap) :
  r0 < length h ->
  nameOf (setIndex r0 i (setName r0 n h)) r0 = n
  /\ indexOf (setIndex r0 i (setName r0 n h)) r0 = i.
Proof.
  intros Hr0. unfold nameOf, indexOf, setIndex, setName.
  rewrite !list_lookup_total_alter_eq by (by rewrite ?length_alter). done.
Qed.

Variable hb : heap.
Hypothesis Hvalid : Forall (fun r => r < length hb) (workspaceFolders src).

(** A folder that none of the descriptors resolves to is left as it is. *)
Lemma mergeFolders_untouched fds r : forall i h acc h' out,
  extends hb h -> r < length h ->
  (forall fd, fd ∈ fds -> _findFolder isLinux hb src (fd_uri fd) <> Some r) ->
  mergeFolders isLinux src i (Received <$> fds) h acc = (h', out) ->
  h' !! r = h !! r.
Proof.
  induction fds as [|fd fds IH]; intros i h acc h' out Hext Hr Hnot; simpl.
  { by intros [= <- _]. }
  assert (Forall (fun r => r < length h) (workspaceFolders src)) as Hvalid'
    by by eapply extends_valid.
  destruct (mergeFolder_received isLinux src i fd h acc Hvalid')
    as (h1 & r1 & Hstep & Hext1 & _ & _).
  rewrite Hstep. intros Hrest.
  rewrite (IH (S i) h1 (acc ++ [r1]) h' out); try done.
  - destruct (_findFolder isLinux h src (fd_uri fd)) as [r0|] eqn:Hfind.
    + rewrite (mergeFolder_found _ _ _ _ _ Hfind) in Hstep. injection Hstep as <- _.
      apply lookup_set_other. intros ->.
      apply (Hnot fd); [constructor|].
      by rewrite <- (_findFolder_extends isLinux src hb h).
    + rewrite (mergeFolder_new _ _ _ _ Hfind) in Hstep. injection Hstep as <- _.
      by apply lookup_app_l.
  - by eapply extends_trans.
  - destruct Hext1. lia.
  - intros fd' Hfd'. apply Hnot. by apply elem_of_cons; right.
Qed.

(** The folder a descriptor resolves to ends up in the merged list, under
    the name and index of the last descriptor that resolves to it. *)
Lemma mergeFolders_keeps_identity l1 fd l2 r : forall i h acc h' out,
  extends hb h ->
  _findFolder isLinux hb src (fd_uri fd) = Some r ->
  mergeFolders isLinux src i (Received <$> (l1 ++ fd :: l2)) h acc = (h', out) ->
  r ∈ out
  /\ ((forall fd', fd' ∈ l2 -> _findFolder isLinux hb src (fd_uri fd') <> Some r) ->
      nameOf h' r = fd_name fd /\ indexOf h' r = fd_index fd).
Proof.
  induction l1 as [|fd0 l1 IH]; intros i h acc h' out Hext Hfind.
  - rewrite app_nil_l, fmap_cons. cbn [mergeFolders].
    assert (Forall (fun r => r < length h) (workspaceFolders src)) as Hvalid'
      by by eapply extends_valid.
    assert (_findFolder isLinux h src (fd_uri fd) = Some r) as Hfind'
      by by rewrite (_findFolder_extends isLinux src hb h).
    assert (r < length h) as Hr.
    { apply _findFolder_Some in Hfind' as [Hin _].
      rewrite Forall_forall in Hvalid'. by apply Hvalid'. }
    rewrite (mergeFolder_found _ _ _ _ _ Hfind').
    set (h1 := setIndex r (fd_index fd) (setName r (fd_name fd) h)).
    assert (extends h h1) as Hext1
      by (eapply extends_trans; [apply extends_setName|apply extends_setIndex]).
    intros Hrest.
    destruct (mergeFolders_received isLinux src l2 (S i) h1 (acc ++ [r])
                (extends_valid _ _ _ Hext1 Hvalid'))
      as (h'' & rs & Hshape & _).
    rewrite Hrest in Hshape. injection Hshape as <- ->.
    split.
    + rewrite !elem_of_app, list_elem_of_singleton. auto.
    + intros Hlast.
      assert (h' !! r = h1 !! r) as Hsame.
      { eapply mergeFolders_untouched; [| |done|done].
        - by eapply extends_trans.
        - destruct Hext1. lia. }
      unfold nameOf, indexOf. rewrite !list_lookup_total_alt, Hsame.
      rewrite <- !list_lookup_total_alt. by apply lookup_set_same.
  - rewrite <- app_comm_cons, fmap_cons. cbn [mergeFolders].
    assert (Forall (fun r => r < length h) (workspaceFolders src)) as Hvalid'
      by by eapply extends_valid.
    destruct (mergeFolder_received isLinux src i fd0 h acc Hvalid')
      as (h1 & r1 & -> & Hext1 & _ & _).
    apply IH; [by eapply extends_trans|done].
Qed.

End Identity.

(** C5 (amended): when a previous confirmed snapshot exists, every incoming
    descriptor whose location equals that of a folder in the previous
    unconfirmed snapshot (or, absent one, the previous confirmed snapshot)
    has that very folder object in the merged snapshot: an object that was
    in the store before, at its old location.  Its name and index are those
    of the descriptor, unless a later descriptor resolves to the same
    object. *)
Theorem toExtHostWorkspace_keeps_identity (isLinux : bool) (h : heap)
  (d : IWorkspaceData) (C : ExtHostWorkspaceImpl) (U : option ExtHostWorkspaceImpl)
  (l1 l2 : list IFolderData) (fd : IFolderData) (r : ref) :
  validRefs h (Some C) ->
  validRefs h U ->
  d_folders d = l1 ++ fd :: l2 ->
  _findFolder isLinux h (default C U) (fd_uri fd) = Some r ->
  let result := toExtHostWorkspace isLinux h (Some (received d)) (Some C) U in
  exists ws,
    workspace (snd result) = Some ws
    /\ r ∈ workspaceFolders ws
    /\ r < length h
    /\ uriOf (fst result) r = uriOf h r
    /\ ((forall fd', fd' ∈ l2 ->
           _findFolder isLinux h (default C U) (fd_uri fd') <> Some r) ->
        nameOf (fst result) r = fd_name fd /\ indexOf (fst result) r = fd_index fd).
Proof.
  intros HC HU Hd Hfind result. unfold result.
  destruct (toExtHostWorkspace_merged isLinux h d C U HC HU)
    as (h1 & rs & ws & add & rem & -> & _ & Hws & Hmerge & Hext & _ & _).
  cbn [fst snd workspace].
  pose proof (validRefs_default h C U HC HU) as Hvalid.
  assert (r < length h) as Hr.
  { apply _findFolder_Some in Hfind as [Hin _].
    rewrite Forall_forall in Hvalid. by apply Hvalid. }
  rewrite Hd in Hmerge.
  destruct (mergeFolders_keeps_identity isLinux (default C U) h Hvalid
              l1 fd l2 r 0 h [] h1 rs (extends_refl h) Hfind Hmerge)
    as [Hin Hlast].
  exists ws. split; [done|]. split; [by rewrite Hws, elem_of_sort|].
  split; [done|]. split; [by apply Hext|done].
Qed.

(** The theorem at work: [/ws/a] is confirmed and comes back renamed. *)
Lemma toExtHostWorkspace_keeps_identity_witness :
  let result :=
    toExtHostWorkspace false storeA (Some (received renamedData)) (Some snapshotA) None in
  (workspaceFolders <$> workspace (snd result)) = Some [0]
  /\ nameOf (fst result) 0 = "renamed"
  /\ indexOf (fst result) 0 = 7%Z.
Proof.
  destruct (toExtHostWorkspace_keeps_identity false storeA renamedData snapshotA None
              [] [] (folderData "/ws/a" "renamed" 7) 0)
    as (ws & Hws & Hin & _ & _ & Hlast).
  - vm_compute. repeat constructor.
  - vm_compute. constructor.
  - reflexivity.
  - reflexivity.
  - split; [reflexivity|]. apply Hlast. intros fd' Hfd'. by apply elem_of_nil in Hfd'.
Defined.

(** C5, as stated, fails in two ways.  With a pending (unconfirmed) snapshot
    but no confirmed one, the folder [/ws/a] of the pending snapshot is not
    reused: the merged snapshot holds a new object.  And when two incoming
    descriptors name the same location, the one object they share carries
    the name and index of the second, not of the first. *)
Lemma toExtHostWorkspace_identity_lost :
  (let result :=
     toExtHostWorkspace true storeA (Some (received renamedData)) None (Some snapshotA) in
   _findFolder true storeA snapshotA (fileUri "/ws/a") = Some 0
   /\ (workspaceFolders <$> workspace (snd result)) = Some [1]
   /\ ~ (exists ws, workspace (snd result) = Some ws /\ 0 ∈ workspaceFolders ws))
  /\ (let result :=
        toExtHostWorkspace true storeA (Some (received twiceData)) (Some snapshotA) None in
      _findFolder true storeA snapshotA (fd_uri (folderData "/ws/a" "x" 3)) = Some 0
      /\ (workspaceFolders <$> workspace (snd result)) = Some [0; 0]
      /\ nameOf (fst result) 0 = "y"
      /\ indexOf (fst result) 0 = 4%Z
      /\ nameOf (fst result) 0 <> "x").
Proof.
  split.
  - vm_compute. repeat split.
    intros (ws & [= <-] & Hin). apply list_elem_of_singleton in Hin. discriminate.
  - vm_compute. repeat split. discriminate.
Qed.

(** ** Edits that are turned down *)

Lemma allocFolders_spec fs : forall (h : heap),
  length (allocFolders fs h).2 = length fs
  /\ (forall r, r ∈ (allocFolders fs h).2 -> length h <= r)
  /\ (forall r, r < length h -> (allocFolders fs h).1 !! r = h !! r).
Proof.
  induction fs as [|f fs IH]; intros h.
  { simpl. split; [done|]. split; [by intros r ?%elem_of_nil|done]. }
  cbn [allocFolders alloc].
  set (x := mkFolder (v_uri f) (orElse (Some (v_name f)) (basenameOrAuthority (v_uri f))) 0%Z).
  destruct (IH (h ++ [x])) as (Hlen & Hfresh & Hkeep).
  destruct (allocFolders fs (h ++ [x])) as [h2 rs].
  cbn [fst snd length] in *.
  rewrite length_app in Hfresh, Hkeep. simpl in Hfresh, Hkeep.
  split; [by rewrite Hlen|]. split.
  - intros r [->|Hr]%elem_of_cons; [done|]. specialize (Hfresh r Hr). lia.
  - intros r Hr. rewrite Hkeep by lia. by apply lookup_app_l.
Qed.

(** Writing to every folder the index it has already leaves the objects
    below [n] as they are. *)
Lemma fixIndex_noop (n : nat) (l : list ref) : forall (i : nat) (h : heap),
  (forall j r, l !! j = Some r -> r < n ->
     exists f, h !! r = Some f /\ index f = Z.of_nat (i + j)) ->
  forall r, r < n -> fixIndex i l h !! r = h !! r.
Proof.
  induction l as [|f l IH]; intros i h Hpos r Hr; simpl; [done|].
  assert (setIndex f (Z.of_nat i) h !! r = h !! r) as Hstep.
  { unfold setIndex. destruct (decide (f = r)) as [->|Hne];
      [|by apply list_lookup_alter_ne].
    rewrite list_lookup_alter_eq.
    destruct (Hpos 0 r eq_refl Hr) as (x & -> & Hx). simpl.
    rewrite Nat.add_0_r in Hx. rewrite <- Hx. by destruct x. }
  rewrite <- Hstep. apply IH; [|done].
  intros j r' Hj Hr'.
  destruct (Hpos (S j) r' Hj Hr') as (x & Hx & Hidx).
  exists x. split; [|by rewrite Hidx; f_equal; lia].
  unfold setIndex. rewrite list_lookup_alter_ne; [done|].
  intros ->. destruct (Hpos 0 r' eq_refl Hr') as (y & Hy & Hidy).
  rewrite Hx in Hy. injection Hy as ->. lia.
Qed.

Section Rejected.
Variable isLinux : bool.

(** An edit whose delta is empty replaces as many folders as it deletes. *)
Lemma editedFolders_same_length (cur inserted : list ref) (i n : nat) cmp :
  i + n <= length cur ->
  delta cmp cur (take i cur ++ inserted ++ drop (i + n) cur) = ([], []) ->
  length inserted = n.
Proof.
  intros Hrange Hdelta. unfold delta in Hdelta.
  apply arrayDelta_empty_length in Hdelta.
  rewrite !length_sort, !length_app, length_take, length_drop in Hdelta. lia.
Qed.

Lemma editedFolders_unchanged (st : ExtHostWorkspace) (i n : Z)
  (toAdd : list ValidatedFolder) :
  positionsMatch st ->
  (0 <= i)%Z -> (0 <= n)%Z -> (i + n <= Z.of_nat (length (currentFolders st)))%Z ->
  delta (compareWorkspaceFolderByUriAndNameAndIndex isLinux
           (editedFolders (store st) (currentFolders st) i n toAdd).1)
        (currentFolders st)
        (editedFolders (store st) (currentFolders st) i n toAdd).2 = ([], []) ->
  forall r, r < length (store st) ->
    (editedFolders (store st) (currentFolders st) i n toAdd).1 !! r = store st !! r.
Proof.
  intros Hpos Hi Hn Hrange. unfold editedFolders.
  destruct (allocFolders_spec toAdd (store st)) as (Hlen & Hfresh & Hkeep).
  destruct (allocFolders toAdd (store st)) as [h1 inserted] eqn:Halloc.
  cbn [fst snd] in *. intros Hdelta r Hr.
  assert (Z.to_nat i + Z.to_nat n <= length (currentFolders st)) as Hrange' by lia.
  assert (length inserted = Z.to_nat n) as Hins.
  { by eapply (editedFolders_same_length (currentFolders st) inserted (Z.to_nat i)). }
  rewrite <- Hkeep by done.
  apply (fixIndex_noop (length (store st))); [|done].
  intros j r' Hj Hr'. rewrite Hkeep by done. simpl.
  apply lookup_app_Some in Hj as [Hj|[Hge Hj]].
  - apply lookup_take_Some in Hj as [Hj _]. by apply Hpos.
  - rewrite length_take in Hge, Hj.
    apply lookup_app_Some in Hj as [Hj|[Hge' Hj]].
    + apply list_elem_of_lookup_2, Hfresh in Hj. lia.
    + rewrite lookup_drop in Hj. apply Hpos.
      rewrite <- Hj. f_equal. lia.
Qed.

(** C3 (amended): [updateWorkspaceFolders] returns [false], calls nothing
    on the proxy and leaves both snapshots and every folder object as they
    were, whenever (a) [deleteCount] is 0 and no valid folder is to be
    inserted, (b) [index] or [deleteCount] is negative or not a number, (c)
    [index + deleteCount] exceeds the number of current folders, or (d) the
    delta of the edited list against the current list is empty and the
    current folders carry their positions as indices; without the latter it
    still returns [false] with both snapshots in place.  In particular
    [updateWorkspaceFolders(ext, 0, 0)] returns [false]. *)
Theorem updateWorkspaceFolders_turned_down (st : ExtHostWorkspace) (ext : string)
  (idx deleteCount : JsValue) (toAdd : list FolderToAdd) :
  nothingToDo isLinux deleteCount toAdd
  \/ badNumbers idx deleteCount
  \/ outOfRange st idx deleteCount
  \/ noChange isLinux st idx deleteCount toAdd ->
  let result := updateWorkspaceFolders isLinux st ext idx deleteCount toAdd in
  result.2 = Returns false
  /\ result.1.2 = []
  /\ confirmedWorkspace result.1.1 = confirmedWorkspace st
  /\ unconfirmedWorkspace result.1.1 = unconfirmedWorkspace st
  /\ (nothingToDo isLinux deleteCount toAdd \/ badNumbers idx deleteCount
      \/ outOfRange st idx deleteCount \/ positionsMatch st ->
      unchanged st result.1.1)
  /\ updateWorkspaceFolders isLinux st ext (JsNumber 0) (JsNumber 0) []
     = (st, [], Returns false).
Proof.
  intros Hcase result. unfold result. clear result.
  split_and!; [..|done]; unfold updateWorkspaceFolders.
  all: destruct (invalidNumber idx || invalidNumber deleteCount) eqn:Hbad;
    [by (try done; intros _; repeat split)|].
  all: apply orb_false_elim in Hbad as [Hbi Hbn].
  all: destruct ((numberOf deleteCount =? 0)%Z
                 && bool_decide (length (validatedDistinct isLinux toAdd) = 0%nat))
         eqn:Hnothing; [by (try done; intros _; repeat split)|].
  all: fold (currentFolders st).
  all: destruct (Z.of_nat (length (currentFolders st))
                 <? numberOf idx + numberOf deleteCount)%Z eqn:Hrange;
    [by (try done; intros _; repeat split)|].
  all: apply Z.ltb_ge in Hrange.
  all: assert (noChange isLinux st idx deleteCount toAdd) as Hd.
  all: try (destruct Hcase as [[-> Hnil]|[[?|?]|[?|?]]]; try done; try congruence;
            [by rewrite Hnil in Hnothing|unfold outOfRange in *; lia]).
  all: assert (0 <= numberOf idx)%Z as Hi
         by (destruct idx; simpl in *; [lia|done]).
  all: assert (0 <= numberOf deleteCount)%Z as Hn
         by (destruct deleteCount; simpl in *; [lia|done]).
  all: unfold noChange, editDelta in Hd.
  all: pose proof (editedFolders_unchanged st (numberOf idx) (numberOf deleteCount)
                     (validatedDistinct isLinux toAdd)) as Hkeep.
  all: destruct (editedFolders _ _ _ _ _) as [h new].
  all: cbn [fst snd] in Hkeep; rewrite Hd; simpl; try done.
  intros [[-> Hnil]|[[?|?]|[?|Hpos]]]; try congruence.
  - by rewrite Hnil in Hnothing.
  - unfold outOfRange in *. lia.
  - split; [done|]. split; [done|]. simpl. by apply Hkeep.
Qed.

End Rejected.

(** The theorem at work: with [/ws/a] and [/ws/b] confirmed, the folder
    [/ws/b] is replaced by itself. *)
Lemma updateWorkspaceFolders_turned_down_witness :
  let result :=
    updateWorkspaceFolders true twoFolders "ext" (JsNumber 1) (JsNumber 1)
      [mkToAdd (Some (fileUri "/ws/b")) (Some "b")] in
  result.2 = Returns false /\ result.1.2 = [] /\ unchanged twoFolders result.1.1.
Proof.
  destruct (updateWorkspaceFolders_turned_down true twoFolders "ext"
              (JsNumber 1) (JsNumber 1) [mkToAdd (Some (fileUri "/ws/b")) (Some "b")])
    as (Hfalse & Hcalls & _ & _ & Hsame & _).
  - right. right. right. vm_compute. reflexivity.
  - split; [exact Hfalse|]. split; [exact Hcalls|]. apply Hsame.
    right. right. right. intros i r.
    destruct i as [|[|i]]; vm_compute; intros [= <-]; eexists; split; reflexivity.
Defined.

(** C3, as stated, fails in case (d): the folders [/ws/d] and [/ws/k] carry
    the indices 0 and 5; replacing [/ws/d] by itself has an empty delta and
    returns [false], yet the folder [/ws/k] of the confirmed snapshot now
    carries the index 1. *)
Lemma updateWorkspaceFolders_renumbers_kept_folder :
  let toAdd := [mkToAdd (Some (fileUri "/ws/d")) (Some "d")] in
  let result :=
    updateWorkspaceFolders true gappedIndices "ext" (JsNumber 0) (JsNumber 1) toAdd in
  noChange true gappedIndices (JsNumber 0) (JsNumber 1) toAdd
  /\ result.2 = Returns false
  /\ getWorkspaceFolders gappedIndices = Some [0; 1]
  /\ getWorkspaceFolders result.1.1 = Some [0; 1]
  /\ keyOf (store gappedIndices) 1 = "file:///ws/k"
  /\ indexOf (store gappedIndices) 1 = 5%Z
  /\ indexOf (store result.1.1) 1 = 1%Z
  /\ ~ unchanged gappedIndices result.1.1.
Proof.
  vm_compute. repeat split.
  intros (_ & _ & Hsame). specialize (Hsame 1 (le_n 2)). discriminate Hsame.
Qed.

(** ** Reachable states are well formed *)

Section WellFormed.
Variable isLinux : bool.

Lemma length_setName r n h : length (setName r n h) = length h.
Proof. apply length_alter. Qed.

Lemma length_setIndex r i h : length (setIndex r i h) = length h.
Proof. apply length_alter. Qed.

Lemma length_fixIndex l : forall i h, length (fixIndex i l h) = length h.
Proof.
  induction l as [|f l IH]; intros i h; simpl; [done|].
  by rewrite IH, length_setIndex.
Qed.

Lemma mergeFolders_valid src fds : forall i h acc,
  Forall (fun r => r < length h) (workspaceFolders src) ->
  Forall (fun r => r < length h) acc ->
  length h <= length (mergeFolders isLinux src i fds h acc).1
  /\ Forall (fun r => r < length (mergeFolders isLinux src i fds h acc).1)
            (mergeFolders isLinux src i fds h acc).2.
Proof.
  induction fds as [|fd fds IH]; intros i h acc Hsrc Hacc; [done|].
  cbn [mergeFolders]. unfold mergeFolder.
  destruct (_findFolder isLinux h src (argUri h fd)) as [r0|] eqn:Hfind.
  - set (h1 := setIndex r0 _ _).
    assert (length h1 = length h) as Hlen
      by (unfold h1; by rewrite length_setIndex, length_setName).
    destruct (IH (S i) h1 (acc ++ [r0])) as [Hle Hout].
    + by rewrite Hlen.
    + rewrite Hlen. apply Forall_app. split; [done|].
      apply Forall_singleton.
      apply find_some in Hfind as [Hin%list_elem_of_In _].
      rewrite Forall_forall in Hsrc. by apply Hsrc.
    + split; [lia|done].
  - cbn [alloc]. set (h1 := h ++ _).
    assert (length h1 = S (length h)) as Hlen
      by (unfold h1; rewrite length_app; simpl; lia).
    destruct (IH (S i) h1 (acc ++ [length h])) as [Hle Hout].
    + rewrite Hlen. eapply Forall_impl; [done|]. simpl. lia.
    + rewrite Hlen. apply Forall_app. split.
      * eapply Forall_impl; [done|]. simpl. lia.
      * apply Forall_singleton. lia.
    + split; [lia|done].
Qed.

Lemma freshFolders_valid fds : forall h acc,
  Forall (fun r => r < length h) acc ->
  length h <= length (freshFolders fds h acc).1
  /\ Forall (fun r => r < length (freshFolders fds h acc).1) (freshFolders fds h acc).2.
Proof.
  induction fds as [|fd fds IH]; intros h acc Hacc; [done|].
  cbn [freshFolders alloc]. set (h1 := h ++ _).
  assert (length h1 = S (length h)) as Hlen
    by (unfold h1; rewrite length_app; simpl; lia).
  destruct (IH h1 (acc ++ [length h])) as [Hle Hout].
  - rewrite Hlen. apply Forall_app. split.
    + eapply Forall_impl; [done|]. simpl. lia.
    + apply Forall_singleton. lia.
  - split; [lia|done].
Qed.

(** A merge only adds objects, and its snapshot holds objects of the store
    it leaves. *)
Lemma toExtHostWorkspace_valid h data C U :
  validRefs h C -> validRefs h U ->
  length h <= length (toExtHostWorkspace isLinux h data C U).1
  /\ validRefs (toExtHostWorkspace isLinux h data C U).1
               (workspace (toExtHostWorkspace isLinux h data C U).2).
Proof.
  intros HC HU. unfold toExtHostWorkspace.
  destruct data as [d|]; [|simpl; split; [done|constructor]].
  assert (exists h1 folders,
    match C with
    | Some confirmed => mergeFolders isLinux (default confirmed U) 0 (a_folders d) h []
    | None => freshFolders (a_folders d) h []
    end = (h1, folders)
    /\ length h <= length h1 /\ Forall (fun r => r < length h1) folders)
    as (h1 & folders & -> & Hle & Hfolders).
  { destruct C as [C|].
    - destruct (mergeFolders_valid (default C U) (a_folders d) 0 h [])
        as [Hle Hout]; [by apply validRefs_default|constructor|].
      destruct (mergeFolders _ _ _ _ _ _) as [h1 folders]. eauto.
    - destruct (freshFolders_valid (a_folders d) h []) as [Hle Hout]; [constructor|].
      destruct (freshFolders _ _ _) as [h1 folders]. eauto. }
  destruct (delta _ _ _) as [rem add]. cbn [fst snd workspace].
  split; [done|]. unfold validRefs. cbn [from_option workspaceFolders newExtHostWorkspaceImpl].
  by rewrite sort_Permutation.
Qed.

Lemma validRefs_grow h h' w :
  length h <= length h' -> validRefs h w -> validRefs h' w.
Proof.
  intros Hle Hw. unfold validRefs in *. eapply Forall_impl; [done|].
  intros r Hr. simpl in *. lia.
Qed.

Lemma newExtHostWorkspace_wellFormed proxy data :
  wellFormed (newExtHostWorkspace isLinux proxy data).
Proof.
  unfold newExtHostWorkspace.
  destruct (toExtHostWorkspace_valid [] (received <$> data) None None)
    as [_ Hvalid]; [constructor..|].
  destruct (toExtHostWorkspace _ _ _ _ _) as [h m]. split; [done|constructor].
Qed.

Lemma acceptWorkspaceData_wellFormed st data :
  wellFormed st -> wellFormed (acceptWorkspaceData isLinux st data).1.
Proof.
  intros [HC HU]. unfold acceptWorkspaceData.
  destruct (toExtHostWorkspace_valid (store st) (received <$> data) _ _ HC HU)
    as [_ Hvalid].
  destruct (toExtHostWorkspace _ _ _ _ _) as [h m]. split; [done|constructor].
Qed.

Lemma updateWorkspaceFolders_wellFormed st ext idx deleteCount toAdd :
  wellFormed st ->
  wellFormed (updateWorkspaceFolders isLinux st ext idx deleteCount toAdd).1.1.
Proof.
  intros [HC HU]. unfold updateWorkspaceFolders.
  destruct (invalidNumber idx || invalidNumber deleteCount); [done|].
  destruct (_ && _); [done|].
  destruct (_ <? _)%Z; [done|].
  unfold editedFolders.
  destruct (allocFolders_spec (validatedDistinct isLinux toAdd) (store st))
    as (_ & _ & Hkeep).
  destruct (allocFolders _ _) as [h1 inserted]. cbn [fst snd] in *.
  set (new := take _ _ ++ inserted ++ drop _ _).
  set (h2 := fixIndex 0 new h1).
  assert (length (store st) <= length h2) as Hle.
  { unfold h2. rewrite length_fixIndex.
    destruct (decide (length (store st) <= length h1)) as [|Hgt]; [done|].
    assert (is_Some (store st !! length h1)) as [x Hx]
      by (apply lookup_lt_is_Some; lia).
    rewrite <- Hkeep in Hx by lia. apply lookup_lt_Some in Hx. lia. }
  assert (wellFormed (mkHost h2 (hasProxy st) (confirmedWorkspace st)
                        (unconfirmedWorkspace st))) as Hwf1.
  { split; by eapply validRefs_grow. }
  destruct (delta _ _ _) as [rem add].
  destruct (_ && _); [done|].
  unfold _actualWorkspace. cbn [unconfirmedWorkspace confirmedWorkspace].
  unfold trySetWorkspaceData, _actualWorkspace.
  cbn [unconfirmedWorkspace confirmedWorkspace store hasProxy].
  destruct Hwf1 as [HC1 HU1]. cbn [store confirmedWorkspace unconfirmedWorkspace] in *.
  destruct (unconfirmedWorkspace st) as [u|] eqn:Hu.
  - destruct (toExtHostWorkspace_valid h2
                (Some (mkDataArg (ws_id u) (ws_name u) (Live <$> new))) (Some u) None)
      as [Hle' Hvalid]; [done|constructor|].
    destruct (toExtHostWorkspace _ _ _ _ _) as [h3 m]. cbn [fst snd] in *.
    split; [by eapply validRefs_grow|done].
  - destruct (confirmedWorkspace st) as [c|] eqn:Hc; [|done].
    destruct (toExtHostWorkspace_valid h2
                (Some (mkDataArg (ws_id c) (ws_name c) (Live <$> new))) (Some c) None)
      as [Hle' Hvalid]; [done|constructor|].
    destruct (toExtHostWorkspace _ _ _ _ _) as [h3 m]. cbn [fst snd] in *.
    split; [by eapply validRefs_grow|done].
Qed.

End WellFormed.

(** * Further properties *)

(** Closed side conditions on sample data. *)
Ltac solve_elems H :=
  repeat (apply elem_of_cons in H as [->|H]); try (by apply elem_of_nil in H).

Ltac solve_spelling :=
  let k1 := fresh "k" in let k2 := fresh "k" in
  let H1 := fresh "H" in let H2 := fresh "H" in let Heq := fresh "Heq" in
  intros k1 k2 H1 H2 Heq; vm_compute in H1, H2;
  solve_elems H1; solve_elems H2;
  first [reflexivity | (vm_compute in Heq; discriminate Heq)].

Ltac solve_nodup :=
  vm_compute;
  repeat (apply NoDup_cons; split;
          [let H := fresh "H" in
           intros H; repeat (apply elem_of_cons in H as [H|H]; [discriminate H|]);
           by apply elem_of_nil in H|]);
  apply NoDup_nil_2.

Ltac solve_valid := vm_compute; repeat constructor.

(** ** The folders to insert *)

Section Validated.
Variable isLinux : bool.

Lemma validatedDistinct_snoc toAdd a :
  validatedDistinct isLinux (toAdd ++ [a])
  = validateFolder isLinux (validatedDistinct isLinux toAdd) a.
Proof. unfold validatedDistinct. by rewrite fold_left_app. Qed.

Lemma isFolderEqual_refl u : isFolderEqual isLinux u u = true.
Proof. rewrite isFolderEqual_equivKey. apply equivKey_refl. Qed.

(** X1: the folders [updateWorkspaceFolders] keeps for insertion are at
    pairwise different locations; each stems from an argument with a [URI],
    named as given or, without a name, after the last segment of its path;
    and every argument with a [URI] has a kept folder at its location. *)
Theorem validatedDistinct_distinct (toAdd : list FolderToAdd) :
  (forall i j fi fj, i < j ->
     validatedDistinct isLinux toAdd !! i = Some fi ->
     validatedDistinct isLinux toAdd !! j = Some fj ->
     isFolderEqual isLinux (v_uri fi) (v_uri fj) = false)
  /\ (forall f, f ∈ validatedDistinct isLinux toAdd ->
        exists a, a ∈ toAdd /\ add_uri a = Some (v_uri f)
          /\ v_name f = orElse (add_name a) (basenameOrAuthority (v_uri f)))
  /\ (forall a u, a ∈ toAdd -> add_uri a = Some u ->
        exists f, f ∈ validatedDistinct isLinux toAdd
          /\ isFolderEqual isLinux (v_uri f) u = true).
Proof.
  induction toAdd as [|a toAdd IH] using rev_ind.
  { split; [by intros ? ? ? ? _ ?|]. split; [by intros ? ?%elem_of_nil|].
    by intros ? ? ?%elem_of_nil. }
  destruct IH as (IHd & IHo & IHc).
  rewrite validatedDistinct_snoc. unfold validateFolder.
  destruct (add_uri a) as [u|] eqn:Hu.
  2:{ split; [done|]. split.
      - intros f (a' & Ha' & ?)%IHo. exists a'. split; [|done].
        apply elem_of_app. by left.
      - intros a' u' [Ha'| ->%list_elem_of_singleton]%elem_of_app Hu';
          [by eapply IHc|congruence]. }
  destruct (existsb _ _) eqn:Hex.
  - split; [done|]. split.
    + intros f (a' & Ha' & ?)%IHo. exists a'. split; [|done].
      apply elem_of_app. by left.
    + intros a' u' [Ha'| ->%list_elem_of_singleton]%elem_of_app Hu';
        [by eapply IHc|].
      rewrite Hu in Hu'. injection Hu' as <-.
      apply existsb_exists in Hex as (f & Hf%list_elem_of_In & Heq). eauto.
  - set (v := validatedDistinct isLinux toAdd) in *.
    set (new := mkValidated u (orElse (add_name a) (basenameOrAuthority u))).
    split; [|split].
    + intros i j fi fj Hij Hi Hj.
      apply lookup_app_Some in Hj as [Hj|[Hge Hj]].
      * apply (IHd i j fi fj Hij); [|done].
        rewrite lookup_app_l in Hi; [done|]. apply lookup_lt_Some in Hj. lia.
      * apply list_lookup_singleton_Some in Hj as [Hj0 <-].
        rewrite lookup_app_l in Hi by lia. simpl.
        destruct (isFolderEqual isLinux (v_uri fi) u) eqn:Heq; [|done].
        assert (existsb (fun f => isFolderEqual isLinux (v_uri f) u) v = true) as Hex'.
        { apply existsb_exists. exists fi. split; [|done].
          by eapply list_elem_of_In, list_elem_of_lookup_2. }
        congruence.
    + intros f [Hf| ->%list_elem_of_singleton]%elem_of_app.
      * destruct (IHo f Hf) as (a' & Ha' & ?). exists a'. split; [|done].
        apply elem_of_app. by left.
      * exists a. split; [|done]. apply elem_of_app. right. constructor.
    + intros a' u' [Ha'| ->%list_elem_of_singleton]%elem_of_app Hu'.
      * destruct (IHc a' u' Ha' Hu') as (f & Hf & ?). exists f. split; [|done].
        apply elem_of_app. by left.
      * rewrite Hu in Hu'. injection Hu' as <-. exists new. split.
        -- apply elem_of_app. right. constructor.
        -- apply isFolderEqual_refl.
Qed.

End Validated.

(** ** The comparators *)

Lemma compare_zero a b : compare a b = 0%Z <-> a = b.
Proof.
  split; [|intros ->; apply compare_refl].
  unfold compare. destruct (String.compare a b) eqn:Hc; try done.
  intros _. by apply String.compare_eq_iff.
Qed.

Lemma compare_opp a b : compare b a = (- compare a b)%Z.
Proof.
  unfold compare. rewrite (String.compare_antisym a b).
  by destruct (String.compare b a).
Qed.

Section Comparators.
Variable isLinux : bool.

Lemma equivKey_eq k : forall k', k = k' -> equivKey isLinux k k' = true.
Proof. intros k' <-. apply equivKey_refl. Qed.

(** X2: the comparator of [updateWorkspaceFolders] is 0 exactly on folders
    with the same index, equal locations and the same name, and the
    comparator of the merge exactly on folders at equal locations; each of
    them changes sign when its arguments are swapped. *)
Theorem comparators_zero (h : heap) (a b : ref) :
  (compareWorkspaceFolderByUriAndNameAndIndex isLinux h a b = 0%Z
   <-> indexOf h a = indexOf h b
       /\ isFolderEqual isLinux (uriOf h a) (uriOf h b) = true
       /\ nameOf h a = nameOf h b)
  /\ (compareWorkspaceFolderByUri isLinux h a b = 0%Z
      <-> isFolderEqual isLinux (uriOf h a) (uriOf h b) = true)
  /\ compareWorkspaceFolderByUriAndNameAndIndex isLinux h b a
     = (- compareWorkspaceFolderByUriAndNameAndIndex isLinux h a b)%Z
  /\ compareWorkspaceFolderByUri isLinux h b a
     = (- compareWorkspaceFolderByUri isLinux h a b)%Z.
Proof.
  assert (isFolderEqual isLinux (uriOf h b) (uriOf h a)
          = isFolderEqual isLinux (uriOf h a) (uriOf h b)) as Hsym
    by (rewrite !isFolderEqual_equivKey; apply equivKey_sym).
  assert (isFolderEqual isLinux (uriOf h a) (uriOf h b) = false ->
          compare (toString (uriOf h a)) (toString (uriOf h b)) <> 0%Z) as Hne.
  { intros Hfalse Hzero%compare_zero.
    rewrite isFolderEqual_equivKey, (equivKey_eq _ _ Hzero) in Hfalse. done. }
  unfold compareWorkspaceFolderByUriAndNameAndIndex, compareWorkspaceFolderByUri.
  rewrite Hsym. clear Hsym. split_and!.
  - destruct (indexOf h a =? indexOf h b)%Z eqn:Hidx; simpl.
    + apply Z.eqb_eq in Hidx.
      destruct (isFolderEqual isLinux (uriOf h a) (uriOf h b)) eqn:Heq.
      * rewrite compare_zero. tauto.
      * split; [by intros ?%Hne|by intros (_ & ? & _)].
    + apply Z.eqb_neq in Hidx.
      destruct (indexOf h a <? indexOf h b)%Z; split; try done; by intros [? _].
  - destruct (isFolderEqual isLinux (uriOf h a) (uriOf h b)) eqn:Heq; [done|].
    split; [by intros ?%Hne|done].
  - rewrite (Z.eqb_sym (indexOf h b)).
    destruct (indexOf h a =? indexOf h b)%Z eqn:Hidx; simpl.
    + destruct (isFolderEqual _ _ _); apply compare_opp.
    + apply Z.eqb_neq in Hidx.
      destruct (indexOf h b <? indexOf h a)%Z eqn:H1,
               (indexOf h a <? indexOf h b)%Z eqn:H2; try done;
        rewrite ?Z.ltb_lt, ?Z.ltb_ge in *; lia.
  - destruct (isFolderEqual _ _ _); [done|apply compare_opp].
Qed.

End Comparators.

(** ** What a delta holds *)

Section DeltaFacts.
Context {A : Type}.
Implicit Types (c : A -> A -> Z) (l : list A).

Lemma arrayDelta_cons c a l1 b l2 :
  arrayDelta c (a :: l1) (b :: l2)
  = if (c a b =? 0)%Z then arrayDelta c l1 l2
    else if (c a b <? 0)%Z
         then ((a :: (arrayDelta c l1 (b :: l2)).1), (arrayDelta c l1 (b :: l2)).2)
         else ((arrayDelta c (a :: l1) l2).1, b :: (arrayDelta c (a :: l1) l2).2).
Proof.
  cbn [arrayDelta]. destruct (c a b =? 0)%Z; [done|].
  destruct (c a b <? 0)%Z.
  - by destruct (arrayDelta c l1 (b :: l2)).
  - match goal with
    | |- (let '(_, _) := ?w in _) = _ =>
        change w with (arrayDelta c (a :: l1) l2); by destruct (arrayDelta c (a :: l1) l2)
    end.
Qed.

Lemma arrayDelta_nil_r c l : arrayDelta c l [] = (l, []).
Proof. by destruct l. Qed.

Lemma arrayDelta_subseteq c l1 : forall l2,
  (arrayDelta c l1 l2).1 ⊆ l1 /\ (arrayDelta c l1 l2).2 ⊆ l2.
Proof.
  induction l1 as [|a l1 IH]; intros l2; [by rewrite arrayDelta_nil_l|].
  induction l2 as [|b l2 IH2]; [by rewrite arrayDelta_nil_r|].
  rewrite arrayDelta_cons. destruct (c a b =? 0)%Z.
  - destruct (IH l2) as [H1 H2]. split; intros x Hx; apply elem_of_cons; right; auto.
  - destruct (c a b <? 0)%Z; cbn [fst snd].
    + destruct (IH (b :: l2)) as [H1 H2]. split; [|done].
      intros x [->|Hx]%elem_of_cons; apply elem_of_cons; auto.
    + destruct IH2 as [H1 H2]. split; [done|].
      intros x [->|Hx]%elem_of_cons; apply elem_of_cons; auto.
Qed.

Lemma arrayDelta_ext c1 c2 l1 : forall l2,
  (forall x y, x ∈ l1 -> y ∈ l2 -> c1 x y = c2 x y) ->
  arrayDelta c1 l1 l2 = arrayDelta c2 l1 l2.
Proof.
  induction l1 as [|a l1 IH]; intros l2 Hext; [done|].
  induction l2 as [|b l2 IH2]; [done|].
  rewrite !arrayDelta_cons, (Hext a b) by constructor.
  rewrite IH by (intros x y Hx Hy; apply Hext; by apply elem_of_cons; right).
  rewrite (IH (b :: l2)) by (intros x y Hx Hy; apply Hext; [by apply elem_of_cons; right|done]).
  rewrite IH2 by (intros x y Hx Hy; apply Hext; [done|by apply elem_of_cons; right]).
  done.
Qed.

End DeltaFacts.

Lemma filter_ext_elem {A} (P1 P2 : A -> Prop)
  `{!forall x, Decision (P1 x), !forall x, Decision (P2 x)} (l : list A) :
  (forall x, x ∈ l -> P1 x <-> P2 x) -> filter P1 l = filter P2 l.
Proof.
  induction l as [|a l IH]; intros Hiff; [done|].
  rewrite !filter_cons.
  rewrite IH by (intros x Hx; apply Hiff; by apply elem_of_cons; right).
  apply decide_ext. apply Hiff. constructor.
Qed.

Lemma filter_all {A} (P : A -> Prop) `{!forall x, Decision (P x)} (l : list A) :
  (forall x, x ∈ l -> P x) -> filter P l = l.
Proof.
  induction l as [|a l IH]; intros Hall; [done|].
  rewrite filter_cons_True by (apply Hall; constructor).
  f_equal. apply IH. intros x Hx. apply Hall. by apply elem_of_cons; right.
Qed.

(** The walk over two lists in strict order of their keys: what is removed
    are the elements whose key the other list lacks, and so for what is
    added. *)
Lemma arrayDelta_by_key {A} (f : A -> string) (l1 : list A) : forall l2 : list A,
  StronglySorted String.le (f <$> l1) -> NoDup (f <$> l1) ->
  StronglySorted String.le (f <$> l2) -> NoDup (f <$> l2) ->
  arrayDelta (fun a b => compare (f a) (f b)) l1 l2
  = (filter (fun a => f a ∉ f <$> l2) l1, filter (fun b => f b ∉ f <$> l1) l2).
Proof.
  induction l1 as [|a l1 IH]; intros l2 Hs1 Hn1 Hs2 Hn2.
  { rewrite arrayDelta_nil_l. f_equal. symmetry.
    apply filter_all. intros x _. by intros ?%elem_of_nil. }
  induction l2 as [|b l2 IH2].
  { rewrite arrayDelta_nil_r. f_equal. symmetry.
    apply filter_all. intros x _. by intros ?%elem_of_nil. }
  pose proof Hs1 as Hs1'. pose proof Hn1 as Hn1'.
  pose proof Hs2 as Hs2'. pose proof Hn2 as Hn2'.
  rewrite !fmap_cons in Hs1, Hn1, Hs2, Hn2.
  apply StronglySorted_inv in Hs1 as [Hs1 Ha]. apply NoDup_cons in Hn1 as [Hna Hn1].
  apply StronglySorted_inv in Hs2 as [Hs2 Hb]. apply NoDup_cons in Hn2 as [Hnb Hn2].
  rewrite Forall_forall in Ha, Hb.
  rewrite arrayDelta_cons.
  destruct (compare (f a) (f b) =? 0)%Z eqn:Hzero.
  - apply Z.eqb_eq, compare_zero in Hzero.
    rewrite IH by done. rewrite !filter_cons.
    rewrite decide_False by (rewrite fmap_cons, Hzero; intros Hnot; apply Hnot; constructor).
    rewrite decide_False by (rewrite fmap_cons, Hzero; intros Hnot; apply Hnot; constructor).
    f_equal; apply filter_ext_elem; intros x Hx; rewrite fmap_cons, not_elem_of_cons.
    + split; [|tauto]. intros Hx'. split; [|done].
      intros Heq. apply Hna. rewrite Hzero, <- Heq. by apply list_elem_of_fmap_2.
    + split; [|tauto]. intros Hx'. split; [|done].
      intros Heq. apply Hnb. rewrite <- Hzero, <- Heq. by apply list_elem_of_fmap_2.
  - apply Z.eqb_neq in Hzero.
    assert (f a <> f b) as Hab by (by intros ?%compare_zero).
    destruct (compare (f a) (f b) <? 0)%Z eqn:Hlt; cbn [fst snd].
    + assert (String.le (f a) (f b)) as Hle
        by (apply compare_not_gt_le; apply Z.ltb_lt in Hlt; by apply Z.ltb_ge; lia).
      assert (f a ∉ f <$> b :: l2) as Hnotin.
      { rewrite fmap_cons. intros [?|Hin]%elem_of_cons; [done|].
        apply Hab. apply (anti_symm String.le); [done|]. by apply Hb. }
      rewrite IH by done.
      rewrite (filter_cons _ a), decide_True by done. cbn [fst snd].
      f_equal. apply filter_ext_elem. intros x Hx.
      rewrite fmap_cons, not_elem_of_cons. split; [|tauto].
      intros Hx'. split; [|done]. intros Heq. apply Hnotin. rewrite <- Heq.
      by apply list_elem_of_fmap_2.
    + assert (String.le (f b) (f a)) as Hle
        by (apply compare_gt_le; apply Z.ltb_ge in Hlt; apply Z.ltb_lt; lia).
      assert (f b ∉ f <$> a :: l1) as Hnotin.
      { rewrite fmap_cons. intros [?|Hin]%elem_of_cons; [done|].
        apply Hab. apply (anti_symm String.le); [by apply Ha|done]. }
      rewrite IH2 by done.
      rewrite (filter_cons _ b (l2)), decide_True by done. cbn [fst snd].
      f_equal. apply filter_ext_elem. intros x Hx.
      rewrite (fmap_cons f b), not_elem_of_cons. split; [|tauto].
      intros Hx'. split; [|done]. intros Heq. apply Hnotin. rewrite <- Heq.
      by apply list_elem_of_fmap_2.
Qed.

(** ** What [$acceptWorkspaceData] reports *)

Section Reports.
Variable isLinux : bool.

Lemma toExtHostWorkspace_members h data C U :
  removed (toExtHostWorkspace isLinux h data C U).2 ⊆ from_option workspaceFolders [] C
  /\ added (toExtHostWorkspace isLinux h data C U).2
     ⊆ from_option workspaceFolders [] (workspace (toExtHostWorkspace isLinux h data C U).2).
Proof.
  unfold toExtHostWorkspace.
  destruct data as [d|]; [|by split; intros r ?%elem_of_nil].
  match goal with
  | |- context [let '(_, _) := ?m in _] => destruct m as [h1 folders]
  end.
  destruct (delta _ _ _) as [rem add] eqn:Hdelta.
  cbn [fst snd workspace from_option workspaceFolders newExtHostWorkspaceImpl
       added removed].
  unfold delta in Hdelta. cbn [workspaceFolders newExtHostWorkspaceImpl] in Hdelta.
  pose proof (arrayDelta_subseteq (compareWorkspaceFolderByUri isLinux h1)
                (sort (compareWorkspaceFolderByUri isLinux h1)
                      (from_option workspaceFolders [] C))
                (sort (compareWorkspaceFolderByUri isLinux h1)
                      (sort (compareByIndex h1) folders))) as [Hrem Hadd].
  rewrite Hdelta in Hrem, Hadd. cbn [fst snd] in *. split.
  - intros r Hr. apply Hrem in Hr. by rewrite elem_of_sort in Hr.
  - intros r Hr. apply Hadd in Hr. by rewrite elem_of_sort in Hr.
Qed.

(** X3: whatever the data, the folders an event of [$acceptWorkspaceData]
    reports removed are folder objects of the previous confirmed snapshot,
    and the folders it reports added are folder objects of the new one. *)
Theorem acceptWorkspaceData_reports_members (st : ExtHostWorkspace)
  (data : option IWorkspaceData) :
  allRemoved (acceptWorkspaceData isLinux st data).2
    ⊆ from_option workspaceFolders [] (confirmedWorkspace st)
  /\ allAdded (acceptWorkspaceData isLinux st data).2
       ⊆ from_option workspaceFolders []
           (confirmedWorkspace (acceptWorkspaceData isLinux st data).1).
Proof.
  unfold acceptWorkspaceData.
  pose proof (toExtHostWorkspace_members (store st) (received <$> data)
                (confirmedWorkspace st) (unconfirmedWorkspace st)) as Hm.
  destruct (toExtHostWorkspace _ _ _ _ _) as [h m].
  cbn [fst snd allRemoved allAdded mbind list_bind ev_removed ev_added
       confirmedWorkspace] in *.
  by rewrite !app_nil_r.
Qed.

Lemma sorted_keys_by_location (h : heap) (l : list ref) :
  spellingConsistent isLinux (keyOf h <$> l) ->
  keyOf h <$> sort (compareWorkspaceFolderByUri isLinux h) l
  = sort compare (keyOf h <$> l).
Proof.
  intros Hcons.
  change (compareWorkspaceFolderByUri isLinux h)
    with (fun a b => compareKey isLinux (keyOf h a) (keyOf h b)).
  by rewrite sort_fmap, sort_compareKey.
Qed.

(** Under the comparator by location, between two lists of folders at
    pairwise different locations. *)
Lemma delta_by_location (h : heap) (l1 l2 : list ref) :
  spellingConsistent isLinux (keyOf h <$> (l1 ++ l2)) ->
  NoDup (keyOf h <$> l1) -> NoDup (keyOf h <$> l2) ->
  forall r,
    (r ∈ (delta (compareWorkspaceFolderByUri isLinux h) l1 l2).1
     <-> r ∈ l1 /\ keyOf h r ∉ keyOf h <$> l2)
    /\ (r ∈ (delta (compareWorkspaceFolderByUri isLinux h) l1 l2).2
        <-> r ∈ l2 /\ keyOf h r ∉ keyOf h <$> l1).
Proof.
  intros Hcons Hn1 Hn2 r. rewrite fmap_app in Hcons.
  assert (spellingConsistent isLinux (keyOf h <$> l1)) as Hc1
    by (refine (spellingConsistent_subseteq _ _ _ _ Hcons); intros k ?;
        apply elem_of_app; by left).
  assert (spellingConsistent isLinux (keyOf h <$> l2)) as Hc2
    by (refine (spellingConsistent_subseteq _ _ _ _ Hcons); intros k ?;
        apply elem_of_app; by right).
  set (s1 := sort (compareWorkspaceFolderByUri isLinux h) l1).
  set (s2 := sort (compareWorkspaceFolderByUri isLinux h) l2).
  assert (keyOf h <$> s1 = sort compare (keyOf h <$> l1)) as Hk1
    by by apply sorted_keys_by_location.
  assert (keyOf h <$> s2 = sort compare (keyOf h <$> l2)) as Hk2
    by by apply sorted_keys_by_location.
  unfold delta. fold s1 s2.
  rewrite (arrayDelta_ext _ (fun a b => compare (keyOf h a) (keyOf h b))).
  2:{ intros x y Hx Hy.
      change (compareWorkspaceFolderByUri isLinux h x y)
        with (compareKey isLinux (keyOf h x) (keyOf h y)).
      apply (compareKey_consistent _ _ _ _ Hcons); apply elem_of_app.
      - left. apply list_elem_of_fmap_2. unfold s1 in Hx. by rewrite elem_of_sort in Hx.
      - right. apply list_elem_of_fmap_2. unfold s2 in Hy. by rewrite elem_of_sort in Hy. }
  rewrite (arrayDelta_by_key (keyOf h)).
  - cbn [fst snd]. rewrite !list_elem_of_filter, Hk1, Hk2.
    unfold s1, s2. rewrite !elem_of_sort.
    tauto.
  - rewrite Hk1. apply sort_compare_sorted.
  - rewrite Hk1. by rewrite sort_Permutation.
  - rewrite Hk2. apply sort_compare_sorted.
  - rewrite Hk2. by rewrite sort_Permutation.
Qed.

(** X4: when the previous confirmed snapshot and the incoming data each
    name pairwise different locations (and no two locations involved are
    equal as folders yet spelled differently), [$acceptWorkspaceData]
    reports removed exactly the confirmed folders whose location the data
    lacks, and added exactly the folders of the new snapshot whose location
    the confirmed snapshot lacked. *)
Theorem acceptWorkspaceData_exact_delta (st : ExtHostWorkspace)
  (C : ExtHostWorkspaceImpl) (d : IWorkspaceData) :
  confirmedWorkspace st = Some C ->
  validRefs (store st) (confirmedWorkspace st) ->
  validRefs (store st) (unconfirmedWorkspace st) ->
  spellingConsistent isLinux
    (folderKeys (store st) (confirmedWorkspace st)
     ++ folderKeys (store st) (unconfirmedWorkspace st)
     ++ dataKeys (d_folders d)) ->
  NoDup (folderKeys (store st) (confirmedWorkspace st)) ->
  NoDup (dataKeys (d_folders d)) ->
  forall r,
    (r ∈ allRemoved (acceptWorkspaceData isLinux st (Some d)).2
     <-> r ∈ workspaceFolders C /\ keyOf (store st) r ∉ dataKeys (d_folders d))
    /\ (r ∈ allAdded (acceptWorkspaceData isLinux st (Some d)).2
        <-> r ∈ from_option workspaceFolders []
                  (confirmedWorkspace (acceptWorkspaceData isLinux st (Some d)).1)
            /\ keyOf (store (acceptWorkspaceData isLinux st (Some d)).1) r
               ∉ folderKeys (store st) (confirmedWorkspace st)).
Proof.
  intros HC Hvc Hvu Hcons Hn1 Hn2 r. unfold acceptWorkspaceData.
  rewrite HC in Hvc, Hcons, Hn1 |- *. simpl fmap.
  destruct (toExtHostWorkspace_merged isLinux (store st) d C (unconfirmedWorkspace st)
              Hvc Hvu)
    as (h1 & rs & ws & add & rem & -> & Hdelta & Hws & _ & Hext & Hrs & Hkeys).
  cbn [fst snd allRemoved allAdded mbind list_bind ev_removed ev_added workspace
       confirmedWorkspace store from_option added removed].
  rewrite !app_nil_r. unfold folderKeys in *. cbn [from_option] in *.
  assert (keyOf h1 <$> rs = dataKeys (d_folders d)) as Hkeys'.
  { rewrite Hkeys. rewrite <- (list_fmap_id (dataKeys (d_folders d))) at 2.
    apply list_fmap_ext. intros i k Hk. simpl.
    apply (resolveKey_consistent _ _ _ _ _ Hcons).
    - intros k' Hk'. rewrite !elem_of_app.
      destruct (unconfirmedWorkspace st); [right; by left|by left].
    - rewrite !elem_of_app. right. right. by eapply list_elem_of_lookup_2. }
  assert (keyOf h1 <$> workspaceFolders C = keyOf (store st) <$> workspaceFolders C)
    as HkeysC by by apply extends_keys.
  assert (keyOf h1 <$> workspaceFolders ws ≡ₚ dataKeys (d_folders d)) as Hkeysws
    by by rewrite Hws, sort_Permutation, Hkeys'.
  destruct (delta_by_location h1 (workspaceFolders C) (workspaceFolders ws)) with (r := r)
    as [Hrem Hadd].
  - rewrite fmap_app, HkeysC. eapply spellingConsistent_subseteq; [|done].
    intros k. rewrite !elem_of_app, Hkeysws. tauto.
  - by rewrite HkeysC.
  - by rewrite Hkeysws.
  - rewrite Hdelta in Hrem, Hadd. cbn [fst snd] in *.
    rewrite Hrem, Hadd, HkeysC, Hkeysws. split; [|done].
    unfold validRefs in Hvc. cbn [from_option] in Hvc. rewrite Forall_forall in Hvc.
    split; intros [Hin Hnot]; (split; [done|]).
    + by rewrite <- (extends_keyOf (store st) h1 r Hext (Hvc r Hin)).
    + by rewrite (extends_keyOf (store st) h1 r Hext (Hvc r Hin)).
Qed.

End Reports.

(** The theorem at work where letter case is ignored: [/ws/a] and [/ws/b]
    are confirmed, [/ws/b] and [/ws/c] come in. *)
Lemma acceptWorkspaceData_exact_delta_witness :
  0 ∈ allRemoved (acceptWorkspaceData false twoFolders (Some replacedData)).2
  /\ 1 ∉ allRemoved (acceptWorkspaceData false twoFolders (Some replacedData)).2.
Proof.
  assert (forall r,
    r ∈ allRemoved (acceptWorkspaceData false twoFolders (Some replacedData)).2
    <-> r ∈ [0; 1] /\ keyOf (store twoFolders) r ∉ dataKeys (d_folders replacedData))
    as Hrem.
  { intros r.
    refine (proj1 (acceptWorkspaceData_exact_delta false twoFolders
                     (mkImpl "id" "ws" [0; 1]
                        [(["file:"; "ws"; "a"], 0); (["file:"; "ws"; "b"], 1)])
                     replacedData _ _ _ _ _ _ r)).
    - reflexivity.
    - solve_valid.
    - solve_valid.
    - solve_spelling.
    - solve_nodup.
    - solve_nodup. }
  split.
  - apply (Hrem 0). split; [constructor|].
    vm_compute. intros H.
    repeat (apply elem_of_cons in H as [H|H]; [discriminate H|]).
    by apply elem_of_nil in H.
  - intros [_ Hnot]%(Hrem 1). apply Hnot. vm_compute. constructor.
Defined.

(** ** Closing and opening a workspace *)

Lemma getRelativePath_without_workspace st pathOrUri includeWorkspace :
  _actualWorkspace st = None ->
  getRelativePath st pathOrUri includeWorkspace = inputPath pathOrUri.
Proof.
  intros Hnone. unfold getRelativePath, hostGetWorkspaceFolder. rewrite Hnone.
  destruct pathOrUri as [s|u|]; simpl; [| |done].
  - by destruct (String.eqb s "").
  - by destruct (String.eqb (fsPath u) "").
Qed.

(** X5: accepting [null] data drops the workspace: both snapshots are gone,
    the single event fired reports no folder removed (whatever folders were
    open) and none added, the folder objects stay as they were, and from
    then on the folder list, the path and every folder lookup are undefined
    and [getRelativePath] hands every path back as it is. *)
Theorem acceptWorkspaceData_null (isLinux : bool) (st : ExtHostWorkspace) :
  (acceptWorkspaceData isLinux st None).2 = [mkEvent [] []]
  /\ store (acceptWorkspaceData isLinux st None).1 = store st
  /\ confirmedWorkspace (acceptWorkspaceData isLinux st None).1 = None
  /\ unconfirmedWorkspace (acceptWorkspaceData isLinux st None).1 = None
  /\ getWorkspaceFolders (acceptWorkspaceData isLinux st None).1 = None
  /\ getPath (acceptWorkspaceData isLinux st None).1 = None
  /\ (forall u resolveParent,
        hostGetWorkspaceFolder (acceptWorkspaceData isLinux st None).1 u resolveParent
        = None)
  /\ (forall pathOrUri includeWorkspace,
        getRelativePath (acceptWorkspaceData isLinux st None).1 pathOrUri includeWorkspace
        = inputPath pathOrUri).
Proof.
  split_and!; try done.
  intros. by apply getRelativePath_without_workspace.
Qed.

(** X6: when no confirmed snapshot exists, [$acceptWorkspaceData] reports
    every folder of the new snapshot added, one for each incoming
    descriptor, and none removed. *)
Theorem acceptWorkspaceData_first (isLinux : bool) (st : ExtHostWorkspace)
  (d : IWorkspaceData) :
  confirmedWorkspace st = None ->
  allRemoved (acceptWorkspaceData isLinux st (Some d)).2 = []
  /\ allAdded (acceptWorkspaceData isLinux st (Some d)).2
     ≡ₚ from_option workspaceFolders []
          (confirmedWorkspace (acceptWorkspaceData isLinux st (Some d)).1)
  /\ length (allAdded (acceptWorkspaceData isLinux st (Some d)).2)
     = length (d_folders d).
Proof.
  intros HC. unfold acceptWorkspaceData. rewrite HC. simpl fmap.
  destruct (toExtHostWorkspace_fresh isLinux (store st) d (unconfirmedWorkspace st))
    as (h1 & rs & ws & -> & Hws & _ & _ & Hkeys).
  cbn [fst snd allRemoved allAdded mbind list_bind ev_removed ev_added workspace
       confirmedWorkspace from_option added removed].
  rewrite !app_nil_r. split; [done|]. split; [apply sort_Permutation|].
  rewrite length_sort, Hws, length_sort.
  apply (f_equal length) in Hkeys. unfold dataKeys in Hkeys.
  by rewrite !length_fmap in Hkeys.
Qed.

(** The theorem at work: a host without workspace gets two folders. *)
Lemma acceptWorkspaceData_first_witness :
  allRemoved (acceptWorkspaceData true noWorkspace (Some replacedData)).2 = []
  /\ length (allAdded (acceptWorkspaceData true noWorkspace (Some replacedData)).2) = 2.
Proof.
  destruct (acceptWorkspaceData_first true noWorkspace replacedData) as (Hrem & _ & Hlen).
  - reflexivity.
  - split; [exact Hrem|exact Hlen].
Defined.

(** X7: the folders of the snapshot a host is built with, and of every
    snapshot [$acceptWorkspaceData] confirms, are in ascending order of the
    indices they carry. *)
Theorem confirmed_folders_ascending (isLinux : bool) :
  (forall proxy data,
     let st := newExtHostWorkspace isLinux proxy data in
     StronglySorted (fun r1 r2 => (indexOf (store st) r1 <= indexOf (store st) r2)%Z)
       (from_option workspaceFolders [] (confirmedWorkspace st)))
  /\ (forall st data,
        let st' := (acceptWorkspaceData isLinux st data).1 in
        StronglySorted
          (fun r1 r2 => (indexOf (store st') r1 <= indexOf (store st') r2)%Z)
          (from_option workspaceFolders [] (confirmedWorkspace st'))).
Proof.
  split.
  - intros proxy data st. unfold st, newExtHostWorkspace.
    pose proof (toExtHostWorkspace_sorted isLinux [] (received <$> data) None None) as Hs.
    destruct (toExtHostWorkspace _ _ _ _ _) as [h m]. cbn [fst snd store confirmedWorkspace] in *.
    destruct (workspace m) as [ws|]; [by apply Hs|constructor].
  - intros st data st'. unfold st', acceptWorkspaceData.
    pose proof (toExtHostWorkspace_sorted isLinux (store st) (received <$> data)
                  (confirmedWorkspace st) (unconfirmedWorkspace st)) as Hs.
    destruct (toExtHostWorkspace _ _ _ _ _) as [h m]. cbn [fst snd store confirmedWorkspace] in *.
    destruct (workspace m) as [ws|]; [by apply Hs|constructor].
Qed.

(** ** Folders built by a merge *)

Section NewFolders.
Variable isLinux : bool.
Variable src : ExtHostWorkspaceImpl.
Variable hb : heap.
Hypothesis Hvalid : Forall (fun r => r < length hb) (workspaceFolders src).

(** A descriptor at a location the previous snapshot lacks gets a new
    object, indexed by the position of the descriptor. *)
Lemma mergeFolders_new_folder l1 fd l2 : forall i h acc h' out,
  extends hb h ->
  _findFolder isLinux hb src (fd_uri fd) = None ->
  mergeFolders isLinux src i (Received <$> (l1 ++ fd :: l2)) h acc = (h', out) ->
  exists r, r ∈ out /\ length hb <= r
    /\ h' !! r = Some (mkFolder (fd_uri fd) (fd_name fd) (Z.of_nat (i + length l1))).
Proof.
  induction l1 as [|fd0 l1 IH]; intros i h acc h' out Hext Hfind.
  - rewrite app_nil_l, fmap_cons. cbn [mergeFolders].
    assert (Forall (fun r => r < length h) (workspaceFolders src)) as Hvalid'
      by by eapply extends_valid.
    assert (_findFolder isLinux h src (fd_uri fd) = None) as Hfind'
      by by rewrite (_findFolder_extends isLinux src hb h).
    rewrite (mergeFolder_new _ _ _ _ _ _ Hfind').
    set (f := mkFolder (fd_uri fd) (fd_name fd) (Z.of_nat i)).
    assert (extends h (h ++ [f])) as Hext1 by apply extends_app.
    intros Hrest.
    destruct (mergeFolders_received isLinux src l2 (S i) (h ++ [f]) (acc ++ [length h])
                (extends_valid _ _ _ Hext1 Hvalid'))
      as (h'' & rs & Hshape & _).
    rewrite Hrest in Hshape. injection Hshape as <- ->.
    exists (length h). split; [|split].
    + rewrite !elem_of_app, list_elem_of_singleton. auto.
    + destruct Hext. lia.
    + rewrite (mergeFolders_untouched isLinux src hb Hvalid l2 (length h)
                 (S i) (h ++ [f]) (acc ++ [length h]) h' ((acc ++ [length h]) ++ rs)).
      * rewrite Nat.add_0_r. by rewrite list_lookup_middle.
      * by eapply extends_trans.
      * rewrite length_app. simpl. lia.
      * intros fd' _ Hsome. apply _findFolder_Some in Hsome as [Hin _].
        pose proof Hvalid as Hv. rewrite Forall_forall in Hv.
        apply Hv in Hin. destruct Hext. lia.
      * done.
  - rewrite <- app_comm_cons, fmap_cons. cbn [mergeFolders].
    assert (Forall (fun r => r < length h) (workspaceFolders src)) as Hvalid'
      by by eapply extends_valid.
    destruct (mergeFolder_received isLinux src i fd0 h acc Hvalid')
      as (h1 & r1 & -> & Hext1 & _ & _).
    intros Hrest.
    destruct (IH (S i) h1 (acc ++ [r1]) h' out) as (r & Hin & Hge & Hr);
      [by eapply extends_trans|done|done|].
    exists r. split; [done|]. split; [done|]. rewrite Hr. do 3 f_equal. simpl. lia.
Qed.

End NewFolders.

(** X8: when a previous confirmed snapshot exists, an incoming descriptor
    whose location matches no folder of the snapshot searched gets a folder
    object of its own in the merged snapshot, an object that was not in the
    store before; it carries the location and the name of the descriptor
    and, as index, the position of the descriptor in the incoming list
    (line 74), whatever index the descriptor carries. *)
Theorem toExtHostWorkspace_new_folder (isLinux : bool) (h : heap)
  (d : IWorkspaceData) (C : ExtHostWorkspaceImpl) (U : option ExtHostWorkspaceImpl)
  (l1 l2 : list IFolderData) (fd : IFolderData) :
  validRefs h (Some C) ->
  validRefs h U ->
  d_folders d = l1 ++ fd :: l2 ->
  _findFolder isLinux h (default C U) (fd_uri fd) = None ->
  exists ws r,
    workspace (toExtHostWorkspace isLinux h (Some (received d)) (Some C) U).2 = Some ws
    /\ r ∈ workspaceFolders ws
    /\ length h <= r
    /\ (toExtHostWorkspace isLinux h (Some (received d)) (Some C) U).1 !! r
       = Some (mkFolder (fd_uri fd) (fd_name fd) (Z.of_nat (length l1))).
Proof.
  intros HC HU Hd Hfind.
  destruct (toExtHostWorkspace_merged isLinux h d C U HC HU)
    as (h1 & rs & ws & add & rem & -> & _ & Hws & Hmerge & Hext & _ & _).
  cbn [fst snd workspace].
  pose proof (validRefs_default h C U HC HU) as Hvalid.
  rewrite Hd in Hmerge.
  destruct (mergeFolders_new_folder isLinux (default C U) h Hvalid l1 fd l2
              0 h [] h1 rs (extends_refl h) Hfind Hmerge)
    as (r & Hin & Hge & Hr).
  exists ws, r. split; [done|]. split; [by rewrite Hws, elem_of_sort|].
  split; [done|]. by rewrite Hr.
Qed.

(** The theorem at work: [/ws/a] is confirmed; [/ws/b] and [/ws/c] come in
    with the indices 0 and 1, and [/ws/c] ends up with 1, its position. *)
Lemma toExtHostWorkspace_new_folder_witness :
  exists ws r,
    workspace (toExtHostWorkspace true storeA (Some (received replacedData))
                 (Some snapshotA) None).2 = Some ws
    /\ r ∈ workspaceFolders ws
    /\ length storeA <= r
    /\ (toExtHostWorkspace true storeA (Some (received replacedData))
          (Some snapshotA) None).1 !! r
       = Some (mkFolder (fileUri "/ws/c") "c" 1%Z).
Proof.
  apply (toExtHostWorkspace_new_folder true storeA replacedData snapshotA None
           [folderData "/ws/b" "b" 0] [] (folderData "/ws/c" "c" 1)).
  - solve_valid.
  - solve_valid.
  - reflexivity.
  - reflexivity.
Defined.

(** ** A host built from data *)

Lemma freshFolders_exact fds : forall h acc,
  freshFolders (Received <$> fds) h acc
  = (h ++ (folderOf <$> fds), acc ++ seq (length h) (length fds)).
Proof.
  induction fds as [|fd fds IH]; intros h acc.
  - simpl. by rewrite !app_nil_r.
  - rewrite fmap_cons. cbn [freshFolders alloc]. rewrite IH.
    rewrite length_app. simpl. rewrite <- !app_assoc. simpl.
    by rewrite Nat.add_1_r.
Qed.

(** A list whose neighbours the comparator does not want swapped comes out
    of the sort as it went in. *)
Lemma sort_in_order {A} (c : A -> A -> Z) (l : list A) :
  (forall i x y, l !! i = Some x -> l !! S i = Some y -> (0 <? c x y)%Z = false) ->
  sort c l = l.
Proof.
  intros Hadj. unfold sort.
  assert (forall acc,
    (forall x t, l !! 0 = Some x -> acc !! 0 = Some t -> (0 <? c t x)%Z = false) ->
    fold_left (fun racc x => insertSorted c x racc) l acc = rev l ++ acc) as Hfold.
  { revert Hadj. clear. induction l as [|x l IH]; intros Hadj acc Hhead; [done|].
    simpl.
    assert (insertSorted c x acc = x :: acc) as ->.
    { destruct acc as [|t acc]; [done|]. simpl.
      by rewrite (Hhead x t eq_refl eq_refl). }
    rewrite IH.
    - by rewrite <- app_assoc.
    - intros i a b Ha Hb. by apply (Hadj (S i)).
    - intros a t Ha [= <-]. by apply (Hadj 0). }
  rewrite Hfold by (by intros ? ? _ ?). by rewrite app_nil_r, rev_involutive.
Qed.

Lemma ascending_lookup fds : forall i x y,
  ascending fds -> fds !! i = Some x -> fds !! S i = Some y ->
  (fd_index x < fd_index y)%Z.
Proof.
  induction fds as [|fd fds IH]; intros i x y Hasc Hx Hy; [done|].
  destruct fds as [|fd' fds]; [done|]. destruct Hasc as [Hlt Hasc].
  destruct i as [|i]; simpl in Hx, Hy.
  - by injection Hx as <-; injection Hy as <-.
  - by apply (IH i).
Qed.

(** X9: a host built from workspace data holds one folder object for each
    descriptor, in the order of the data and with the location, name and
    index of the descriptor, and nothing is pending; its folder list is a
    rearrangement of these objects, and lists them in the order of the data
    when the indices of the data go strictly up. *)
Theorem newExtHostWorkspace_round_trip (isLinux proxy : bool) (d : IWorkspaceData) :
  let st := newExtHostWorkspace isLinux proxy (Some d) in
  store st = folderOf <$> d_folders d
  /\ unconfirmedWorkspace st = None
  /\ (exists folders, getWorkspaceFolders st = Some folders
        /\ folders ≡ₚ seq 0 (length (d_folders d))
        /\ (ascending (d_folders d) -> folders = seq 0 (length (d_folders d)))).
Proof.
  unfold newExtHostWorkspace, toExtHostWorkspace, received. simpl fmap.
  cbn [a_folders a_id a_name]. rewrite freshFolders_exact.
  cbn [app length from_option]. unfold delta. rewrite sort_nil, arrayDelta_nil_l.
  cbn [store unconfirmedWorkspace]. split; [done|]. split; [done|].
  unfold getWorkspaceFolders, _actualWorkspace.
  cbn [unconfirmedWorkspace confirmedWorkspace workspace fmap option_fmap option_map
       workspaceFolders newExtHostWorkspaceImpl].
  eexists. split; [done|]. split; [apply sort_Permutation|].
  intros Hasc. apply sort_in_order. intros i x y Hx Hy.
  apply lookup_seq in Hx as [-> Hlt]. apply lookup_seq in Hy as [-> Hlt'].
  simpl in *. unfold compareByIndex, indexOf.
  destruct (lookup_lt_is_Some_2 (d_folders d) i Hlt) as [fx Hfx].
  destruct (lookup_lt_is_Some_2 (d_folders d) (S i) Hlt') as [fy Hfy].
  rewrite !list_lookup_total_alt, !list_lookup_fmap, Hfx, Hfy. simpl.
  pose proof (ascending_lookup _ _ _ _ Hasc Hfx Hfy) as Hidx.
  apply Z.ltb_lt in Hidx. by rewrite Hidx.
Qed.

(** The theorem at work on two folders with the indices 0 and 1. *)
Lemma newExtHostWorkspace_round_trip_witness :
  getWorkspaceFolders (newExtHostWorkspace false true (Some replacedData)) = Some [0; 1]
  /\ store (newExtHostWorkspace false true (Some replacedData))
     = [mkFolder (fileUri "/ws/b") "b" 0%Z; mkFolder (fileUri "/ws/c") "c" 1%Z].
Proof.
  destruct (newExtHostWorkspace_round_trip false true replacedData)
    as (Hstore & _ & folders & Hfolders & _ & Hsame).
  split; [|exact Hstore].
  rewrite Hfolders. f_equal. apply Hsame. simpl. split; [lia|exact I].
Defined.

(** ** Edits that are taken *)

Section Accepted.
Variable isLinux : bool.

Lemma updateWorkspaceFolders_turned_down_false st ext idx deleteCount toAdd :
  turnedDown isLinux st idx deleteCount toAdd ->
  (updateWorkspaceFolders isLinux st ext idx deleteCount toAdd).2 = Returns false
  /\ (updateWorkspaceFolders isLinux st ext idx deleteCount toAdd).1.2 = [].
Proof.
  intros Hdown. unfold updateWorkspaceFolders.
  destruct (invalidNumber idx || invalidNumber deleteCount) eqn:Hbad; [done|].
  apply orb_false_elim in Hbad as [Hbi Hbn].
  destruct (_ && _) eqn:Hnothing; [done|].
  fold (currentFolders st).
  destruct (_ <? _)%Z eqn:Hrange; [done|]. apply Z.ltb_ge in Hrange.
  assert (noChange isLinux st idx deleteCount toAdd) as Hd.
  { destruct Hdown as [[-> Hnil]|[[?|?]|[?|?]]]; try done; try congruence.
    - by rewrite Hnil in Hnothing.
    - unfold outOfRange in *. lia. }
  unfold noChange, editDelta in Hd.
  destruct (editedFolders _ _ _ _ _) as [h new]. by rewrite Hd.
Qed.

(** What a call that is not turned down amounts to. *)
Lemma updateWorkspaceFolders_taken st ext idx deleteCount toAdd :
  ~ turnedDown isLinux st idx deleteCount toAdd ->
  let validated := validatedDistinct isLinux toAdd in
  let edited :=
    editedFolders (store st) (currentFolders st) (numberOf idx) (numberOf deleteCount)
      validated in
  let calls :=
    if hasProxy st
    then [mkCall ext (numberOf idx) (numberOf deleteCount) validated] else [] in
  (0 <= numberOf idx)%Z /\ (0 <= numberOf deleteCount)%Z
  /\ (numberOf idx + numberOf deleteCount <= Z.of_nat (length (currentFolders st)))%Z
  /\ updateWorkspaceFolders isLinux st ext idx deleteCount toAdd
     = match _actualWorkspace st with
       | None =>
           (mkHost edited.1 (hasProxy st) (confirmedWorkspace st)
                   (unconfirmedWorkspace st), calls, ThrowsTypeError)
       | Some actual =>
           let merged :=
             toExtHostWorkspace isLinux edited.1
               (Some (mkDataArg (ws_id actual) (ws_name actual) (Live <$> edited.2)))
               (Some actual) None in
           (mkHost merged.1 (hasProxy st) (confirmedWorkspace st)
                   (workspace merged.2), calls, Returns true)
       end.
Proof.
  intros Hnot validated edited calls. unfold updateWorkspaceFolders.
  destruct (invalidNumber idx || invalidNumber deleteCount) eqn:Hbad.
  { destruct Hnot. right. left. by apply orb_true_iff in Hbad. }
  apply orb_false_elim in Hbad as [Hbi Hbn].
  assert (0 <= numberOf idx)%Z as Hi by (destruct idx; simpl in *; [lia|done]).
  assert (0 <= numberOf deleteCount)%Z as Hn
    by (destruct deleteCount; simpl in *; [lia|done]).
  destruct (_ && _) eqn:Hnothing.
  { destruct Hnot. left. apply andb_true_iff in Hnothing as [Hz Hlen].
    apply Z.eqb_eq in Hz. apply bool_decide_eq_true in Hlen.
    split; [destruct deleteCount; simpl in *; [by subst|done]|].
    by apply nil_length_inv. }
  fold (currentFolders st).
  destruct (_ <? _)%Z eqn:Hrange.
  { destruct Hnot. right. right. left. by apply Z.ltb_lt in Hrange. }
  apply Z.ltb_ge in Hrange.
  split; [done|]. split; [done|]. split; [done|].
  fold validated. fold edited. destruct edited as [h new] eqn:Hedited.
  destruct (delta _ _ _) as [rem add] eqn:Hdelta.
  destruct (bool_decide (length add = 0) && bool_decide (length rem = 0)) eqn:Hempty.
  { destruct Hnot. right. right. right. unfold noChange, editDelta.
    fold validated. fold edited. rewrite Hedited, Hdelta.
    apply andb_true_iff in Hempty as [Ha Hr].
    apply bool_decide_eq_true in Ha, Hr.
    by rewrite (nil_length_inv _ Ha), (nil_length_inv _ Hr). }
  unfold trySetWorkspaceData, _actualWorkspace.
  cbn [unconfirmedWorkspace confirmedWorkspace store hasProxy fst snd].
  destruct (unconfirmedWorkspace st) as [u|].
  - by destruct (toExtHostWorkspace _ _ _ _ _) as [h' m].
  - destruct (confirmedWorkspace st) as [c|]; [|done].
    by destruct (toExtHostWorkspace _ _ _ _ _) as [h' m].
Qed.

Lemma length_mergeFolders src fds : forall i h acc,
  length (mergeFolders isLinux src i fds h acc).2 = length acc + length fds.
Proof.
  induction fds as [|fd fds IH]; intros i h acc; simpl; [lia|].
  unfold mergeFolder. destruct (_findFolder _ _ _ _); cbn [alloc];
    rewrite IH, length_app; simpl; lia.
Qed.

Lemma length_freshFolders fds : forall h acc,
  length (freshFolders fds h acc).2 = length acc + length fds.
Proof.
  induction fds as [|fd fds IH]; intros h acc; simpl; [lia|].
  rewrite IH, length_app; simpl; lia.
Qed.

(** Descriptors always give a snapshot, with one folder for each of them. *)
Lemma toExtHostWorkspace_merged_some h d c u :
  exists ws, workspace (toExtHostWorkspace isLinux h (Some d) c u).2 = Some ws
    /\ length (workspaceFolders ws) = length (a_folders d).
Proof.
  unfold toExtHostWorkspace.
  destruct c as [c|].
  - pose proof (length_mergeFolders (default c u) (a_folders d) 0 h []) as Hlen.
    destruct (mergeFolders _ _ _ _ _) as [h1 new].
    destruct (delta _ _ _) as [rem add]. eexists. split; [done|].
    cbn [workspaceFolders newExtHostWorkspaceImpl]. by rewrite length_sort.
  - pose proof (length_freshFolders (a_folders d) h []) as Hlen.
    destruct (freshFolders _ _ _) as [h1 new].
    destruct (delta _ _ _) as [rem add]. eexists. split; [done|].
    cbn [workspaceFolders newExtHostWorkspaceImpl]. by rewrite length_sort.
Qed.

(** X10: a call of [updateWorkspaceFolders] that is not turned down (valid
    numbers, something to do, a range within the current folders, a delta
    that is not empty) sends exactly one [$updateWorkspaceFolders] to the
    proxy, if there is a proxy, with the validated folders; it leaves the
    confirmed snapshot in place; with a workspace it returns [true] and
    leaves a pending snapshot, without one it throws.  With a workspace the
    call never throws, and returns [true] only if it is not turned down. *)
Theorem updateWorkspaceFolders_accepted (st : ExtHostWorkspace) (ext : string)
  (idx deleteCount : JsValue) (toAdd : list FolderToAdd) :
  let result := updateWorkspaceFolders isLinux st ext idx deleteCount toAdd in
  (~ turnedDown isLinux st idx deleteCount toAdd ->
   result.1.2
   = (if hasProxy st
      then [mkCall ext (numberOf idx) (numberOf deleteCount)
                   (validatedDistinct isLinux toAdd)]
      else [])
   /\ confirmedWorkspace result.1.1 = confirmedWorkspace st
   /\ (is_Some (_actualWorkspace st) ->
       result.2 = Returns true /\ is_Some (unconfirmedWorkspace result.1.1))
   /\ (_actualWorkspace st = None -> result.2 = ThrowsTypeError))
  /\ (is_Some (_actualWorkspace st) ->
      result.2 <> ThrowsTypeError
      /\ (result.2 = Returns true -> ~ turnedDown isLinux st idx deleteCount toAdd)).
Proof.
  intros result. unfold result. clear result.
  assert (~ turnedDown isLinux st idx deleteCount toAdd ->
    (updateWorkspaceFolders isLinux st ext idx deleteCount toAdd).1.2
    = (if hasProxy st
       then [mkCall ext (numberOf idx) (numberOf deleteCount)
                    (validatedDistinct isLinux toAdd)]
       else [])
    /\ confirmedWorkspace (updateWorkspaceFolders isLinux st ext idx deleteCount toAdd).1.1
       = confirmedWorkspace st
    /\ (is_Some (_actualWorkspace st) ->
        (updateWorkspaceFolders isLinux st ext idx deleteCount toAdd).2 = Returns true
        /\ is_Some (unconfirmedWorkspace
                      (updateWorkspaceFolders isLinux st ext idx deleteCount toAdd).1.1))
    /\ (_actualWorkspace st = None ->
        (updateWorkspaceFolders isLinux st ext idx deleteCount toAdd).2 = ThrowsTypeError))
    as Htaken.
  { intros Hnot.
    destruct (updateWorkspaceFolders_taken st ext idx deleteCount toAdd Hnot)
      as (_ & _ & _ & ->).
    destruct (_actualWorkspace st) as [actual|] eqn:Hactual.
    - pose proof (toExtHostWorkspace_merged_some
                    (editedFolders (store st) (currentFolders st) (numberOf idx)
                       (numberOf deleteCount) (validatedDistinct isLinux toAdd)).1
                    (mkDataArg (ws_id actual) (ws_name actual)
                       (Live <$> (editedFolders (store st) (currentFolders st)
                          (numberOf idx) (numberOf deleteCount)
                          (validatedDistinct isLinux toAdd)).2))
                    (Some actual) None) as Hsome.
      destruct Hsome as (ws & Hws & _).
      cbv zeta. cbn [fst snd confirmedWorkspace unconfirmedWorkspace].
      split; [done|]. split; [done|]. split; [|done]. intros _.
      split; [done|]. by rewrite Hws.
    - cbn [fst snd confirmedWorkspace]. split; [done|]. split; [done|].
      split; [by intros [? ?]|done]. }
  split; [done|]. intros Hactual. split.
  - unfold updateWorkspaceFolders.
    destruct (_ || _); [done|]. destruct (_ && _); [done|].
    destruct (_ <? _)%Z; [done|].
    destruct (editedFolders _ _ _ _ _) as [h new].
    destruct (delta _ _ _) as [rem add]. destruct (_ && _); [done|].
    unfold trySetWorkspaceData.
    change (_actualWorkspace (mkHost h (hasProxy st) (confirmedWorkspace st)
                                (unconfirmedWorkspace st)))
      with (_actualWorkspace st).
    destruct Hactual as [actual ->].
    by destruct (toExtHostWorkspace _ _ _ _ _) as [h' m].
  - intros Htrue Hdown.
    apply (updateWorkspaceFolders_turned_down_false st ext) in Hdown as [Hfalse _].
    congruence.
Qed.

(** X11: an edit that is taken leaves as many folders as the current ones,
    less the deleted ones, plus the validated ones; and a snapshot received
    through [$acceptWorkspaceData] has one folder for each descriptor. *)
Theorem folder_counts (st : ExtHostWorkspace) :
  (forall (ext : string) (idx deleteCount : JsValue) (toAdd : list FolderToAdd),
     ~ turnedDown isLinux st idx deleteCount toAdd ->
     is_Some (_actualWorkspace st) ->
     exists folders,
       getWorkspaceFolders
         (updateWorkspaceFolders isLinux st ext idx deleteCount toAdd).1.1 = Some folders
       /\ Z.of_nat (length folders)
          = (Z.of_nat (length (currentFolders st)) - numberOf deleteCount
             + Z.of_nat (length (validatedDistinct isLinux toAdd)))%Z)
  /\ (forall d : IWorkspaceData,
        exists folders,
          getWorkspaceFolders (acceptWorkspaceData isLinux st (Some d)).1 = Some folders
          /\ length folders = length (d_folders d)).
Proof.
  split.
  - intros ext idx deleteCount toAdd Hnot [actual Hactual].
    destruct (updateWorkspaceFolders_taken st ext idx deleteCount toAdd Hnot)
      as (Hi & Hn & Hrange & ->).
    rewrite Hactual. cbv zeta.
    match goal with
    | |- context [toExtHostWorkspace isLinux ?h (Some ?d) ?c ?u] =>
        destruct (toExtHostWorkspace_merged_some h d c u) as (ws & Hws & Hlen)
    end.
    exists (workspaceFolders ws). unfold getWorkspaceFolders, _actualWorkspace.
    cbn [fst snd unconfirmedWorkspace]. rewrite Hws. split; [done|].
    rewrite Hlen. cbn [a_folders]. rewrite length_fmap.
    unfold editedFolders.
    pose proof (length_allocFolders (validatedDistinct isLinux toAdd) (store st)) as Hal.
    destruct (allocFolders _ _) as [h1 inserted]. cbn [fst snd] in *.
    rewrite !length_app, length_take, length_drop, Hal. lia.
  - intros d. unfold acceptWorkspaceData.
    destruct (toExtHostWorkspace_merged_some (store st) (received d)
                (confirmedWorkspace st) (unconfirmedWorkspace st)) as (ws & Hws & Hlen).
    destruct (toExtHostWorkspace _ _ _ _ _) as [h m]. cbn [fst snd] in *.
    exists (workspaceFolders ws). unfold getWorkspaceFolders, _actualWorkspace.
    cbn [unconfirmedWorkspace confirmedWorkspace]. rewrite Hws. split; [done|].
    rewrite Hlen. unfold received. cbn [a_folders]. by rewrite length_fmap.
Qed.

End Accepted.

(** X10 at work: with [/ws/a] and [/ws/b] confirmed, replacing [/ws/b] by
    [/ws/c] is sent to the proxy and returns [true]. *)
Lemma updateWorkspaceFolders_accepted_witness :
  let toAdd := [mkToAdd (Some (fileUri "/ws/c")) (Some "c")] in
  let result :=
    updateWorkspaceFolders true twoFolders "ext" (JsNumber 1) (JsNumber 1) toAdd in
  result.1.2 = [mkCall "ext" 1 1 [mkValidated (fileUri "/ws/c") "c"]]
  /\ result.2 = Returns true.
Proof.
  destruct (updateWorkspaceFolders_accepted true twoFolders "ext" (JsNumber 1)
              (JsNumber 1) [mkToAdd (Some (fileUri "/ws/c")) (Some "c")])
    as [Htaken _].
  destruct Htaken as (Hcalls & _ & Htrue & _).
  - intros [[Hz _]|[[Hb|Hb]|[Hout|Hsame]]];
      [discriminate Hz|vm_compute in Hb..|vm_compute in Hout|vm_compute in Hsame];
      discriminate.
  - split; [exact Hcalls|]. apply Htrue. vm_compute. eexists. reflexivity.
Defined.

(** X11 at work: the same edit leaves two folders; a snapshot with one
    descriptor leaves one. *)
Lemma folder_counts_witness :
  (exists folders,
     getWorkspaceFolders
       (updateWorkspaceFolders true twoFolders "ext" (JsNumber 1) (JsNumber 1)
          [mkToAdd (Some (fileUri "/ws/c")) (Some "c")]).1.1 = Some folders
     /\ Z.of_nat (length folders) = 2%Z)
  /\ (exists folders,
        getWorkspaceFolders
          (acceptWorkspaceData true twoFolders
             (Some (mkData "id" "ws" None [folderData "/ws/b" "b" 0]))).1 = Some folders
        /\ length folders = 1).
Proof.
  destruct (folder_counts true twoFolders) as [Hedit Haccept]. split.
  - apply (Hedit "ext" (JsNumber 1) (JsNumber 1)
             [mkToAdd (Some (fileUri "/ws/c")) (Some "c")]).
    + intros [[Hz _]|[[Hb|Hb]|[Hout|Hsame]]];
        [discriminate Hz|vm_compute in Hb..|vm_compute in Hout|vm_compute in Hsame];
        discriminate.
    + vm_compute. eexists. reflexivity.
  - apply (Haccept (mkData "id" "ws" None [folderData "/ws/b" "b" 0])).
Defined.

(** ** Looking up a folder's own location *)

Lemma isPrefixOf_refl (k : list string) : isPrefixOf k k = true.
Proof. induction k as [|a k IH]; [done|]. simpl. by rewrite String.eqb_refl. Qed.

Lemma isPrefixOf_full (k : list string) : forall q,
  isPrefixOf k q = true -> length q <= length k -> k = q.
Proof.
  induction k as [|a k IH]; intros [|b q]; simpl; try done; try lia.
  intros [Hab Hkq]%andb_true_iff Hlen. apply String.eqb_eq in Hab as ->.
  f_equal. apply IH; [done|lia].
Qed.

(** X12: with [resolveParent] off, looking up the location of a folder of
    the snapshot finds a folder at that location (the same path segments);
    when no two folders of the snapshot share their segments it finds the
    folder itself.  The prefix tree is the one modelled after the spec. *)
Theorem getWorkspaceFolder_own_location (h : heap) (id nm : string)
  (folders : list ref) (r : ref) :
  r ∈ folders ->
  let w := newExtHostWorkspaceImpl h id nm folders in
  (exists r', getWorkspaceFolder w (uriOf h r) false = Some r'
     /\ r' ∈ folders /\ segmentsOf h r' = segmentsOf h r)
  /\ ((forall r1 r2, r1 ∈ folders -> r2 ∈ folders ->
         segmentsOf h r1 = segmentsOf h r2 -> r1 = r2) ->
      getWorkspaceFolder w (uriOf h r) false = Some r).
Proof.
  intros Hr w.
  assert (exists r', getWorkspaceFolder w (uriOf h r) false = Some r'
            /\ r' ∈ folders /\ segmentsOf h r' = segmentsOf h r) as Hfound.
  { pose proof (getWorkspaceFolder_spec h id nm folders (uriOf h r) false) as Hspec.
    cbv zeta in Hspec. fold w in Hspec.
    change (segments (toString (lookedUp h folders (uriOf h r) false)))
      with (segmentsOf h r) in Hspec.
    destruct (getWorkspaceFolder w (uriOf h r) false) as [r'|].
    - destruct Hspec as (Hin & Hpre & Hlongest). exists r'.
      split; [done|]. split; [done|].
      apply isPrefixOf_full; [done|].
      apply Hlongest; [done|apply isPrefixOf_refl].
    - specialize (Hspec r Hr). by rewrite isPrefixOf_refl in Hspec. }
  split; [done|]. intros Hdistinct.
  destruct Hfound as (r' & -> & Hin & Hsame). f_equal. by apply Hdistinct.
Qed.

(** X12 at work on the folders [/ws/a] and [/ws/b]. *)
Lemma getWorkspaceFolder_own_location_witness :
  getWorkspaceFolder (newExtHostWorkspaceImpl (store twoFolders) "id" "ws" [0; 1])
    (uriOf (store twoFolders) 1) false = Some 1.
Proof.
  refine (proj2 (getWorkspaceFolder_own_location (store twoFolders) "id" "ws"
                   [0; 1] 1 _) _).
  - apply list_elem_of_In. simpl. tauto.
  - intros r1 r2 H1 H2.
    apply list_elem_of_In in H1. apply list_elem_of_In in H2. simpl in H1, H2.
    destruct H1 as [<-|[<-|[]]], H2 as [<-|[<-|[]]]; vm_compute; congruence.
Defined.

(** ** [findFiles] *)

Lemma findFilesAll_spec st requests : forall pool,
  (findFilesAll st pool requests).1 = pool + length requests
  /\ length (findFilesAll st pool requests).2 = length requests
  /\ forall i q, requests !! i = Some q ->
       (findFilesAll st pool requests).2 !! i
       = Some (findFiles st (pool + i) (f_include q) (f_exclude q) (f_maxResults q)
                 (f_token q)).2.
Proof.
  induction requests as [|q0 requests IH]; intros pool.
  { simpl. split; [lia|]. split; [done|]. by intros i q ?. }
  cbn [findFilesAll].
  destruct (findFiles st pool _ _ _ _) as [pool1 hd] eqn:Hfirst.
  assert (pool1 = S pool) as ->.
  { unfold findFiles in Hfirst. destruct (includeOf _), (hasProxy st); congruence. }
  destruct (IH (S pool)) as (Hpool & Hlen & Hnth).
  destruct (findFilesAll st (S pool) requests) as [pool' handles].
  cbn [fst snd length] in *. split; [lia|]. split; [by rewrite Hlen|].
  intros [|i] q Hq; simpl in Hq.
  - injection Hq as <-. by rewrite Nat.add_0_r, Hfirst.
  - simpl. rewrite (Hnth i q Hq). by rewrite Nat.add_succ_r.
Qed.

(** X13: a series of calls of [findFiles] advances the static counter by one
    per call, also when the missing proxy makes the calls throw.  With a
    proxy the call at position [i] starts a search under the request id
    [pool + i], so no two searches share an id; the cancellation of its
    token cancels that very request; a falsy pattern is sent as
    [undefined]; and the base of an exclude pattern is not sent. *)
Theorem findFiles_request_ids (st : ExtHostWorkspace) (pool : nat)
  (requests : list FindRequest) :
  let result := findFilesAll st pool requests in
  result.1 = pool + length requests
  /\ length result.2 = length requests
  /\ (hasProxy st = false -> forall hd, hd ∈ result.2 -> hd = None)
  /\ (hasProxy st = true ->
      (forall i q, requests !! i = Some q ->
         exists hd, result.2 !! i = Some (Some hd)
           /\ s_requestId (started hd) = pool + i
           /\ cancels hd = (if f_token q then Some (pool + i) else None)
           /\ s_maxResults (started hd) = f_maxResults q
           /\ (isGiven (f_include q) = false ->
               s_includePattern (started hd) = None
               /\ s_includeFolder (started hd) = None)
           /\ (isGiven (f_exclude q) = false -> s_excludePattern (started hd) = None)
           /\ (forall base pattern, f_exclude q = Some (RelativePattern base pattern) ->
               s_excludePattern (started hd) = Some pattern))
      /\ (forall i j hi hj,
            result.2 !! i = Some (Some hi) -> result.2 !! j = Some (Some hj) ->
            s_requestId (started hi) = s_requestId (started hj) -> i = j)).
Proof.
  intros result. unfold result. clear result.
  destruct (findFilesAll_spec st requests pool) as (Hpool & Hlen & Hnth).
  split; [done|]. split; [done|]. split.
  - intros Hproxy hd Hhd. apply list_elem_of_lookup_1 in Hhd as [i Hi].
    destruct (requests !! i) as [q|] eqn:Hq.
    + rewrite (Hnth i q Hq) in Hi. injection Hi as <-.
      unfold findFiles. destruct (includeOf _). by rewrite Hproxy.
    + apply lookup_ge_None in Hq. apply lookup_lt_Some in Hi. lia.
  - intros Hproxy.
    assert (forall i q, requests !! i = Some q ->
              (findFilesAll st pool requests).2 !! i
              = Some (Some (mkHandle
                   (mkSearch (includeOf (f_include q)).1 (includeOf (f_include q)).2
                      (excludeOf (f_exclude q)) (f_maxResults q) (pool + i))
                   (if f_token q then Some (pool + i) else None)))) as Hget.
    { intros i q Hq. rewrite (Hnth i q Hq). unfold findFiles.
      destruct (includeOf _). by rewrite Hproxy. }
    split.
    + intros i q Hq. eexists. split; [by apply Hget|]. cbn.
      split; [done|]. split; [done|]. split; [done|].
      split; [|split].
      * intros Hfalsy. unfold includeOf. by rewrite Hfalsy.
      * intros Hfalsy. unfold excludeOf. by rewrite Hfalsy.
      * by intros base pattern ->.
    + intros i j hi hj Hi Hj Hsame.
      destruct (requests !! i) as [qi|] eqn:Hqi;
        [|apply lookup_ge_None in Hqi; apply lookup_lt_Some in Hi; lia].
      destruct (requests !! j) as [qj|] eqn:Hqj;
        [|apply lookup_ge_None in Hqj; apply lookup_lt_Some in Hj; lia].
      rewrite (Hget i qi Hqi) in Hi. rewrite (Hget j qj Hqj) in Hj.
      injection Hi as <-. injection Hj as <-. cbn in Hsame. lia.
Qed.

(** X13 at work: the second of two searches, counting from 7. *)
Lemma findFiles_request_ids_witness :
  exists hd,
    (findFilesAll twoFolders 7
       [mkFind (Some (GlobString "**/*.ts")) None None false;
        mkFind None (Some (RelativePattern "/ws/a" "**/out")) (Some 10%Z) true]).2 !! 1
    = Some (Some hd)
    /\ s_requestId (started hd) = 8
    /\ cancels hd = Some 8
    /\ s_includePattern (started hd) = None
    /\ s_excludePattern (started hd) = Some "**/out".
Proof.
  destruct (findFiles_request_ids twoFolders 7
              [mkFind (Some (GlobString "**/*.ts")) None None false;
               mkFind None (Some (RelativePattern "/ws/a" "**/out")) (Some 10%Z) true])
    as (_ & _ & _ & Hproxy).
  destruct (Hproxy eq_refl) as [Hat _].
  destruct (Hat 1 (mkFind None (Some (RelativePattern "/ws/a" "**/out")) (Some 10%Z) true)
              eq_refl) as (hd & Hhd & Hid & Hcancel & _ & Hinc & _ & Hexc).
  exists hd. split; [exact Hhd|]. split; [exact Hid|]. split; [exact Hcancel|].
  split; [exact (proj1 (Hinc eq_refl))|]. exact (Hexc "/ws/a" "**/out" eq_refl).
Defined.

(** ** More on the localization update script *)

Module ScriptRuns.
Import Script ScriptVocabulary.

(** An entry that fails does so before anything is done. *)
Lemma updateEntry_error token loc fs e err :
  (updateEntry token loc fs e).2 = Some err ->
  (updateEntry token loc fs e).1 = (fs, [])
  /\ (err = TypeError \/ err = Error BadLocalization).
Proof.
  unfold updateEntry.
  destruct (getProp e "languageId") as [e0|languageId0] eqn:Hprop.
  { destruct e; simpl in Hprop; try done. injection Hprop as <-.
    intros [= <-]. split; [done|by left]. }
  destruct (_ || _); [intros [= <-]; split; [done|by right]|].
  destruct (asPath _) as [e1|t] eqn:Hpath; [|done].
  intros [= <-]. split; [done|].
  unfold asPath in Hpath. left.
  destruct (member e "translations") as [[]|]; congruence.
Qed.

(** An entry that is taken gives one download, the one it asks for, and
    touches the files only by clearing a folder. *)
Lemma updateEntry_ok token loc fs e :
  (updateEntry token loc fs e).2 = None ->
  (exists d, downloadOf token loc e = Some d
     /\ List.filter isDownload (updateEntry token loc fs e).1.2 = [d])
  /\ ((forall x, x ∈ (updateEntry token loc fs e).1.2 -> isDownload x = true) ->
      (updateEntry token loc fs e).1.1 = fs).
Proof.
  unfold updateEntry, downloadOf.
  destruct (getProp e "languageId") as [e0|languageId0] eqn:Hprop; [done|].
  assert (languageId0 = member e "languageId") as ->
    by (unfold getProp in Hprop; destruct e; congruence).
  destruct (_ || _); [done|].
  destruct (asPath _) as [e1|t] eqn:Hpath; [done|].
  unfold asPath in Hpath.
  destruct (member e "translations") as [[| | |t'| |]|]; try done.
  injection Hpath as ->. intros _. cbn [fst snd]. split.
  - eexists. split; [done|]. by destruct (_ && _).
  - destruct (_ && _); [|done]. intros Hall.
    specialize (Hall (Cleared (joinPath loc t))). simpl in Hall.
    discriminate Hall. constructor.
Qed.

Lemma updateEntries_spec token loc items : forall fs,
  let result := updateEntries token loc fs items in
  (exists k, k <= length items
     /\ Some <$> List.filter isDownload result.1.2 = downloadOf token loc <$> take k items
     /\ (result.2 = None -> k = length items)
     /\ (is_Some result.2 -> k < length items))
  /\ ((forall x, x ∈ result.1.2 -> isDownload x = true) -> result.1.1 = fs)
  /\ (forall err, result.2 = Some err -> err = TypeError \/ err = Error BadLocalization).
Proof.
  induction items as [|x items IH]; intros fs; cbv zeta.
  { simpl. split; [|by split]. exists 0. split; [done|]. split; [done|].
    split; [done|]. by intros [? ?]. }
  cbn [updateEntries].
  destruct (updateEntry token loc fs x) as [[fs1 eff] [e1|]] eqn:Hx.
  - destruct (updateEntry_error token loc fs x e1) as [Hnothing Hwhich];
      [by rewrite Hx|].
    rewrite Hx in Hnothing. injection Hnothing as -> ->. cbn [fst snd].
    split; [|split; [done|by intros err [= <-]]].
    exists 0. simpl. split; [lia|]. split; [done|]. split; [done|]. lia.
  - destruct (updateEntry_ok token loc fs x) as [(d & Hd & Hfilter) Hfs];
      [by rewrite Hx|].
    rewrite Hx in Hfilter, Hfs. cbn [fst snd] in Hfilter, Hfs.
    destruct (IH fs1) as ((k & Hk & Hdown & Hnone & Hsome) & Hkeep & Hwhich).
    destruct (updateEntries token loc fs1 items) as [[fs2 eff2] r].
    cbn [fst snd] in *. split; [|split; [|done]].
    + exists (S k). cbn [length firstn]. split; [lia|]. split.
      * rewrite List.filter_app, Hfilter, fmap_app, Hdown.
        rewrite (fmap_cons (downloadOf token loc)), Hd. done.
      * split; [by intros ->%Hnone|]. intros Hr. specialize (Hsome Hr). lia.
    + intros Hall. rewrite Hkeep.
      * apply Hfs. intros y Hy. apply Hall. rewrite elem_of_app. by left.
      * intros y Hy. apply Hall. rewrite elem_of_app. by right.
Qed.

(** How a run goes: it is aborted before the entries are looked at, or it is
    what the entries give. *)
Lemma update_shape token cwd fs idOrPath :
  (exists e, update token cwd fs idOrPath = aborted fs e
     /\ e <> Error NoDirectory /\ e <> Error BadLocalization)
  \/ (exists arg items,
        idOrPath = Some arg
        /\ update token cwd fs idOrPath
           = mkRun (updateEntries token (resolve cwd (locExtFolderOf arg)) fs items).1.1
                   (updateEntries token (resolve cwd (locExtFolderOf arg)) fs items).1.2
                   (updateEntries token (resolve cwd (locExtFolderOf arg)) fs items).2).
Proof.
  unfold update.
  destruct idOrPath as [arg|]; [|left; by eexists].
  destruct (String.eqb arg ""); [left; by eexists|].
  set (loc := resolve cwd (locExtFolderOf arg)).
  destruct (statSync fs loc) as [e|stat] eqn:Hstat.
  { left. exists e. split; [done|]. unfold statSync in Hstat.
    destruct (lookupNode fs loc) as [[]|]; by simplify_eq. }
  unfold isDirectoryProperty. simpl negb. cbv iota.
  destruct (readFileSync fs _) as [e|text] eqn:Hread.
  { left. exists e. split; [done|]. unfold readFileSync in Hread.
    destruct (lookupNode fs _) as [[]|]; by simplify_eq. }
  destruct (JSON_parse text) as [e|packageJSON] eqn:Hparse.
  { left. exists e. split; [done|]. destruct text; simpl in Hparse; by simplify_eq. }
  destruct (getProp packageJSON "contributes") as [e|contributes] eqn:Hprop.
  { left. exists e. split; [done|]. unfold getProp in Hprop.
    destruct packageJSON; by simplify_eq. }
  destruct (negb (truthy contributes)); [left; by eexists|].
  destruct (negb (truthy _)); [left; by eexists|].
  destruct (member _ "localizations") as [[| | | |items|]|];
    try (left; by eexists).
  right. exists arg, items. split; [done|]. fold loc.
  by destruct (updateEntries token loc fs items) as [[fs1 eff] r].
Qed.

(** X14: the error of line 26 (no directory found) is never raised: the
    property [isDirectory] tested on line 25 is a function, hence truthy.
    When the argument names no directory, the run is aborted by the system
    error of [statSync] or [readFileSync] instead, with nothing done. *)
Theorem update_never_reports_no_directory (token : option string)
  (cwd : list string) (fs : Node) (idOrPath : option string) :
  error (update token cwd fs idOrPath) <> Some (Error NoDirectory)
  /\ (forall arg, idOrPath = Some arg -> arg <> "" ->
        ~ isDirectoryAt fs (resolve cwd (locExtFolderOf arg)) ->
        update token cwd fs idOrPath = aborted fs SystemError).
Proof.
  split.
  - destruct (update_shape token cwd fs idOrPath)
      as [(e & -> & Hno & _)|(arg & items & _ & ->)].
    + simpl. congruence.
    + cbn [error]. intros Herr.
      destruct (updateEntries_spec token (resolve cwd (locExtFolderOf arg)) items fs)
        as (_ & _ & Hwhich).
      by destruct (Hwhich _ Herr).
  - intros arg -> Harg Hdir. unfold update.
    apply String.eqb_neq in Harg. rewrite Harg.
    pose proof (ScriptFacts.readFileSync_below_non_directory fs _ Hdir) as Hread.
    unfold statSync. unfold isDirectoryAt in Hdir.
    destruct (lookupNode fs (resolve cwd (locExtFolderOf arg))) as [[c|entries]|];
      [|destruct Hdir; by eexists|done].
    unfold isDirectoryProperty. simpl negb. cbv iota. by rewrite Hread.
Qed.

(** X14 at work: the argument names the file [/ext/package.json]. *)
Lemma update_never_reports_no_directory_witness :
  update None [] (extensionAt sampleManifest) (Some "/ext/package.json")
  = aborted (extensionAt sampleManifest) SystemError.
Proof.
  apply (proj2 (update_never_reports_no_directory None []
                  (extensionAt sampleManifest) (Some "/ext/package.json"))
           "/ext/package.json" eq_refl).
  - discriminate.
  - intros [entries Hdir]. vm_compute in Hdir. discriminate Hdir.
Defined.

(** Clearing only takes away: what is found afterwards was there before. *)
Lemma lookupEntry_removeEntry s seg entries :
  is_Some (lookupEntry s (removeEntry seg entries)) -> is_Some (lookupEntry s entries).
Proof.
  induction entries as [|[k n] entries IH]; [done|]. simpl.
  destruct (String.eqb_spec k seg) as [->|Hk].
  - intros Hs. destruct (String.eqb seg s); [by eexists|by apply IH].
  - simpl. destruct (String.eqb k s); [done|apply IH].
Qed.

Lemma lookupEntry_replaceEntry s seg n' entries :
  lookupEntry s (replaceEntry seg n' entries)
  = if String.eqb seg s then (fun _ => n') <$> lookupEntry seg entries else lookupEntry s entries.
Proof.
  induction entries as [|[k n] entries IH]; simpl; [by destruct (String.eqb seg s)|].
  destruct (String.eqb_spec k seg) as [->|Hk]; simpl.
  - by destruct (String.eqb seg s).
  - destruct (String.eqb_spec k s) as [->|Hks].
    + by apply String.eqb_neq in Hk; rewrite String.eqb_sym, Hk.
    + apply IH.
Qed.

Lemma lookupNode_rimraf loc : forall root l,
  is_Some (lookupNode (rimraf root loc) l) -> is_Some (lookupNode root l).
Proof.
  induction loc as [|seg rest IH]; intros root l; [by destruct root|].
  destruct l as [|s l]; [by eexists|].
  destruct root as [c|entries]; [by destruct rest|].
  assert (is_Some (lookupNode
            (match lookupEntry seg entries with
             | Some n => Dir (replaceEntry seg (rimraf n rest) entries)
             | None => Dir entries
             end) (s :: l))
          -> is_Some (lookupNode (Dir entries) (s :: l))) as Hdeep.
  { destruct (lookupEntry seg entries) as [n|] eqn:Hseg; [|done].
    cbn [lookupNode]. rewrite lookupEntry_replaceEntry.
    destruct (String.eqb_spec seg s) as [<-|Hs]; [|done].
    rewrite Hseg. simpl. apply IH. }
  destruct rest as [|seg' rest']; [|exact Hdeep].
  cbn [rimraf lookupNode].
  destruct (lookupEntry s (removeEntry seg entries)) as [n|] eqn:Hs;
    [|by intros [? ?]].
  destruct (lookupEntry_removeEntry s seg entries) as [n0 Hn0]; [by rewrite Hs|].
  rewrite Hn0. intros Hfound.
  assert (lookupEntry s (removeEntry seg entries) = lookupEntry s entries) as Hsame.
  { clear -Hs. induction entries as [|[k m] entries IHe]; [done|].
    simpl in Hs |- *. destruct (String.eqb_spec k seg) as [->|Hk].
    - destruct (String.eqb_spec seg s) as [->|Hne]; [|by apply IHe].
      exfalso. clear IHe. induction entries as [|[k' m'] entries IHe']; [done|].
      simpl in Hs. destruct (String.eqb_spec k' s) as [->|Hk']; [by apply IHe'|].
      simpl in Hs. apply String.eqb_neq in Hk'. rewrite Hk' in Hs. by apply IHe'.
    - simpl in Hs |- *. destruct (String.eqb k s); [done|by apply IHe]. }
  rewrite Hsame in Hs. by simplify_eq.
Qed.

Lemma existsSync_rimraf fs loc l :
  existsSync (rimraf fs loc) l = true -> existsSync fs l = true.
Proof.
  unfold existsSync. intros Hl%bool_decide_eq_true.
  apply bool_decide_eq_true. by apply (lookupNode_rimraf loc).
Qed.

(** What an entry does: it clears its folder, if the folder holds a
    [main.i18n.json], and then downloads into that folder. *)
Lemma updateEntry_effects token loc fs e :
  (forall l, existsSync (updateEntry token loc fs e).1.1 l = true ->
             existsSync fs l = true)
  /\ forall i folder,
       (updateEntry token loc fs e).1.2 !! i = Some (Cleared folder) ->
       (exists server userName languageId,
          (updateEntry token loc fs e).1.2 !! S i
          = Some (Download server userName token languageId folder))
       /\ existsSync fs folder = true
       /\ existsSync fs (joinPath folder "main.i18n.json") = true.
Proof.
  unfold updateEntry.
  destruct (getProp e "languageId") as [e0|languageId0]; [done|].
  destruct (_ || _); [done|].
  destruct (asPath _) as [e1|t]; [done|]. cbn [fst snd].
  destruct (existsSync fs (joinPath loc t)) eqn:Hfolder;
    [destruct (existsSync fs (joinPath (joinPath loc t) "main.i18n.json")) eqn:Hfile|];
    cbn [andb]; cbv iota.
  - split; [intros l; apply existsSync_rimraf|].
    intros [|[|i]] folder Hi; simplify_eq/=. split; [by eexists _, _, _|done].
  - split; [done|]. by intros [|i] folder Hi.
  - split; [done|]. by intros [|i] folder Hi.
Qed.

Lemma updateEntries_effects token loc items : forall fs,
  (forall l, existsSync (updateEntries token loc fs items).1.1 l = true ->
             existsSync fs l = true)
  /\ forall i folder,
       (updateEntries token loc fs items).1.2 !! i = Some (Cleared folder) ->
       (exists server userName languageId,
          (updateEntries token loc fs items).1.2 !! S i
          = Some (Download server userName token languageId folder))
       /\ existsSync fs folder = true
       /\ existsSync fs (joinPath folder "main.i18n.json") = true.
Proof.
  induction items as [|x items IH]; intros fs; [by split|].
  cbn [updateEntries].
  destruct (updateEntry_effects token loc fs x) as [Hmono Hclears].
  destruct (updateEntry token loc fs x) as [[fs1 eff] [e1|]]; [done|].
  destruct (IH fs1) as [Hmono' Hclears'].
  destruct (updateEntries token loc fs1 items) as [[fs2 eff2] r].
  cbn [fst snd] in *. split; [by intros l Hl%Hmono'%Hmono|].
  intros i folder Hi. apply lookup_app_Some in Hi as [Hi|[Hlen Hi]].
  - destruct (Hclears i folder Hi) as ((server & userName & languageId & Hnext) & Hex).
    split; [|done]. exists server, userName, languageId.
    by rewrite (lookup_app_l_Some _ _ _ _ Hnext).
  - destruct (Hclears' _ folder Hi)
      as ((server & userName & languageId & Hnext) & Hfolder & Hfile).
    split; [|by split; apply Hmono].
    exists server, userName, languageId.
    rewrite lookup_app_r by lia. rewrite <- Hnext. f_equal. lia.
Qed.

(** X15: the script clears a folder only to refill it: every clearing is
    followed at once by the download into the folder cleared, and the
    folder cleared held a [main.i18n.json] before the run.  A run that ends
    in an error other than a [TypeError] or the error of line 40 (a
    localization without its properties) has cleared nothing and started no
    download. *)
Theorem update_clears_to_refill (token : option string)
  (cwd : list string) (fs : Node) (idOrPath : option string) :
  let run := update token cwd fs idOrPath in
  (forall i folder,
     effects run !! i = Some (Cleared folder) ->
     (exists server userName languageId,
        effects run !! S i = Some (Download server userName token languageId folder))
     /\ existsSync fs folder = true
     /\ existsSync fs (joinPath folder "main.i18n.json") = true)
  /\ (forall err, error run = Some err ->
        err <> TypeError -> err <> Error BadLocalization ->
        effects run = []).
Proof.
  cbv zeta.
  destruct (update_shape token cwd fs idOrPath)
    as [(e & -> & _)|(arg & items & _ & ->)]; [done|].
  cbn [error effects].
  destruct (updateEntries_spec token (resolve cwd (locExtFolderOf arg)) items fs)
    as (_ & _ & Hwhich).
  split.
  - apply updateEntries_effects.
  - intros err Herr Htype Hbad. by destruct (Hwhich _ Herr).
Qed.

(** X15 at work: the translations pulled earlier are cleared, then pulled
    again. *)
Lemma update_clears_to_refill_witness :
  (exists server userName languageId,
     effects (update None [] staleExtension (Some "/ext")) !! 1
     = Some (Download server userName None languageId ["ext"; "translations"]))
  /\ existsSync staleExtension ["ext"; "translations"] = true.
Proof.
  destruct (proj1 (update_clears_to_refill None [] staleExtension (Some "/ext"))
              0 ["ext"; "translations"] eq_refl) as (Hnext & Hfolder & _).
  exact (conj Hnext Hfolder).
Defined.

(** With a manifest that lists localizations, the run is what the entries
    give. *)
Lemma update_runs_entries token cwd fs arg j items :
  arg <> "" ->
  manifestAt fs (resolve cwd (locExtFolderOf arg)) = Some j ->
  localizationsOf j = Some items ->
  update token cwd fs (Some arg)
  = mkRun (updateEntries token (resolve cwd (locExtFolderOf arg)) fs items).1.1
          (updateEntries token (resolve cwd (locExtFolderOf arg)) fs items).1.2
          (updateEntries token (resolve cwd (locExtFolderOf arg)) fs items).2.
Proof.
  intros Harg Hman Hloc. unfold update.
  apply String.eqb_neq in Harg. rewrite Harg.
  set (loc := resolve cwd (locExtFolderOf arg)) in *.
  unfold manifestAt in Hman. unfold statSync, readFileSync.
  destruct (lookupNode fs (joinPath loc "package.json")) as [[[j'|]|]|] eqn:Hfile;
    try done.
  injection Hman as ->.
  rewrite ScriptFacts.joinPath_manifest, ScriptFacts.lookupNode_app in Hfile.
  destruct (lookupNode fs loc) as [[c|entries]|]; try done.
  unfold isDirectoryProperty. simpl negb. cbv iota. simpl JSON_parse. cbv iota.
  unfold localizationsOf in Hloc.
  destruct (member j "contributes") as [c|] eqn:Hc; [|done].
  destruct (member c "localizations") as [[| | | |items'|]|] eqn:Hitems; try done.
  injection Hloc as ->.
  destruct j; try done. destruct c; try done.
  unfold getProp. rewrite Hc. simpl truthy. simpl negb. cbv iota.
  simpl default. rewrite Hitems. simpl in Hitems. rewrite ?Hitems.
  simpl truthy. simpl negb. cbv iota.
  by destruct (updateEntries token loc fs items) as [[fs1 eff] r].
Qed.

(** X16: with a manifest that lists localizations, the downloads of a run
    are, in order, those the first [k] entries ask for, one for each; the
    run ends without an error exactly when [k] is the number of entries,
    and an error is then a [TypeError] or the error of line 40. *)
Theorem update_downloads (token : option string) (cwd : list string) (fs : Node)
  (arg : string) (j : Json) (items : list Json) :
  arg <> "" ->
  manifestAt fs (resolve cwd (locExtFolderOf arg)) = Some j ->
  localizationsOf j = Some items ->
  let run := update token cwd fs (Some arg) in
  exists k, k <= length items
    /\ Some <$> List.filter isDownload (effects run)
       = downloadOf token (resolve cwd (locExtFolderOf arg)) <$> take k items
    /\ (error run = None <-> k = length items)
    /\ (forall err, error run = Some err ->
          err = TypeError \/ err = Error BadLocalization).
Proof.
  intros Harg Hman Hloc. cbv zeta.
  rewrite (update_runs_entries token cwd fs arg j items Harg Hman Hloc).
  cbn [error effects].
  destruct (updateEntries_spec token (resolve cwd (locExtFolderOf arg)) items fs)
    as ((k & Hk & Hdown & Hnone & Hsome) & _ & Hwhich).
  exists k. split; [done|]. split; [done|]. split; [|done].
  split; [done|]. intros ->.
  destruct (updateEntries _ _ _ _).2 as [err|]; [|done].
  assert (length items < length items) by (apply Hsome; by eexists). lia.
Qed.

(** X16 at work: one complete localization gives one download. *)
Lemma update_downloads_witness :
  exists k, k <= 1
    /\ Some <$> List.filter isDownload
                  (effects (update None [] (extensionAt germanManifest) (Some "/ext")))
       = downloadOf None (resolve [] (locExtFolderOf "/ext")) <$> take k [germanEntry]
    /\ (error (update None [] (extensionAt germanManifest) (Some "/ext")) = None
        <-> k = 1)
    /\ (forall err,
          error (update None [] (extensionAt germanManifest) (Some "/ext")) = Some err ->
          err = TypeError \/ err = Error BadLocalization).
Proof.
  apply (update_downloads None [] (extensionAt germanManifest) "/ext"
           germanManifest [germanEntry]).
  - discriminate.
  - reflexivity.
  - reflexivity.
Defined.

(** *** The argument *)

Lemma isWordChar_not_slash c : isWordChar c = true -> isSlash c = false.
Proof.
  unfold isWordChar, isSlash. intros Hword.
  destruct (Ascii.eqb c "/") eqn:Hc; [|done].
  apply Ascii.eqb_eq in Hc as ->. by vm_compute in Hword.
Qed.

Lemma allWordChars_no_slash s : allWordChars s = true -> hasSlash s = false.
Proof.
  induction s as [|c s IH]; [done|]. simpl.
  intros [Hc Hs]%andb_true_iff. by rewrite (isWordChar_not_slash c Hc), IH.
Qed.

Lemma isLanguageId_no_slash s : isLanguageId s = true -> hasSlash s = false.
Proof.
  destruct s as [|a [|b rest]]; try done. cbn [isLanguageId hasSlash].
  intros [[Ha Hb]%andb_true_iff Hrest]%andb_true_iff.
  rewrite (isWordChar_not_slash a Ha), (isWordChar_not_slash b Hb). simpl.
  destruct rest as [|d [|c tl]]; try done.
  - by destruct (Ascii.eqb_spec d "-") as [->|?]; [|destruct d as [[] [] [] [] [] [] [] []]].
  - destruct (Ascii.eqb_spec d "-") as [->|Hd].
    + apply andb_true_iff in Hrest as [Hc Htl]. cbn [hasSlash].
      by rewrite (isWordChar_not_slash c Hc), (allWordChars_no_slash tl Htl).
    + by destruct d as [[] [] [] [] [] [] [] []].
Qed.

Lemma rev_app_append s1 : forall s2,
  String.rev_app s1 s2 = String.rev_app s1 "" +:+ s2.
Proof.
  induction s1 as [|a s1 IH]; intros s2; [done|]. simpl.
  rewrite (IH (String a s2)), (IH (String a "")). by rewrite string_append_assoc.
Qed.

Lemma rev_cons c cur : String.rev (String c cur) = String.rev cur +:+ String c "".
Proof. unfold String.rev. simpl. apply rev_app_append. Qed.

(** A piece without a slash is read to its end. *)
Lemma splitOn_no_slash s : forall cur,
  hasSlash s = false -> String.rev cur +:+ s <> "" ->
  splitOn isSlash cur s = [String.rev cur +:+ s].
Proof.
  induction s as [|c s IH]; intros cur Hs Hne.
  - simpl. destruct (String.eqb_spec cur "") as [->|Hcur]; [done|].
    f_equal. clear. induction (String.rev cur) as [|x r IHr]; [done|].
    change (String x r = String x (r +:+ "")). by f_equal.
  - cbn [hasSlash] in Hs. apply orb_false_elim in Hs as [Hc Hs].
    cbn [splitOn]. rewrite Hc.
    rewrite (IH (String c cur) Hs).
    + f_equal. rewrite rev_cons. by rewrite string_append_assoc.
    + rewrite rev_cons, string_append_assoc. destruct (String.rev cur); done.
Qed.

(** X17: an argument with a slash in it is taken as the path it is, and a
    language id [xx] or [xx-yyy] stands for the folder
    [vscode-localization-xx] beside the working directory. *)
Theorem locExtFolderOf_resolved (cwd : list string) (arg : string) :
  (hasSlash arg = true -> locExtFolderOf arg = arg)
  /\ (isLanguageId arg = true ->
      resolve cwd (locExtFolderOf arg)
      = removelast cwd ++ ["vscode-localization-" +:+ arg]).
Proof.
  split.
  - intros Hslash. unfold locExtFolderOf.
    destruct (isLanguageId arg) eqn:Hid; [|done].
    apply isLanguageId_no_slash in Hid. congruence.
  - intros Hid. unfold locExtFolderOf. rewrite Hid.
    apply isLanguageId_no_slash in Hid.
    unfold resolve.
    change (isAbsolute ("../vscode-localization-" +:+ arg)) with false. cbv iota.
    change (splitOn isSlash "" ("../vscode-localization-" +:+ arg))
      with (".." :: splitOn isSlash "-noitazilacol-edocsv" arg).
    rewrite (splitOn_no_slash arg "-noitazilacol-edocsv" Hid); [|done].
    reflexivity.
Qed.

(** X17 at work: the language id [pt-br], in [/repos/vscode]. *)
Lemma locExtFolderOf_resolved_witness :
  resolve ["repos"; "vscode"] (locExtFolderOf "pt-br")
  = ["repos"; "vscode-localization-pt-br"].
Proof.
  apply (proj2 (locExtFolderOf_resolved ["repos"; "vscode"] "pt-br")).
  reflexivity.
Defined.

End ScriptRuns.
